(** * Fixie.run MCP servers: a shallow embedding and its verified properties

    The development follows the two source files

    - [src/mcp_servers/blockchain_monitor.py] (module [Monitor]): the class
      [BlockchainMonitor] with [monitor_events], [check_vulnerabilities] and
      [track_transactions];
    - [src/mcp_servers/web3_aggregator.py] (module [Aggregator]): the class
      [Web3Aggregator] with [fetch_tvl], [get_protocol_data],
      [query_blockchain] and [get_token_price].

    Python values are modelled by [json]; a raised exception by [Raise];
    every method body runs in a state-and-exception monad whose state records
    the outbound calls made so far (and, for the aggregator, the cache). *)

From Stdlib Require Import ZArith String Ascii List Lia Bool.
From Stdlib.Strings Require Import Byte.
From stdpp Require Import gmap strings list pretty.

Import ListNotations.
Set Warnings "-register-all".
Local Open Scope string_scope.
Local Open Scope Z_scope.

(* ===================================================================== *)
(** ** Python values, exceptions and the builtins the source relies on    *)
(* ===================================================================== *)

(** JSON-like Python values: the results of the tools and the payloads of
    the upstream services.  A [JDict] keeps its keys in insertion order. *)
Inductive json : Type :=
| JNull
| JBool (b : bool)
| JInt (n : Z)
| JFloat (literal : string)
| JStr (s : string)
| JList (l : list json)
| JDict (kv : list (string * json)).

(** A Python exception; [str(e)] is its message. *)
Inductive exn : Type := Exception (msg : string).

Definition str_exn (e : exn) : string := match e with Exception m => m end.

(** The outcome of a step that may raise. *)
Inductive except (A : Type) : Type :=
| Raise (e : exn)
| Ok (a : A).
Arguments Raise {A} e.
Arguments Ok {A} a.

(** [str(n)] for an [int]. *)
Definition str_int (n : Z) : string := pretty n.

(** [d[k]] lookup in insertion-ordered key/value pairs. *)
Fixpoint assoc_get {V : Type} (k : string) (kv : list (string * V)) : option V :=
  match kv with
  | [] => None
  | (k', v) :: rest => if String.eqb k k' then Some v else assoc_get k rest
  end.

(** The field [k] of a result, when the result is an object that has it. *)
Definition field (k : string) (v : json) : option json :=
  match v with
  | JDict kv => assoc_get k kv
  | _ => None
  end.

Definition is_dict (v : json) : bool :=
  match v with JDict _ => true | _ => false end.

Definition type_name (v : json) : string :=
  match v with
  | JNull => "NoneType"
  | JBool _ => "bool"
  | JInt _ => "int"
  | JFloat _ => "float"
  | JStr _ => "str"
  | JList _ => "list"
  | JDict _ => "dict"
  end.

(** [v.get(k, default)]: only a [dict] has the method; on any other value
    the attribute lookup raises [AttributeError]. *)
Definition py_get (v : json) (k : string) (default : json) : except json :=
  match v with
  | JDict kv => Ok (match assoc_get k kv with Some x => x | None => default end)
  | _ => Raise (Exception ("'" +:+ type_name v +:+ "' object has no attribute 'get'"))
  end.

(** [sub in s] for two [str]. *)
Fixpoint str_prefix (p s : string) : bool :=
  match p, s with
  | EmptyString, _ => true
  | String a p', String b s' => if Ascii.eqb a b then str_prefix p' s' else false
  | String _ _, EmptyString => false
  end.

Fixpoint str_contains (sub s : string) : bool :=
  match s with
  | EmptyString => str_prefix sub EmptyString
  | String _ s' => str_prefix sub s || str_contains sub s'
  end.

(** [HexBytes.hex()]: the [0x]-prefixed lower-case rendering, two digits a
    byte.  The source compares the rendering of an empty code with ["0x"]. *)
Definition hex_digit (n : N) : ascii :=
  match String.get (N.to_nat n) "0123456789abcdef" with
  | Some c => c
  | None => "0"%char
  end.

Definition byte_hex (b : byte) : string :=
  String (hex_digit (Byte.to_N b / 16)) (String (hex_digit (Byte.to_N b mod 16)) EmptyString).

Fixpoint bytes_hex (bs : list byte) : string :=
  match bs with
  | [] => EmptyString
  | b :: rest => byte_hex b +:+ bytes_hex rest
  end.

Definition hexbytes_hex (bs : list byte) : string := "0x" +:+ bytes_hex bs.

(** [int(s, 16)] on a [str]: optional surrounding whitespace, an optional
    sign, an optional [0x]/[0X] prefix (one underscore may follow it), then
    hexadecimal digits in groups separated by single underscores.  A
    character of the model is a code point below 256.  The white space
    [int] skips is that of C ([\t] to [\r], and the blank), together with
    the two white-space code points above 127, which [int] turns into
    blanks before it parses; the separators 28 to 31 are not skipped. *)
Definition is_space (c : ascii) : bool :=
  let n := N_of_ascii c in
  ((9 <=? n) && (n <=? 13) || (n =? 32) || (n =? 133) || (n =? 160))%N.

Definition hex_digit_val (c : ascii) : option Z :=
  let n := Z.of_N (N_of_ascii c) in
  if (48 <=? n) && (n <=? 57) then Some (n - 48)
  else if (97 <=? n) && (n <=? 102) then Some (n - 87)
  else if (65 <=? n) && (n <=? 70) then Some (n - 55)
  else None.

Fixpoint lstrip (s : string) : string :=
  match s with
  | String c s' => if is_space c then lstrip s' else s
  | EmptyString => EmptyString
  end.

Fixpoint all_space (s : string) : bool :=
  match s with
  | String c s' => is_space c && all_space s'
  | EmptyString => true
  end.

(** The digit loop: [after_digit] tells whether the previous character was
    a digit (an underscore is accepted only there, and the literal may not
    end on one).  Returns the value and the unread rest. *)
Fixpoint hex_digits (s : string) (acc : Z) (after_digit : bool) : option (Z * string) :=
  match s with
  | EmptyString => if after_digit then Some (acc, EmptyString) else None
  | String c s' =>
      match hex_digit_val c with
      | Some d => hex_digits s' (16 * acc + d) true
      | None =>
          if Ascii.eqb c "_"%char
          then (if after_digit then hex_digits s' acc false else None)
          else (if after_digit then Some (acc, s) else None)
      end
  end.

Definition strip_sign (s : string) : bool * string :=
  match s with
  | String "-" s' => (true, s')
  | String "+" s' => (false, s')
  | _ => (false, s)
  end.

Definition strip_0x (s : string) : string :=
  match s with
  | String "0" (String "x" s') | String "0" (String "X" s') =>
      match s' with
      | String "_" s'' => s''
      | _ => s'
      end
  | _ => s
  end.

Definition parse_int16 (s : string) : option Z :=
  let '(neg, s1) := strip_sign (lstrip s) in
  match hex_digits (strip_0x s1) 0 false with
  | Some (n, rest) => if all_space rest then Some (if neg then - n else n) else None
  | None => None
  end.

(** [repr(s)] for a [str]: single quotes, unless the string holds a single
    quote and no double quote; the quote and the backslash are escaped,
    tab, newline and return are written [\t], [\n], [\r], and any other
    character that is not printable is written [\xhh]. *)
Definition squote : ascii := ascii_of_N 39.
Definition dquote : ascii := ascii_of_N 34.
Definition backslash : ascii := ascii_of_N 92.

Fixpoint has_char (c : ascii) (s : string) : bool :=
  match s with
  | EmptyString => false
  | String a s' => Ascii.eqb a c || has_char c s'
  end.

Definition printable (c : ascii) : bool :=
  let n := N_of_ascii c in
  ((32 <=? n) && (n <=? 126) || (161 <=? n) && negb (n =? 173))%N.

Definition repr_char (quote c : ascii) : string :=
  let n := N_of_ascii c in
  if Ascii.eqb c quote || Ascii.eqb c backslash
  then String backslash (String c EmptyString)
  else if (n =? 9)%N then String backslash "t"
  else if (n =? 10)%N then String backslash "n"
  else if (n =? 13)%N then String backslash "r"
  else if printable c then String c EmptyString
  else String backslash
         (String "x" (String (hex_digit (n / 16))
                        (String (hex_digit (n mod 16)) EmptyString))).

Fixpoint repr_body (quote : ascii) (s : string) : string :=
  match s with
  | EmptyString => EmptyString
  | String c s' => repr_char quote c +:+ repr_body quote s'
  end.

Definition repr (s : string) : string :=
  let quote := if has_char squote s && negb (has_char dquote s)
               then dquote else squote in
  String quote (repr_body quote s +:+ String quote EmptyString).

(** The [ValueError] of [int] quotes the literal with the format [%.200R]:
    the first 200 characters of its [repr]. *)
Definition int16 (v : json) : except Z :=
  match v with
  | JStr s =>
      match parse_int16 s with
      | Some n => Ok n
      | None => Raise (Exception ("invalid literal for int() with base 16: "
                                  +:+ String.substring 0 200 (repr s)))
      end
  | _ => Raise (Exception "int() can't convert non-string with explicit base")
  end.

(** [l[-n:]] and [l[:n]] with Python's treatment of a negative bound, and
    [range(start, stop, -1)]. *)
Definition slice_last {A : Type} (n : nat) (l : list A) : list A :=
  skipn (length l - n)%nat l.

Definition slice_to {A : Type} (n : Z) (l : list A) : list A :=
  if 0 <=? n then firstn (Z.to_nat n) l
  else firstn (length l - Z.to_nat (- n))%nat l.

Definition range_down (start stop : Z) : list Z :=
  map (fun i => start - Z.of_nat i) (seq 0 (Z.to_nat (start - stop))).

(* ===================================================================== *)
(** ** The state-and-exception monad of a method body                     *)
(* ===================================================================== *)

(** A computation reads and updates a state [S] and either returns a value
    or raises.  The state survives a raise: Python does not roll back. *)
Definition M (S A : Type) : Type := S -> except A * S.

Definition ret {S A : Type} (a : A) : M S A := fun s => (Ok a, s).

Definition bind {S A B : Type} (m : M S A) (k : A -> M S B) : M S B :=
  fun s =>
    match m s with
    | (Ok a, s') => k a s'
    | (Raise e, s') => (Raise e, s')
    end.

Definition lift {S A : Type} (r : except A) : M S A := fun s => (r, s).

Definition try_except {S A : Type} (body : M S A) (handler : exn -> M S A) : M S A :=
  fun s =>
    match body s with
    | (Ok a, s') => (Ok a, s')
    | (Raise e, s') => handler e s'
    end.

Declare Scope py_scope.
Delimit Scope py_scope with py.
Notation "x <- c1 ;; c2" := (bind c1 (fun x => c2))
  (at level 100, c1 at next level, right associativity) : py_scope.

Definition get_state {S : Type} : M S S := fun s => (Ok s, s).

Local Open Scope py_scope.

(* ===================================================================== *)
(** ** The tool protocol: what a server advertises and what it answers    *)
(* ===================================================================== *)

Module Mcp.

(** [mcp.types.TextContent] and [mcp.types.Tool]. *)
Record TextContent : Type := { type : string; text : string }.

Record Tool : Type := {
  name : string;
  description : string;
  inputSchema : json
}.

(** [arguments.get(key, default)] and [arguments[key]] on an argument that
    may be absent; the message of a [KeyError] is the repr of the key. *)
Definition get {A : Type} (v : option A) (default : A) : A :=
  match v with Some x => x | None => default end.

Definition item {A : Type} (key : string) (v : option A) : except A :=
  match v with
  | Some x => Ok x
  | None => Raise (Exception ("'" +:+ key +:+ "'"))
  end.

(** Shorthands for the schema literals. *)
Definition string_property (extra : list (string * json)) : json :=
  JDict (("type", JStr "string") :: extra).

Definition integer_property (extra : list (string * json)) : json :=
  JDict (("type", JStr "integer") :: extra).

Definition object_schema (properties : list (string * json))
    (extra : list (string * json)) : json :=
  JDict (("type", JStr "object") :: ("properties", JDict properties) :: extra).

End Mcp.

(* ===================================================================== *)
(** ** blockchain_monitor.py                                              *)
(* ===================================================================== *)

Module Monitor.

(** The parts of [web3.py] the monitor calls without going to the network.
    They are outside the repository and are taken as parameters:
    [Web3.is_address], [Web3.to_checksum_address] (raises on a value it
    cannot normalise) and [str(w3.from_wei(v, unit))] (raises on a value out
    of range). *)
Record web3 : Type := {
  is_address : string -> bool;
  to_checksum_address : string -> except string;
  from_wei : Z -> string -> except string
}.

(** A transaction of a block fetched with [full_transactions=True]. *)
Record tx : Type := {
  tx_hash : list byte;
  tx_from : string;
  tx_to : option string;
  tx_value : Z;
  tx_gasPrice : option Z
}.

Record block : Type := { transactions : list tx }.

(** A decoded log entry returned by an event filter. *)
Record log_entry : Type := {
  blockNumber : Z;
  transactionHash : list byte;
  args : list (string * json)
}.

(** What the JSON-RPC endpoint behind a provider answers.  Within one
    invocation no request is issued twice, so the answers need not depend
    on the history.  [node_connected] is the outcome of the probe of
    [is_connected()]: [web3.py] answers [False] when the request fails with
    an [OSError] or the reply is not a well-formed one, and lets any other
    exception of the request (a reply that is not JSON, say) escape. *)
Record node : Type := {
  node_connected : except bool;
  node_block_number : except Z;
  node_new_filter : string -> string -> Z -> except Z;
  node_filter_logs : Z -> except (list log_entry);
  node_get_code : string -> except (list byte);
  node_get_transaction_count : string -> except Z;
  node_get_balance : string -> except Z;
  node_get_block : Z -> except block
}.

(** The environment of an invocation: the node behind each endpoint URL and
    the successive readings of [datetime.now().isoformat()]. *)
Record world : Type := {
  node_at : string -> node;
  clock_iso : nat -> string
}.

(** An outbound JSON-RPC request, tagged with the endpoint it goes to. *)
Inductive rpc : Type :=
| web3_clientVersion (endpoint : string)
| eth_blockNumber (endpoint : string)
| eth_newFilter (endpoint address event : string) (fromBlock : Z)
| eth_getFilterLogs (endpoint : string) (filter_id : Z)
| eth_getCode (endpoint address : string)
| eth_getTransactionCount (endpoint address : string)
| eth_getBalance (endpoint address : string)
| eth_getBlockByNumber (endpoint : string) (number : Z).

(** [self.providers]: chain identifier to the endpoint of its provider. *)
Definition providers : list (string * string) :=
  [ ("polygon-zkevm", "https://zkevm-rpc.com");
    ("scroll", "https://rpc.scroll.io");
    ("zksync", "https://mainnet.era.zksync.io") ].

Section Methods.

Variable lib : web3.
Variable w : world.

(** The state of a method body is the list of requests sent so far. *)
Definition call {A : Type} (r : rpc) (answer : except A) : M (list rpc) A :=
  fun sent => (answer, (sent ++ [r])%list).

(** [w3.is_connected()] probes the endpoint; the probe may raise. *)
Definition is_connected (w3 : string) : M (list rpc) bool :=
  call (web3_clientVersion w3) (node_connected (node_at w w3)).

Definition block_number (w3 : string) : M (list rpc) Z :=
  call (eth_blockNumber w3) (node_block_number (node_at w w3)).

Definition create_filter (w3 address event : string) (fromBlock : Z) : M (list rpc) Z :=
  call (eth_newFilter w3 address event fromBlock)
       (node_new_filter (node_at w w3) address event fromBlock).

Definition get_all_entries (w3 : string) (filter_id : Z) : M (list rpc) (list log_entry) :=
  call (eth_getFilterLogs w3 filter_id) (node_filter_logs (node_at w w3) filter_id).

Definition get_code (w3 address : string) : M (list rpc) (list byte) :=
  call (eth_getCode w3 address) (node_get_code (node_at w w3) address).

Definition get_transaction_count (w3 address : string) : M (list rpc) Z :=
  call (eth_getTransactionCount w3 address)
       (node_get_transaction_count (node_at w w3) address).

Definition get_balance (w3 address : string) : M (list rpc) Z :=
  call (eth_getBalance w3 address) (node_get_balance (node_at w w3) address).

Definition get_block (w3 : string) (number : Z) : M (list rpc) block :=
  call (eth_getBlockByNumber w3 number) (node_get_block (node_at w w3) number).

Definition error1 (msg : string) : json := JDict [("error", JStr msg)].

(** *** monitor_events *)

Definition event_record (i : nat) (event : log_entry) : json :=
  JDict [ ("block_number", JInt (blockNumber event));
          ("transaction_hash", JStr (hexbytes_hex (transactionHash event)));
          ("args", JDict (args event));
          ("timestamp", JStr (clock_iso w i)) ].

Definition monitor_events_body (contract_address chain event_name : string)
    (from_block : option Z) : M (list rpc) json :=
  match assoc_get chain providers with
  | None => ret (error1 ("Unsupported chain: " +:+ chain))
  | Some w3 =>
      connected <- is_connected w3 ;;
      if negb connected then ret (error1 ("Failed to connect to " +:+ chain))
      else if negb (is_address lib contract_address)
      then ret (error1 ("Invalid contract address: " +:+ contract_address))
      else
        contract_address <- lift (to_checksum_address lib contract_address) ;;
        current_block <- block_number w3 ;;
        let from_block :=
          match from_block with
          | Some n => if n =? 0 then current_block - 1000 else n
          | None => current_block - 1000
          end in
        let fetch (name : string) : M (list rpc) json :=
          event_filter <- create_filter w3 contract_address name from_block ;;
          events <- get_all_entries w3 event_filter ;;
          ret (JDict [ ("chain", JStr chain);
                       ("contract", JStr contract_address);
                       ("event_name", JStr event_name);
                       ("from_block", JInt from_block);
                       ("to_block", JInt current_block);
                       ("events_count", JInt (Z.of_nat (length events)));
                       ("events", JList (imap event_record (slice_last 50 events))) ]) in
        if String.eqb event_name "Transfer" then fetch "Transfer"
        else if String.eqb event_name "Staked" then fetch "Staked"
        else ret (error1 ("Unknown event: " +:+ event_name))
  end.

Definition monitor_events (contract_address chain event_name : string)
    (from_block : option Z) : M (list rpc) json :=
  try_except (monitor_events_body contract_address chain event_name from_block)
    (fun e => ret (JDict [("error", JStr (str_exn e)); ("chain", JStr chain)])).

(** *** check_vulnerabilities *)

Definition finding (severity type description : string) : json :=
  JDict [ ("severity", JStr severity); ("type", JStr type);
          ("description", JStr description) ].

Definition selfdestruct_finding : json :=
  finding "HIGH" "SELFDESTRUCT"
          "Contract contains SELFDESTRUCT opcode - can be destroyed".

Definition delegatecall_finding : json :=
  finding "MEDIUM" "DELEGATECALL"
          "Contract uses DELEGATECALL - ensure proper access control".

Definition size_finding (bytecode_size : Z) : json :=
  finding "LOW" "SIZE_LIMIT"
          ("Contract size (" +:+ str_int bytecode_size +:+
           " bytes) exceeds recommended limit").

(** Checks 2 to 4 on the hex string of the code. *)
Definition scan_vulnerabilities (bytecode : string) : list json :=
  if str_contains "ff" bytecode then [selfdestruct_finding] else [].

Definition bytecode_size_of (bytecode : string) : Z :=
  Z.of_nat (String.length bytecode) / 2.

Definition scan_warnings (bytecode : string) : list json :=
  ((if str_contains "f4" bytecode then [delegatecall_finding] else [])
   ++ (if bytecode_size_of bytecode >? 24576
       then [size_finding (bytecode_size_of bytecode)] else []))%list.

Definition check_vulnerabilities_body (contract_address chain : string) : M (list rpc) json :=
  let failed := ret (error1 ("Connection failed to " +:+ chain)) in
  match assoc_get chain providers with
  | None => failed
  | Some w3 =>
      connected <- is_connected w3 ;;
      if negb connected then failed
      else
        contract_address <- lift (to_checksum_address lib contract_address) ;;
        code <- get_code w3 contract_address ;;
        let bytecode := hexbytes_hex code in
        if String.eqb bytecode "0x"
        then ret (error1 "No contract found at this address")
        else
          ret (JDict [ ("chain", JStr chain);
                       ("contract", JStr contract_address);
                       ("bytecode_size", JInt (bytecode_size_of bytecode));
                       ("vulnerabilities", JList (scan_vulnerabilities bytecode));
                       ("warnings", JList (scan_warnings bytecode));
                       ("scan_timestamp", JStr (clock_iso w 0));
                       ("recommendation",
                        JStr "Run full audit with Slither or Mythril for production contracts") ])
  end.

Definition check_vulnerabilities (contract_address chain : string) : M (list rpc) json :=
  try_except (check_vulnerabilities_body contract_address chain)
    (fun e => ret (error1 (str_exn e))).

(** *** track_transactions *)

(** [tx['from'] == address or tx['to'] == address] *)
Definition touches (address : string) (t : tx) : bool :=
  String.eqb (tx_from t) address
  || match tx_to t with Some a => String.eqb a address | None => false end.

Definition tx_record (address : string) (block_num : Z) (t : tx) : except json :=
  match from_wei lib (tx_value t) "ether" with
  | Raise e => Raise e
  | Ok value =>
      match from_wei lib (match tx_gasPrice t with Some g => g | None => 0 end) "gwei" with
      | Raise e => Raise e
      | Ok gas_price =>
          Ok (JDict [ ("hash", JStr (hexbytes_hex (tx_hash t)));
                      ("from", JStr (tx_from t));
                      ("to", match tx_to t with Some a => JStr a | None => JNull end);
                      ("value", JStr value);
                      ("block", JInt block_num);
                      ("gas_price", JStr gas_price);
                      ("type", JStr (if String.eqb (tx_from t) address
                                     then "sent" else "received")) ])
      end
  end.

(** The inner loop over the transactions of one block; returning early is
    the [break]. *)
Fixpoint scan_transactions (address : string) (tx_count block_num : Z)
    (txs : list tx) (found : list json) : M (list rpc) (list json) :=
  match txs with
  | [] => ret found
  | t :: rest =>
      if touches address t then
        entry <- lift (tx_record address block_num t) ;;
        let found := (found ++ [entry])%list in
        if Z.of_nat (length found) >=? tx_count then ret found
        else scan_transactions address tx_count block_num rest found
      else scan_transactions address tx_count block_num rest found
  end.

(** The outer loop over the block numbers of the range. *)
Fixpoint scan_blocks (w3 address : string) (tx_count : Z)
    (block_nums : list Z) (found : list json) : M (list rpc) (list json) :=
  match block_nums with
  | [] => ret found
  | block_num :: rest =>
      blk <- get_block w3 block_num ;;
      found <- scan_transactions address tx_count block_num (transactions blk) found ;;
      if Z.of_nat (length found) >=? tx_count then ret found
      else scan_blocks w3 address tx_count rest found
  end.

Definition track_transactions_body (address chain : string) (tx_count : Z) : M (list rpc) json :=
  let failed := ret (error1 ("Connection failed to " +:+ chain)) in
  match assoc_get chain providers with
  | None => failed
  | Some w3 =>
      connected <- is_connected w3 ;;
      if negb connected then failed
      else
        address <- lift (to_checksum_address lib address) ;;
        nonce <- get_transaction_count w3 address ;;
        balance_wei <- get_balance w3 address ;;
        balance_eth <- lift (from_wei lib balance_wei "ether") ;;
        current_block <- block_number w3 ;;
        found <- scan_blocks w3 address tx_count
                   (range_down current_block (Z.max (current_block - 100) 0)) [] ;;
        ret (JDict [ ("chain", JStr chain);
                     ("address", JStr address);
                     ("balance_eth", JStr balance_eth);
                     ("transaction_count", JInt nonce);
                     ("recent_transactions", JList (slice_to tx_count found));
                     ("timestamp", JStr (clock_iso w 0)) ])
  end.

Definition track_transactions (address chain : string) (tx_count : Z) : M (list rpc) json :=
  try_except (track_transactions_body address chain tx_count)
    (fun e => ret (error1 (str_exn e))).

End Methods.

(** A tool invocation of the monitor server, with the defaults of
    [call_tool] resolved. *)
Inductive invocation : Type :=
| Monitor_events (contract_address chain event_name : string) (from_block : option Z)
| Check_vulnerabilities (contract_address chain : string)
| Track_transactions (address chain : string) (tx_count : Z).

Definition invoke (lib : web3) (w : world) (i : invocation) : M (list rpc) json :=
  match i with
  | Monitor_events a c e f => monitor_events lib w a c e f
  | Check_vulnerabilities a c => check_vulnerabilities lib w a c
  | Track_transactions a c n => track_transactions lib w a c n
  end.

(** The [try] block of an invocation, before the [except] clause. *)
Definition invoke_body (lib : web3) (w : world) (i : invocation) : M (list rpc) json :=
  match i with
  | Monitor_events a c e f => monitor_events_body lib w a c e f
  | Check_vulnerabilities a c => check_vulnerabilities_body lib w a c
  | Track_transactions a c n => track_transactions_body lib w a c n
  end.

(** The chain of an invocation. *)
Definition chain_of (i : invocation) : string :=
  match i with
  | Monitor_events _ c _ _ | Check_vulnerabilities _ c | Track_transactions _ c _ => c
  end.

(** The block numbers fetched, in the order of the requests. *)
Fixpoint examined (sent : list rpc) : list Z :=
  match sent with
  | [] => []
  | eth_getBlockByNumber _ n :: rest => n :: examined rest
  | _ :: rest => examined rest
  end.

(** How many transactions of block [n] touch [address], as the node
    reports the block. *)
Definition matches_in (nd : node) (address : string) (n : Z) : nat :=
  match node_get_block nd n with
  | Ok blk => length (filter (fun t => touches address t = true) (transactions blk))
  | Raise _ => 0%nat
  end.

(** The matching transactions of a list of blocks, all together. *)
Fixpoint matches_among (nd : node) (address : string) (blocks : list Z) : nat :=
  match blocks with
  | [] => 0
  | b :: rest => matches_in nd address b + matches_among nd address rest
  end.

(** The [k] block numbers from [head] downwards. *)
Definition blocks_from (head : Z) (k : nat) : list Z :=
  map (fun i => head - Z.of_nat i) (seq 0 k).

(** The records of the transactions of block [b] that touch [address], in
    the order of the block; each is built by [tx_record], which may raise. *)
Definition records_in (lib : web3) (nd : node) (address : string) (b : Z)
    : list (except json) :=
  match node_get_block nd b with
  | Ok blk =>
      map (tx_record lib address b)
          (filter (fun t => touches address t = true) (transactions blk))
  | Raise _ => []
  end.

(** *** The server: list_tools and call_tool *)

Definition chain_property : json :=
  Mcp.string_property
    [ ("enum", JList [JStr "polygon-zkevm"; JStr "scroll"; JStr "zksync"]);
      ("default", JStr "polygon-zkevm") ].

Definition list_tools : list Mcp.Tool :=
  [ {| Mcp.name := "monitor_events";
       Mcp.description :=
         "Monitor smart contract events (Transfer, Staked, etc.). Fetches recent events from specified contract.";
       Mcp.inputSchema :=
         Mcp.object_schema
           [ ("contract_address",
              Mcp.string_property
                [("description", JStr "Smart contract address (0x...)")]);
             ("chain", chain_property);
             ("event_name",
              Mcp.string_property
                [ ("enum", JList [JStr "Transfer"; JStr "Staked"]);
                  ("default", JStr "Transfer") ]);
             ("from_block",
              Mcp.integer_property
                [("description",
                  JStr "Starting block number (default: current - 1000)")]) ]
           [("required", JList [JStr "contract_address"])] |};
    {| Mcp.name := "check_vulnerabilities";
       Mcp.description :=
         "Perform basic security checks on smart contract bytecode. Detects selfdestruct, delegatecall, and size issues.";
       Mcp.inputSchema :=
         Mcp.object_schema
           [ ("contract_address",
              Mcp.string_property
                [("description", JStr "Smart contract address to audit")]);
             ("chain", chain_property) ]
           [("required", JList [JStr "contract_address"])] |};
    {| Mcp.name := "track_transactions";
       Mcp.description :=
         "Track recent transactions for a wallet address. Returns balance and transaction history.";
       Mcp.inputSchema :=
         Mcp.object_schema
           [ ("address",
              Mcp.string_property [("description", JStr "Wallet address to track")]);
             ("chain", chain_property);
             ("tx_count",
              Mcp.integer_property
                [ ("default", JInt 10);
                  ("description", JStr "Number of recent transactions to fetch") ]) ]
           [("required", JList [JStr "address"])] |} ].

(** The dictionary [arguments] of a call, read at the keys the handler
    uses, each value of the type its schema declares; [None] is an absent
    key. *)
Record arguments : Type := {
  arg_contract_address : option string;
  arg_address : option string;
  arg_chain : option string;
  arg_event_name : option string;
  arg_from_block : option Z;
  arg_tx_count : option Z
}.

Section Server.

Variable lib : web3.
Variable w : world.

(** [json.dumps(obj, indent=...)], taken as given. *)
Variable dumps : json -> option Z -> string.

Definition text_content (obj : json) (indent : option Z) : Mcp.TextContent :=
  {| Mcp.type := "text"; Mcp.text := dumps obj indent |}.

Definition call_tool (name : string) (arguments : arguments)
    : M (list rpc) (list Mcp.TextContent) :=
  if String.eqb name "monitor_events" then
    contract_address <-
      lift (Mcp.item "contract_address" (arg_contract_address arguments)) ;;
    result <- monitor_events lib w contract_address
                (Mcp.get (arg_chain arguments) "polygon-zkevm")
                (Mcp.get (arg_event_name arguments) "Transfer")
                (arg_from_block arguments) ;;
    ret [text_content result (Some 2)]
  else if String.eqb name "check_vulnerabilities" then
    contract_address <-
      lift (Mcp.item "contract_address" (arg_contract_address arguments)) ;;
    result <- check_vulnerabilities lib w contract_address
                (Mcp.get (arg_chain arguments) "polygon-zkevm") ;;
    ret [text_content result (Some 2)]
  else if String.eqb name "track_transactions" then
    address <- lift (Mcp.item "address" (arg_address arguments)) ;;
    result <- track_transactions lib w address
                (Mcp.get (arg_chain arguments) "polygon-zkevm")
                (Mcp.get (arg_tx_count arguments) 10) ;;
    ret [text_content result (Some 2)]
  else
    ret [text_content (JDict [("error", JStr ("Unknown tool: " +:+ name))]) None].

End Server.

End Monitor.

(* ===================================================================== *)
(** ** web3_aggregator.py                                                 *)
(* ===================================================================== *)

Module Aggregator.

Definition DEFILLAMA_BASE_URL : string := "https://api.llama.fi".
Definition COINGECKO_BASE_URL : string := "https://api.coingecko.com/api/v3".
Definition ZKEVM_RPC_URL : string := "https://zkevm-rpc.com".

(** An outbound request of the [aiohttp] session. *)
Inductive http_request : Type :=
| GET (url : string) (params : list (string * string))
| POST (url : string) (payload : json).

(** A response: its status, and what [await response.json()] gives (it
    raises when the body is not JSON). *)
Record http_response : Type := {
  status : Z;
  body_json : except json
}.

(** The environment of the server process.  [http n req] is the answer to
    [req] when it is the [n]-th outbound request of the process (a raise
    is a connection failure or a timeout); [clock n] is the [n]-th reading
    of [datetime.now()], in microseconds; [isoformat] renders a reading. *)
Record world : Type := {
  http : nat -> http_request -> except http_response;
  clock : nat -> Z;
  isoformat : Z -> string
}.

(** The aggregator object: [self.cache], with the requests sent and the
    number of clock readings taken so far. *)
Record state : Type := {
  cache : gmap string (Z * json);
  calls : list http_request;
  reads : nat
}.

Definition init : state := {| cache := ∅; calls := []; reads := 0 |}.

(** The three ways a method changes the state: a clock reading, a request
    sent, an entry written. *)
Definition tick (s : state) : state :=
  {| cache := cache s; calls := calls s; reads := S (reads s) |}.

Definition log_call (req : http_request) (s : state) : state :=
  {| cache := cache s; calls := (calls s ++ [req])%list; reads := reads s |}.

Definition store (key : string) (entry : Z * json) (s : state) : state :=
  {| cache := <[key := entry]> (cache s); calls := calls s; reads := reads s |}.

(** [timedelta.seconds]: the seconds field of the normalised difference
    (days, seconds, microseconds), always in [0, 86400). *)
Definition timedelta_seconds (delta : Z) : Z := (delta / 1000000) mod 86400.

Section Methods.

Variable w : world.

Definition now : M state Z :=
  fun s => (Ok (clock w (reads s)), tick s).

Definition request (req : http_request) : M state http_response :=
  fun s => (http w (length (calls s)) req, log_call req s).

(** [self.cache[key] = entry] *)
Definition cache_store (key : string) (entry : Z * json) : M state unit :=
  fun s => (Ok tt, store key entry s).

(** The cache check the two cached methods start with: the entry of [key]
    when there is one and its age in [timedelta.seconds] is under [ttl]. *)
Definition cache_lookup (key : string) (ttl : Z) : M state (option json) :=
  s <- get_state ;;
  match cache s !! key with
  | Some (cached_time, data) =>
      t <- now ;;
      if timedelta_seconds (t - cached_time) <? ttl then ret (Some data) else ret None
  | None => ret None
  end.

(** What the check finds, and the state it leaves (the clock is read only
    when the key is present). *)
Definition fresh (key : string) (ttl : Z) (s : state) : option json :=
  match cache s !! key with
  | Some (cached_time, data) =>
      if timedelta_seconds (clock w (reads s) - cached_time) <? ttl
      then Some data else None
  | None => None
  end.

Definition looked_up (key : string) (s : state) : state :=
  match cache s !! key with
  | Some _ => tick s
  | None => s
  end.

(** *** fetch_tvl *)

Definition tvl_url (protocol : string) : string :=
  if String.eqb protocol "all"
  then DEFILLAMA_BASE_URL +:+ "/tvl"
  else DEFILLAMA_BASE_URL +:+ "/protocol/" +:+ protocol.

Definition fetch_tvl_body (protocol : string) : M state json :=
  let cache_key := "tvl_" +:+ protocol in
  hit <- cache_lookup cache_key 3600 ;;
  match hit with
  | Some data => ret data
  | None =>
      let url := tvl_url protocol in
      response <- request (GET url []) ;;
      if status response =? 200 then
        data <- lift (body_json response) ;;
        t <- now ;;
        _ <- cache_store cache_key (t, data) ;;
        ret data
      else
        ret (JDict [ ("error", JStr ("HTTP " +:+ str_int (status response)));
                     ("protocol", JStr protocol) ])
  end.

Definition fetch_tvl (protocol : string) : M state json :=
  try_except (fetch_tvl_body protocol)
    (fun e => ret (JDict [("error", JStr (str_exn e)); ("protocol", JStr protocol)])).

(** *** get_protocol_data *)

Definition get_protocol_data_body (protocol_name : string) : M state json :=
  let url := DEFILLAMA_BASE_URL +:+ "/protocol/" +:+ protocol_name in
  response <- request (GET url []) ;;
  if status response =? 200 then
    data <- lift (body_json response) ;;
    name <- lift (py_get data "name" JNull) ;;
    symbol <- lift (py_get data "symbol" JNull) ;;
    tvl <- lift (py_get data "tvl" JNull) ;;
    chainTvls <- lift (py_get data "chainTvls" (JDict [])) ;;
    change_1h <- lift (py_get data "change_1h" JNull) ;;
    change_1d <- lift (py_get data "change_1d" JNull) ;;
    change_7d <- lift (py_get data "change_7d" JNull) ;;
    mcap <- lift (py_get data "mcap" JNull) ;;
    ret (JDict [ ("name", name); ("symbol", symbol); ("tvl", tvl);
                 ("chainTvls", chainTvls); ("change_1h", change_1h);
                 ("change_1d", change_1d); ("change_7d", change_7d);
                 ("mcap", mcap) ])
  else
    ret (JDict [("error", JStr ("Protocol " +:+ protocol_name +:+ " not found"))]).

Definition get_protocol_data (protocol_name : string) : M state json :=
  try_except (get_protocol_data_body protocol_name)
    (fun e => ret (JDict [("error", JStr (str_exn e))])).

(** *** query_blockchain *)

Definition rpc_urls : list (string * string) :=
  [ ("polygon-zkevm", "https://zkevm-rpc.com");
    ("scroll", "https://rpc.scroll.io");
    ("zksync", "https://mainnet.era.zksync.io") ].

Definition rpc_payload (method : string) : json :=
  JDict [ ("jsonrpc", JStr "2.0"); ("method", JStr method);
          ("params", JList []); ("id", JInt 1) ].

Definition rpc_url_of (chain : string) : string :=
  match assoc_get chain rpc_urls with
  | Some u => u
  | None => ZKEVM_RPC_URL
  end.

Definition query_blockchain_body (chain method : string) : M state json :=
  let rpc_url := rpc_url_of chain in
  response <- request (POST rpc_url (rpc_payload method)) ;;
  if status response =? 200 then
    data <- lift (body_json response) ;;
    result <- lift (py_get data "result" JNull) ;;
    block_number <-
      (if String.eqb method "eth_blockNumber" then
         r <- lift (py_get data "result" (JStr "0x0")) ;;
         n <- lift (int16 r) ;;
         ret (JInt n)
       else ret JNull) ;;
    ret (JDict [ ("chain", JStr chain); ("method", JStr method);
                 ("result", result); ("block_number", block_number) ])
  else
    ret (JDict [("error", JStr ("RPC call failed: " +:+ str_int (status response)))]).

Definition query_blockchain (chain method : string) : M state json :=
  try_except (query_blockchain_body chain method)
    (fun e => ret (JDict [("error", JStr (str_exn e)); ("chain", JStr chain)])).

(** *** get_token_price *)

Definition price_params (token_id : string) : list (string * string) :=
  [ ("ids", token_id); ("vs_currencies", "usd");
    ("include_24hr_change", "true"); ("include_market_cap", "true") ].

(** [data.get(token_id, {}).get(k)] *)
Definition token_field (data : json) (token_id k : string) : except json :=
  match py_get data token_id (JDict []) with
  | Raise e => Raise e
  | Ok entry => py_get entry k JNull
  end.

Definition get_token_price_body (token_id : string) : M state json :=
  let cache_key := "price_" +:+ token_id in
  hit <- cache_lookup cache_key 300 ;;
  match hit with
  | Some data => ret data
  | None =>
      let url := COINGECKO_BASE_URL +:+ "/simple/price" in
      response <- request (GET url (price_params token_id)) ;;
      if status response =? 200 then
        data <- lift (body_json response) ;;
        price_usd <- lift (token_field data token_id "usd") ;;
        change_24h <- lift (token_field data token_id "usd_24h_change") ;;
        market_cap <- lift (token_field data token_id "usd_market_cap") ;;
        stamp <- now ;;
        let result := JDict [ ("token", JStr token_id);
                              ("price_usd", price_usd);
                              ("change_24h", change_24h);
                              ("market_cap", market_cap);
                              ("timestamp", JStr (isoformat w stamp)) ] in
        t <- now ;;
        _ <- cache_store cache_key (t, result) ;;
        ret result
      else
        ret (JDict [("error", JStr ("CoinGecko API error: " +:+ str_int (status response)))])
  end.

Definition get_token_price (token_id : string) : M state json :=
  try_except (get_token_price_body token_id)
    (fun e => ret (JDict [("error", JStr (str_exn e))])).

End Methods.

(** A tool invocation of the aggregator server. *)
Inductive invocation : Type :=
| Fetch_tvl (protocol : string)
| Get_protocol_data (protocol_name : string)
| Query_blockchain (chain method : string)
| Get_token_price (token_id : string).

Definition invoke (w : world) (i : invocation) : M state json :=
  match i with
  | Fetch_tvl protocol => fetch_tvl w protocol
  | Get_protocol_data protocol_name => get_protocol_data w protocol_name
  | Query_blockchain chain method => query_blockchain w chain method
  | Get_token_price token_id => get_token_price w token_id
  end.

Definition invoke_body (w : world) (i : invocation) : M state json :=
  match i with
  | Fetch_tvl protocol => fetch_tvl_body w protocol
  | Get_protocol_data protocol_name => get_protocol_data_body w protocol_name
  | Query_blockchain chain method => query_blockchain_body w chain method
  | Get_token_price token_id => get_token_price_body w token_id
  end.

(** The cache key an invocation may write. *)
Definition cache_key_of (i : invocation) : option string :=
  match i with
  | Fetch_tvl protocol => Some ("tvl_" +:+ protocol)
  | Get_token_price token_id => Some ("price_" +:+ token_id)
  | _ => None
  end.

(** The state after a sequence of invocations. *)
Fixpoint run_all (w : world) (invs : list invocation) (s : state) : state :=
  match invs with
  | [] => s
  | i :: rest => run_all w rest (snd (invoke w i s))
  end.

(** *** The server: the session, list_tools and call_tool *)

(** The aggregator object with its session: [self.session] is the latest
    [ClientSession] (sessions are numbered as they are created), [opened]
    counts the sessions created and [closed] lists the ones closed. *)
Record server : Type := {
  self_state : state;
  session : option nat;
  opened : nat;
  closed : list nat
}.

Definition start : server :=
  {| self_state := init; session := None; opened := 0%nat; closed := [] |}.

(** [__aenter__] creates a session; [__aexit__] closes [self.session] when
    there is one. *)
Definition aenter (sv : server) : server :=
  {| self_state := self_state sv; session := Some (opened sv);
     opened := S (opened sv); closed := closed sv |}.

Definition aexit (sv : server) : server :=
  match session sv with
  | Some id => {| self_state := self_state sv; session := session sv;
                  opened := opened sv; closed := id :: closed sv |}
  | None => sv
  end.

(** [async with aggregator: body]: the exit runs however the body ends. *)
Definition async_with {A : Type} (body : M server A) : M server A :=
  fun sv => let '(r, sv') := body (aenter sv) in (r, aexit sv').

(** A method of the aggregator, run on the object inside the server. *)
Definition on_self {A : Type} (m : M state A) : M server A :=
  fun sv =>
    let '(r, s') := m (self_state sv) in
    (r, {| self_state := s'; session := session sv;
           opened := opened sv; closed := closed sv |}).

Definition list_tools : list Mcp.Tool :=
  [ {| Mcp.name := "fetch_tvl";
       Mcp.description :=
         "Fetch Total Value Locked (TVL) data from DeFiLlama. Use 'all' for global TVL or specify a protocol name.";
       Mcp.inputSchema :=
         Mcp.object_schema
           [ ("protocol",
              Mcp.string_property
                [ ("description",
                   JStr "Protocol name (e.g., 'aave', 'uniswap') or 'all' for global TVL");
                  ("default", JStr "all") ]) ]
           [] |};
    {| Mcp.name := "get_protocol_data";
       Mcp.description :=
         "Get detailed data for a specific DeFi protocol including TVL breakdown by chain, price changes, and market cap.";
       Mcp.inputSchema :=
         Mcp.object_schema
           [ ("protocol_name",
              Mcp.string_property
                [("description",
                  JStr "Protocol slug (e.g., 'aave', 'curve', 'uniswap')")]) ]
           [("required", JList [JStr "protocol_name"])] |};
    {| Mcp.name := "query_blockchain";
       Mcp.description :=
         "Query blockchain RPC endpoints for real-time data (block number, gas price, etc.). Supports Polygon zkEVM, Scroll, zkSync.";
       Mcp.inputSchema :=
         Mcp.object_schema
           [ ("chain",
              Mcp.string_property
                [ ("enum", JList [JStr "polygon-zkevm"; JStr "scroll"; JStr "zksync"]);
                  ("description", JStr "Blockchain network to query");
                  ("default", JStr "polygon-zkevm") ]);
             ("method",
              Mcp.string_property
                [ ("description",
                   JStr "RPC method (e.g., 'eth_blockNumber', 'eth_gasPrice')");
                  ("default", JStr "eth_blockNumber") ]) ]
           [] |};
    {| Mcp.name := "get_token_price";
       Mcp.description :=
         "Get current token price and 24h change from CoinGecko. Returns USD price, market cap, and price change.";
       Mcp.inputSchema :=
         Mcp.object_schema
           [ ("token_id",
              Mcp.string_property
                [ ("description",
                   JStr "CoinGecko token ID (e.g., 'ethereum', 'bitcoin', 'polygon-zkevm')");
                  ("default", JStr "ethereum") ]) ]
           [] |} ].

(** The dictionary [arguments] of a call, read at the keys the handler
    uses; every value is a string, as the schemas declare. *)
Record arguments : Type := {
  arg_protocol : option string;
  arg_protocol_name : option string;
  arg_chain : option string;
  arg_method : option string;
  arg_token_id : option string
}.

Section Server.

Variable w : world.

(** [json.dumps(obj, indent=...)], taken as given. *)
Variable dumps : json -> option Z -> string.

Definition text_content (obj : json) (indent : option Z) : Mcp.TextContent :=
  {| Mcp.type := "text"; Mcp.text := dumps obj indent |}.

(** [not protocol_name]: absent, or the empty string. *)
Definition falsy (v : option string) : bool :=
  match v with
  | None => true
  | Some x => String.eqb x EmptyString
  end.

Definition call_tool (name : string) (arguments : arguments)
    : M server (list Mcp.TextContent) :=
  async_with
    (if String.eqb name "fetch_tvl" then
       let protocol := Mcp.get (arg_protocol arguments) "all" in
       result <- on_self (fetch_tvl w protocol) ;;
       ret [text_content result (Some 2)]
     else if String.eqb name "get_protocol_data" then
       let protocol_name := arg_protocol_name arguments in
       if falsy protocol_name then
         ret [text_content (JDict [("error", JStr "protocol_name required")]) None]
       else
         result <- on_self (get_protocol_data w (Mcp.get protocol_name EmptyString)) ;;
         ret [text_content result (Some 2)]
     else if String.eqb name "query_blockchain" then
       let chain := Mcp.get (arg_chain arguments) "polygon-zkevm" in
       let method := Mcp.get (arg_method arguments) "eth_blockNumber" in
       result <- on_self (query_blockchain w chain method) ;;
       ret [text_content result (Some 2)]
     else if String.eqb name "get_token_price" then
       let token_id := Mcp.get (arg_token_id arguments) "ethereum" in
       result <- on_self (get_token_price w token_id) ;;
       ret [text_content result (Some 2)]
     else
       ret [text_content (JDict [("error", JStr ("Unknown tool: " +:+ name))]) None]).

(** The server after a sequence of calls. *)
Fixpoint serve (reqs : list (string * arguments)) (sv : server) : server :=
  match reqs with
  | [] => sv
  | (name, arguments) :: rest => serve rest (snd (call_tool name arguments sv))
  end.

End Server.

End Aggregator.

(* ===================================================================== *)
(** ** Vocabulary of the properties                                       *)
(* ===================================================================== *)

(** The result carries an [error] field holding a string. *)
Definition reports_error (v : json) : Prop :=
  exists msg, field "error" v = Some (JStr msg).

(** [sub] occurs in [s]. *)
Definition substring (sub s : string) : Prop :=
  exists pre post, s = pre +:+ sub +:+ post.

(** A finding of the given severity and type is among [fs]. *)
Definition has_finding (severity type : string) (fs : list json) : Prop :=
  exists f, In f fs
            /\ field "severity" f = Some (JStr severity)
            /\ field "type" f = Some (JStr type).

(** The findings of both lists of a scan report. *)
Definition findings (v : json) : list json :=
  (match field "vulnerabilities" v with Some (JList l) => l | _ => [] end
   ++ match field "warnings" v with Some (JList l) => l | _ => [] end)%list.

(** The value of a string of hexadecimal digits, most significant first. *)
Fixpoint hex_value_from (acc : Z) (s : string) : Z :=
  match s with
  | EmptyString => acc
  | String c s' =>
      hex_value_from (16 * acc + match hex_digit_val c with Some d => d | None => 0 end) s'
  end.

Definition hex_value (s : string) : Z := hex_value_from 0 s.

Fixpoint all_hex (s : string) : bool :=
  match s with
  | EmptyString => true
  | String c s' =>
      match hex_digit_val c with Some _ => all_hex s' | None => false end
  end.

(** A result with its [chain] field, when it has one, set to [chain]. *)
Definition with_chain (chain : string) (v : json) : json :=
  match v with
  | JDict kv =>
      JDict (map (fun '(k, x) => if String.eqb k "chain" then (k, JStr chain) else (k, x)) kv)
  | _ => v
  end.

(** [body] is the JSON body of a status-200 answer to one of the requests
    sent so far. *)
Definition answered_200 (w : Aggregator.world) (s : Aggregator.state) (body : json) : Prop :=
  exists n req resp,
    Aggregator.calls s !! n = Some req
    /\ Aggregator.http w n req = Ok resp
    /\ Aggregator.status resp = 200
    /\ Aggregator.body_json resp = Ok body.

(** The record [get_token_price] builds from a body. *)
Definition price_record (token : string) (body : json) (d : json) : Prop :=
  exists price_usd change_24h market_cap stamp,
    Aggregator.token_field body token "usd" = Ok price_usd
    /\ Aggregator.token_field body token "usd_24h_change" = Ok change_24h
    /\ Aggregator.token_field body token "usd_market_cap" = Ok market_cap
    /\ d = JDict [ ("token", JStr token); ("price_usd", price_usd);
                   ("change_24h", change_24h); ("market_cap", market_cap);
                   ("timestamp", JStr stamp) ].

(** A cache entry pairs a reading of the clock with a successful result:
    the status-200 body itself under a [tvl_] key, the price record built
    from a status-200 body under a [price_] key. *)
Definition cached_ok (w : Aggregator.world) (s : Aggregator.state)
    (key : string) (entry : Z * json) : Prop :=
  (exists j, (j < Aggregator.reads s)%nat /\ fst entry = Aggregator.clock w j)
  /\ exists body,
       answered_200 w s body
       /\ ((exists protocol, key = "tvl_" +:+ protocol /\ snd entry = body)
           \/ (exists token, key = "price_" +:+ token
                             /\ price_record token body (snd entry))).

Definition cache_ok (w : Aggregator.world) (s : Aggregator.state) : Prop :=
  forall key entry, Aggregator.cache s !! key = Some entry -> cached_ok w s key entry.

(** Reading a tool's schema: the tool of a given name, the schema of one
    of its properties, the default and the choices the schema gives. *)
Fixpoint find_tool (tools : list Mcp.Tool) (name : string) : option Mcp.Tool :=
  match tools with
  | [] => None
  | t :: rest => if String.eqb (Mcp.name t) name then Some t else find_tool rest name
  end.

Definition schema_property (tools : list Mcp.Tool) (tool prop : string) : option json :=
  match find_tool tools tool with
  | Some t =>
      match field "properties" (Mcp.inputSchema t) with
      | Some props => field prop props
      | None => None
      end
  | None => None
  end.

Definition schema_default_str (tools : list Mcp.Tool) (tool prop : string) : option string :=
  match schema_property tools tool prop with
  | Some p => match field "default" p with Some (JStr d) => Some d | _ => None end
  | None => None
  end.

Definition schema_default_int (tools : list Mcp.Tool) (tool prop : string) : option Z :=
  match schema_property tools tool prop with
  | Some p => match field "default" p with Some (JInt d) => Some d | _ => None end
  | None => None
  end.

Definition schema_enum (tools : list Mcp.Tool) (tool prop : string) : list json :=
  match schema_property tools tool prop with
  | Some p => match field "enum" p with Some (JList l) => l | _ => [] end
  | None => []
  end.

Definition schema_required (tools : list Mcp.Tool) (tool : string) : list json :=
  match find_tool tools tool with
  | Some t => match field "required" (Mcp.inputSchema t) with
              | Some (JList l) => l
              | _ => []
              end
  | None => []
  end.

(** An absent argument replaced by the default its schema gives, if any. *)
Definition or_default {A : Type} (v : option A) (d : option A) : option A :=
  match v with Some x => Some x | None => d end.

Definition monitor_with_defaults (name : string) (a : Monitor.arguments)
    : Monitor.arguments :=
  let str := schema_default_str Monitor.list_tools name in
  let int := schema_default_int Monitor.list_tools name in
  {| Monitor.arg_contract_address :=
       or_default (Monitor.arg_contract_address a) (str "contract_address");
     Monitor.arg_address := or_default (Monitor.arg_address a) (str "address");
     Monitor.arg_chain := or_default (Monitor.arg_chain a) (str "chain");
     Monitor.arg_event_name := or_default (Monitor.arg_event_name a) (str "event_name");
     Monitor.arg_from_block := or_default (Monitor.arg_from_block a) (int "from_block");
     Monitor.arg_tx_count := or_default (Monitor.arg_tx_count a) (int "tx_count") |}.

Definition aggregator_with_defaults (name : string) (a : Aggregator.arguments)
    : Aggregator.arguments :=
  let str := schema_default_str Aggregator.list_tools name in
  {| Aggregator.arg_protocol := or_default (Aggregator.arg_protocol a) (str "protocol");
     Aggregator.arg_protocol_name :=
       or_default (Aggregator.arg_protocol_name a) (str "protocol_name");
     Aggregator.arg_chain := or_default (Aggregator.arg_chain a) (str "chain");
     Aggregator.arg_method := or_default (Aggregator.arg_method a) (str "method");
     Aggregator.arg_token_id := or_default (Aggregator.arg_token_id a) (str "token_id") |}.

(** Whether the argument a schema requires is present. *)
Definition monitor_has_required (name : string) (a : Monitor.arguments) : bool :=
  forallb (fun k =>
             match k with
             | JStr "contract_address" => bool_decide (Monitor.arg_contract_address a <> None)
             | JStr "address" => bool_decide (Monitor.arg_address a <> None)
             | _ => true
             end)
          (schema_required Monitor.list_tools name).

(** The value of key [k] in an object, or [d] when the key is missing. *)
Definition field_or (d : json) (k : string) (body : list (string * json)) : json :=
  match assoc_get k body with Some x => x | None => d end.

Definition is_str (v : json) : bool :=
  match v with JStr _ => true | _ => false end.

(** The invocation a call of the aggregator's [call_tool] amounts to, if
    it reaches a method. *)
Definition aggregator_invocation_of (name : string) (a : Aggregator.arguments)
    : option Aggregator.invocation :=
  if String.eqb name "fetch_tvl" then
    Some (Aggregator.Fetch_tvl (Mcp.get (Aggregator.arg_protocol a) "all"))
  else if String.eqb name "get_protocol_data" then
    match Aggregator.arg_protocol_name a with
    | Some p => if String.eqb p EmptyString then None
                else Some (Aggregator.Get_protocol_data p)
    | None => None
    end
  else if String.eqb name "query_blockchain" then
    Some (Aggregator.Query_blockchain
            (Mcp.get (Aggregator.arg_chain a) "polygon-zkevm")
            (Mcp.get (Aggregator.arg_method a) "eth_blockNumber"))
  else if String.eqb name "get_token_price" then
    Some (Aggregator.Get_token_price (Mcp.get (Aggregator.arg_token_id a) "ethereum"))
  else None.

(** The invocations a sequence of calls amounts to. *)
Fixpoint aggregator_invocations (reqs : list (string * Aggregator.arguments))
    : list Aggregator.invocation :=
  match reqs with
  | [] => []
  | (name, a) :: rest =>
      match aggregator_invocation_of name a with
      | Some i => i :: aggregator_invocations rest
      | None => aggregator_invocations rest
      end
  end.

(** The invocation a call of the monitor's [call_tool] amounts to, if it
    reaches a method: the tool must be one of the three, and the argument
    read with [arguments[...]] must be present. *)
Definition monitor_invocation_of (name : string) (a : Monitor.arguments)
    : option Monitor.invocation :=
  if String.eqb name "monitor_events" then
    match Monitor.arg_contract_address a with
    | Some c =>
        Some (Monitor.Monitor_events c
                (Mcp.get (Monitor.arg_chain a) "polygon-zkevm")
                (Mcp.get (Monitor.arg_event_name a) "Transfer")
                (Monitor.arg_from_block a))
    | None => None
    end
  else if String.eqb name "check_vulnerabilities" then
    match Monitor.arg_contract_address a with
    | Some c =>
        Some (Monitor.Check_vulnerabilities c
                (Mcp.get (Monitor.arg_chain a) "polygon-zkevm"))
    | None => None
    end
  else if String.eqb name "track_transactions" then
    match Monitor.arg_address a with
    | Some c =>
        Some (Monitor.Track_transactions c
                (Mcp.get (Monitor.arg_chain a) "polygon-zkevm")
                (Mcp.get (Monitor.arg_tx_count a) 10))
    | None => None
    end
  else None.

(** The scan of [track_transactions] is reached: the chain is supported,
    the probe answers that the provider is connected, the address
    normalises to [ca], and the nonce, the balance, its rendering and the
    head block number [head] are all obtained. *)
Definition scan_reached (lib : Monitor.web3) (w : Monitor.world)
    (a chain url ca : string) (head : Z) : Prop :=
  assoc_get chain Monitor.providers = Some url
  /\ Monitor.node_connected (Monitor.node_at w url) = Ok true
  /\ Monitor.to_checksum_address lib a = Ok ca
  /\ (exists nonce,
        Monitor.node_get_transaction_count (Monitor.node_at w url) ca = Ok nonce)
  /\ (exists balance_wei balance_eth,
        Monitor.node_get_balance (Monitor.node_at w url) ca = Ok balance_wei
        /\ Monitor.from_wei lib balance_wei "ether" = Ok balance_eth)
  /\ Monitor.node_block_number (Monitor.node_at w url) = Ok head.

(** The scan breaks at block [b] with [e]: fetching the block raises [e],
    or building the record of one of its matching transactions does. *)
Definition raised_at (lib : Monitor.web3) (nd : Monitor.node) (address : string)
    (b : Z) (e : exn) : Prop :=
  Monitor.node_get_block nd b = Raise e
  \/ In (Raise e) (Monitor.records_in lib nd address b).

(** An invocation of the monitor goes through: no check of the method
    turns it away and no step of its [try] block raises. *)
Definition monitor_succeeds (lib : Monitor.web3) (w : Monitor.world)
    (i : Monitor.invocation) : Prop :=
  match i with
  | Monitor.Monitor_events a chain ev fb =>
      exists url ca head id entries,
        assoc_get chain Monitor.providers = Some url
        /\ Monitor.node_connected (Monitor.node_at w url) = Ok true
        /\ Monitor.is_address lib a = true
        /\ Monitor.to_checksum_address lib a = Ok ca
        /\ Monitor.node_block_number (Monitor.node_at w url) = Ok head
        /\ (ev = "Transfer" \/ ev = "Staked")
        /\ Monitor.node_new_filter (Monitor.node_at w url) ca ev
             (match fb with
              | Some n => if n =? 0 then head - 1000 else n
              | None => head - 1000
              end) = Ok id
        /\ Monitor.node_filter_logs (Monitor.node_at w url) id = Ok entries
  | Monitor.Check_vulnerabilities a chain =>
      exists url ca code,
        assoc_get chain Monitor.providers = Some url
        /\ Monitor.node_connected (Monitor.node_at w url) = Ok true
        /\ Monitor.to_checksum_address lib a = Ok ca
        /\ Monitor.node_get_code (Monitor.node_at w url) ca = Ok code
        /\ code <> []
  | Monitor.Track_transactions a chain n =>
      exists url ca head found,
        scan_reached lib w a chain url ca head
        /\ fst (Monitor.scan_blocks lib w url ca n
                  (range_down head (Z.max (head - 100) 0)) [] []) = Ok found
  end.

(** An invocation of the aggregator goes through: it is served from the
    cache, or its request is answered with status 200 and a body from
    which every step of the [try] block gets what it reads. *)
Definition aggregator_succeeds (w : Aggregator.world) (i : Aggregator.invocation)
    (s : Aggregator.state) : Prop :=
  let answer req := Aggregator.http w (length (Aggregator.calls s)) req in
  match i with
  | Aggregator.Fetch_tvl protocol =>
      is_Some (Aggregator.fresh w ("tvl_" +:+ protocol) 3600 s)
      \/ exists resp data,
           answer (Aggregator.GET (Aggregator.tvl_url protocol) []) = Ok resp
           /\ Aggregator.status resp = 200
           /\ Aggregator.body_json resp = Ok data
  | Aggregator.Get_protocol_data protocol_name =>
      exists resp body,
        answer (Aggregator.GET
                  (Aggregator.DEFILLAMA_BASE_URL +:+ "/protocol/" +:+ protocol_name) [])
        = Ok resp
        /\ Aggregator.status resp = 200
        /\ Aggregator.body_json resp = Ok (JDict body)
  | Aggregator.Query_blockchain chain method =>
      exists resp body,
        answer (Aggregator.POST (Aggregator.rpc_url_of chain)
                  (Aggregator.rpc_payload method)) = Ok resp
        /\ Aggregator.status resp = 200
        /\ Aggregator.body_json resp = Ok (JDict body)
        /\ (method = "eth_blockNumber" ->
            exists block, int16 (field_or (JStr "0x0") "result" body) = Ok block)
  | Aggregator.Get_token_price token_id =>
      is_Some (Aggregator.fresh w ("price_" +:+ token_id) 300 s)
      \/ exists resp data price_usd change_24h market_cap,
           answer (Aggregator.GET (Aggregator.COINGECKO_BASE_URL +:+ "/simple/price")
                     (Aggregator.price_params token_id)) = Ok resp
           /\ Aggregator.status resp = 200
           /\ Aggregator.body_json resp = Ok data
           /\ Aggregator.token_field data token_id "usd" = Ok price_usd
           /\ Aggregator.token_field data token_id "usd_24h_change" = Ok change_24h
           /\ Aggregator.token_field data token_id "usd_market_cap" = Ok market_cap
  end.

(* ===================================================================== *)
(** ** Sample environments, used to run the methods on concrete inputs    *)
(* ===================================================================== *)

Module Sample.

(** A stand-in for the address functions of [web3.py]: the format check
    only ([0x] and forty hexadecimal digits), and rendering of amounts as
    plain integers. *)
Definition format_ok (s : string) : bool :=
  match s with
  | String "0" (String "x" r) => (String.length r =? 40)%nat && all_hex r
  | _ => false
  end.

Definition lib : Monitor.web3 :=
  {| Monitor.is_address := format_ok;
     Monitor.to_checksum_address :=
       fun s => if format_ok s then Ok s
                else Raise (Exception ("invalid address: " +:+ s));
     Monitor.from_wei := fun v _ => Ok (str_int v) |}.

(** A stand-in that tells the two address functions apart as [web3.py]
    does on capitals: [is_address] refuses a spelling that mixes upper-case
    and lower-case digits (taken here as a failed checksum), while
    [to_checksum_address] lower-cases the spelling before it looks at it. *)
Definition lower_char (c : ascii) : ascii :=
  let n := N_of_ascii c in
  if ((65 <=? n) && (n <=? 90))%N then ascii_of_N (n + 32) else c.

Fixpoint lower (s : string) : string :=
  match s with
  | EmptyString => EmptyString
  | String c s' => String (lower_char c) (lower s')
  end.

Fixpoint has_digit_in (lo hi : N) (s : string) : bool :=
  match s with
  | EmptyString => false
  | String c s' =>
      ((lo <=? N_of_ascii c) && (N_of_ascii c <=? hi))%N || has_digit_in lo hi s'
  end.

Definition mixed_case (s : string) : bool :=
  has_digit_in 65 70 s && has_digit_in 97 102 s.

Definition capitals_lib : Monitor.web3 :=
  {| Monitor.is_address := fun s => format_ok s && negb (mixed_case s);
     Monitor.to_checksum_address :=
       fun s => if format_ok (lower s) then Ok (lower s)
                else Raise (Exception ("invalid address: " +:+ s));
     Monitor.from_wei := fun v _ => Ok (str_int v) |}.

Definition alice : string := "0xaaaaaaaaaaaaaaaaaaaaaaaaaaaaaaaaaaaaaaaa".

(** [alice] with one capital: no checksum spelling of hers. *)
Definition mixed_alice : string := "0xAaaaaaaaaaaaaaaaaaaaaaaaaaaaaaaaaaaaaaaa".
Definition bob : string := "0xbbbbbbbbbbbbbbbbbbbbbbbbbbbbbbbbbbbbbbbb".

(** Every block holds one transfer from [alice] to [bob]. *)
Definition transfer : Monitor.tx :=
  {| Monitor.tx_hash := [x01]%byte; Monitor.tx_from := alice;
     Monitor.tx_to := Some bob; Monitor.tx_value := 5;
     Monitor.tx_gasPrice := Some 1 |}.

(** A reachable node at block [head] whose contracts all have code [code]. *)
Definition node (head : Z) (code : list byte) : Monitor.node :=
  {| Monitor.node_connected := Ok true;
     Monitor.node_block_number := Ok head;
     Monitor.node_new_filter := fun _ _ _ => Ok 1;
     Monitor.node_filter_logs := fun _ => Ok [];
     Monitor.node_get_code := fun _ => Ok code;
     Monitor.node_get_transaction_count := fun _ => Ok 7;
     Monitor.node_get_balance := fun _ => Ok 1000;
     Monitor.node_get_block := fun _ => Ok {| Monitor.transactions := [transfer] |} |}.

Definition world (head : Z) (code : list byte) : Monitor.world :=
  {| Monitor.node_at := fun _ => node head code;
     Monitor.clock_iso := fun _ => "2024-01-01T00:00:00" |}.

(** The same world, but for the answer to the connectivity probe. *)
Definition probed (probe : except bool) : Monitor.world :=
  {| Monitor.node_at := fun _ =>
       {| Monitor.node_connected := probe;
          Monitor.node_block_number := Ok 3;
          Monitor.node_new_filter := fun _ _ _ => Ok 1;
          Monitor.node_filter_logs := fun _ => Ok [];
          Monitor.node_get_code := fun _ => Ok [];
          Monitor.node_get_transaction_count := fun _ => Ok 7;
          Monitor.node_get_balance := fun _ => Ok 1000;
          Monitor.node_get_block :=
            fun _ => Ok {| Monitor.transactions := [transfer] |} |};
     Monitor.clock_iso := fun _ => "2024-01-01T00:00:00" |}.

(** A contract of exactly 24576 bytes, the largest a chain deploys. *)
Definition code_24576 : list byte := repeat x00%byte (Z.to_nat 24576).

(** An upstream that answers every request with status 200 and [body];
    the clock readings are given by [times], then stay at [0]. *)
Definition upstream (body : json) (times : list Z) : Aggregator.world :=
  {| Aggregator.http := fun _ _ => Ok {| Aggregator.status := 200;
                                         Aggregator.body_json := Ok body |};
     Aggregator.clock := fun n => nth n times 0;
     Aggregator.isoformat := fun t => str_int t |}.

Definition second : Z := 1000000.

(** A node whose event filter returns sixty entries, one a block. *)
Definition log_at (i : nat) : Monitor.log_entry :=
  {| Monitor.blockNumber := Z.of_nat i;
     Monitor.transactionHash := [x01]%byte;
     Monitor.args := [("value", JInt (Z.of_nat i))] |}.

Definition busy_world : Monitor.world :=
  {| Monitor.node_at := fun _ =>
       {| Monitor.node_connected := Ok true;
          Monitor.node_block_number := Ok 5000;
          Monitor.node_new_filter := fun _ _ _ => Ok 1;
          Monitor.node_filter_logs := fun _ => Ok (map log_at (seq 0 60));
          Monitor.node_get_code := fun _ => Ok [];
          Monitor.node_get_transaction_count := fun _ => Ok 7;
          Monitor.node_get_balance := fun _ => Ok 1000;
          Monitor.node_get_block := fun _ => Ok {| Monitor.transactions := [] |} |};
     Monitor.clock_iso := fun _ => "2024-01-01T00:00:00" |}.

(** An upstream that answers every request with the given status. *)
Definition upstream_status (code : Z) (body : json) (times : list Z) : Aggregator.world :=
  {| Aggregator.http := fun _ _ => Ok {| Aggregator.status := code;
                                         Aggregator.body_json := Ok body |};
     Aggregator.clock := fun n => nth n times 0;
     Aggregator.isoformat := fun t => str_int t |}.

(** An aggregator that holds one TVL entry, stamped at time 0. *)
Definition holding (d : json) : Aggregator.state :=
  {| Aggregator.cache := {[ "tvl_aave" := (0, d) ]};
     Aggregator.calls := []; Aggregator.reads := 0 |}.

(** A stand-in for [json.dumps]. *)
Definition dumps (v : json) (indent : option Z) : string :=
  match indent with
  | Some _ => "indented " +:+ type_name v
  | None => "compact " +:+ type_name v
  end.

Definition no_arguments : Monitor.arguments :=
  {| Monitor.arg_contract_address := None; Monitor.arg_address := None;
     Monitor.arg_chain := None; Monitor.arg_event_name := None;
     Monitor.arg_from_block := None; Monitor.arg_tx_count := None |}.

Definition only_address (a : string) : Monitor.arguments :=
  {| Monitor.arg_contract_address := None; Monitor.arg_address := Some a;
     Monitor.arg_chain := None; Monitor.arg_event_name := None;
     Monitor.arg_from_block := None; Monitor.arg_tx_count := None |}.

Definition no_aggregator_arguments : Aggregator.arguments :=
  {| Aggregator.arg_protocol := None; Aggregator.arg_protocol_name := None;
     Aggregator.arg_chain := None; Aggregator.arg_method := None;
     Aggregator.arg_token_id := None |}.

End Sample.

(* ===================================================================== *)
(** ** Facts about the builtins                                           *)
(* ===================================================================== *)

Ltac conjs := repeat match goal with |- _ /\ _ => split end.

(** Comparing a tool name with the names the handlers test. *)
Ltac decide_names :=
  repeat match goal with
         | |- context [String.eqb ?x ?y] =>
             let b := eval vm_compute in (String.eqb x y) in
             change (String.eqb x y) with b
         end;
  cbv iota.

(** A required argument that is absent contradicts [monitor_has_required]. *)
Ltac required_in H E :=
  unfold monitor_has_required in H; simpl in H; rewrite E in H;
  vm_compute in H; discriminate H.

Section Builtins.

Lemma try_except_ret {S A : Type} (body : M S A) (h : exn -> A) (s : S) :
  try_except body (fun e => ret (h e)) s =
  match body s with
  | (Ok a, s') => (Ok a, s')
  | (Raise e, s') => (Ok (h e), s')
  end.
Proof. unfold try_except, ret. destruct (body s) as [[e|a] s']; reflexivity. Qed.

Lemma try_except_result {S A : Type} (body : M S A) (h : exn -> A) (s : S) :
  fst (try_except body (fun e => ret (h e)) s)
  = Ok (match fst (body s) with Ok a => a | Raise e => h e end).
Proof. rewrite try_except_ret. destruct (body s) as [[e|a] s']; reflexivity. Qed.

Lemma try_except_state {S A : Type} (body : M S A) (h : exn -> A) (s : S) :
  snd (try_except body (fun e => ret (h e)) s) = snd (body s).
Proof. rewrite try_except_ret. destruct (body s) as [[e|a] s']; reflexivity. Qed.

Lemma append_cons (a : ascii) (p s : string) :
  String a p +:+ s = String a (p +:+ s).
Proof. reflexivity. Qed.

Lemma append_nil (s : string) : EmptyString +:+ s = s.
Proof. reflexivity. Qed.

Lemma str_prefix_spec (p s : string) :
  str_prefix p s = true <-> exists post, s = p +:+ post.
Proof.
  revert s. induction p as [|a p IH]; intros s; simpl.
  - split; [intros _; exists s; reflexivity | reflexivity].
  - destruct s as [|b s].
    + split; [discriminate | intros [post H]; rewrite append_cons in H; discriminate].
    + destruct (Ascii.eqb a b) eqn:E.
      * apply Ascii.eqb_eq in E. subst b. rewrite IH.
        split; intros [post H]; exists post; rewrite append_cons in *; congruence.
      * apply Ascii.eqb_neq in E.
        split; [discriminate | intros [post H]; rewrite append_cons in H; congruence].
Qed.

Lemma str_contains_spec (sub s : string) :
  str_contains sub s = true <-> substring sub s.
Proof.
  unfold substring. induction s as [|c s IH]; simpl.
  - rewrite str_prefix_spec. split.
    + intros [post H]. exists EmptyString, post. exact H.
    + intros [pre [post H]]. destruct pre; [exists post; exact H | discriminate].
  - rewrite orb_true_iff, str_prefix_spec, IH. split.
    + intros [[post H] | [pre [post H]]].
      * exists EmptyString, post. exact H.
      * exists (String c pre), post. rewrite append_cons. congruence.
    + intros [pre [post H]]. destruct pre as [|a pre].
      * left. exists post. exact H.
      * right. exists pre, post. rewrite append_cons in H. congruence.
Qed.

Lemma length_bytes_hex (bs : list byte) :
  String.length (bytes_hex bs) = (2 * length bs)%nat.
Proof.
  induction bs as [|b bs IH]; [reflexivity|].
  change (bytes_hex (b :: bs))
    with (String (hex_digit (Byte.to_N b / 16))
            (String (hex_digit (Byte.to_N b mod 16)) (bytes_hex bs))).
  simpl String.length. rewrite IH. simpl. lia.
Qed.

Lemma length_hexbytes_hex (bs : list byte) :
  String.length (hexbytes_hex bs) = (2 + 2 * length bs)%nat.
Proof.
  change (hexbytes_hex bs) with (String "0" (String "x" (bytes_hex bs))).
  simpl String.length. rewrite length_bytes_hex. reflexivity.
Qed.

Lemma hexbytes_hex_empty (bs : list byte) :
  String.eqb (hexbytes_hex bs) "0x" = true <-> bs = [].
Proof.
  rewrite String.eqb_eq. split.
  - intros H. apply (f_equal String.length) in H.
    rewrite length_hexbytes_hex in H. simpl in H.
    destruct bs; [reflexivity | simpl in H; lia].
  - intros ->. reflexivity.
Qed.

Lemma hex_digits_all_hex (s : string) (acc : Z) (after_digit : bool) :
  all_hex s = true ->
  s <> EmptyString \/ after_digit = true ->
  hex_digits s acc after_digit = Some (hex_value_from acc s, EmptyString).
Proof.
  revert acc after_digit. induction s as [|c s IH]; intros acc b Hall Hne; simpl.
  - destruct Hne as [Hne | ->]; [contradiction | reflexivity].
  - simpl in Hall. destruct (hex_digit_val c) as [d|]; [|discriminate].
    apply IH; [exact Hall | right; reflexivity].
Qed.

(** [int(s, 16)] reads a [0x]-prefixed string of hexadecimal digits as the
    number the digits denote. *)
Lemma parse_int16_0x (digits : string) :
  all_hex digits = true ->
  digits <> EmptyString ->
  parse_int16 ("0x" +:+ digits) = Some (hex_value digits).
Proof.
  intros Hall Hne.
  change ("0x" +:+ digits) with (String "0" (String "x" digits)).
  destruct digits as [|c rest]; [contradiction|].
  assert (Hc : c <> "_"%char).
  { intros ->. simpl in Hall. discriminate Hall. }
  assert (Hstrip : strip_0x (String "0" (String "x" (String c rest))) = String c rest).
  { unfold strip_0x.
    destruct c as [[] [] [] [] [] [] [] []]; try reflexivity; congruence. }
  unfold parse_int16.
  change (lstrip (String "0" (String "x" (String c rest))))
    with (String "0" (String "x" (String c rest))).
  change (strip_sign (String "0" (String "x" (String c rest))))
    with (false, String "0" (String "x" (String c rest))).
  cbv iota beta. rewrite Hstrip.
  rewrite (hex_digits_all_hex (String c rest) 0 false Hall) by (left; discriminate).
  reflexivity.
Qed.

End Builtins.

(* ===================================================================== *)
(** ** Properties of the blockchain monitor                               *)
(* ===================================================================== *)

Module MonitorProps.
Import Monitor.
Local Open Scope list_scope.

Section Scan.

Variable lib : web3.
Variable w : world.

(** The run of [check_vulnerabilities] once the provider is reachable, the
    address normalises and the code is fetched. *)
Lemma check_vulnerabilities_run (a chain url ca : string) (code : list byte)
    (sent : list rpc) :
  assoc_get chain providers = Some url ->
  node_connected (node_at w url) = Ok true ->
  to_checksum_address lib a = Ok ca ->
  node_get_code (node_at w url) ca = Ok code ->
  check_vulnerabilities lib w a chain sent =
  (Ok (if String.eqb (hexbytes_hex code) "0x"
       then error1 "No contract found at this address"
       else JDict [ ("chain", JStr chain);
                    ("contract", JStr ca);
                    ("bytecode_size", JInt (bytecode_size_of (hexbytes_hex code)));
                    ("vulnerabilities", JList (scan_vulnerabilities (hexbytes_hex code)));
                    ("warnings", JList (scan_warnings (hexbytes_hex code)));
                    ("scan_timestamp", JStr (clock_iso w 0));
                    ("recommendation",
                     JStr "Run full audit with Slither or Mythril for production contracts") ]),
   (sent ++ [web3_clientVersion url; eth_getCode url ca])%list).
Proof.
  intros Hp Hc Ha Hg.
  unfold check_vulnerabilities. rewrite try_except_ret.
  unfold check_vulnerabilities_body. rewrite Hp.
  unfold bind, is_connected, get_code, call, lift, ret.
  rewrite Hc, Ha, Hg. cbv beta iota delta [negb].
  destruct (String.eqb (hexbytes_hex code) "0x"); cbv beta iota;
    rewrite <- app_assoc; reflexivity.
Qed.

Ltac not_among Hin Hs Ht :=
  simpl in Hin;
  repeat (destruct Hin as [<- | Hin]; [simpl in Hs, Ht; congruence|]);
  destruct Hin.

Lemma selfdestruct_iff (b : string) :
  has_finding "HIGH" "SELFDESTRUCT" (scan_vulnerabilities b ++ scan_warnings b)
  <-> str_contains "ff" b = true.
Proof.
  unfold has_finding, scan_vulnerabilities, scan_warnings.
  destruct (str_contains "ff" b); split; intros H; try reflexivity.
  - exists selfdestruct_finding. simpl. auto.
  - destruct H as [f [Hin [Hs Ht]]].
    destruct (str_contains "f4" b), (bytecode_size_of b >? 24576);
      not_among Hin Hs Ht.
  - discriminate H.
Qed.

Lemma delegatecall_iff (b : string) :
  has_finding "MEDIUM" "DELEGATECALL" (scan_vulnerabilities b ++ scan_warnings b)
  <-> str_contains "f4" b = true.
Proof.
  unfold has_finding, scan_vulnerabilities, scan_warnings.
  destruct (str_contains "f4" b); split; intros H; try reflexivity.
  - exists delegatecall_finding. split; [|split; reflexivity].
    apply in_or_app. right. simpl. auto.
  - destruct H as [f [Hin [Hs Ht]]].
    destruct (str_contains "ff" b), (bytecode_size_of b >? 24576);
      not_among Hin Hs Ht.
  - discriminate H.
Qed.

Lemma size_limit_iff (b : string) :
  has_finding "LOW" "SIZE_LIMIT" (scan_vulnerabilities b ++ scan_warnings b)
  <-> bytecode_size_of b > 24576.
Proof.
  unfold has_finding, scan_vulnerabilities, scan_warnings.
  destruct (bytecode_size_of b >? 24576) eqn:E; rewrite Z.gtb_ltb in E;
    [apply Z.ltb_lt in E | apply Z.ltb_ge in E]; split; intros H; try lia.
  - exists (size_finding (bytecode_size_of b)). split; [|split; reflexivity].
    apply in_or_app. right. apply in_or_app. right. simpl. auto.
  - destruct H as [f [Hin [Hs Ht]]].
    destruct (str_contains "ff" b), (str_contains "f4" b);
      not_among Hin Hs Ht.
Qed.

(** The size check counts the two characters of the [0x] prefix: the
    warning appears from 24576 bytes of code on. *)
Lemma size_warning_threshold (code : list byte) :
  has_finding "LOW" "SIZE_LIMIT"
    (scan_vulnerabilities (hexbytes_hex code) ++ scan_warnings (hexbytes_hex code))
  <-> 24576 <= Z.of_nat (length code).
Proof.
  rewrite size_limit_iff. unfold bytecode_size_of.
  rewrite length_hexbytes_hex.
  replace (Z.of_nat (2 + 2 * length code)) with (1 * 2 + Z.of_nat (length code) * 2) by lia.
  rewrite Z.div_add by lia. change (1 * 2 / 2) with 1. lia.
Qed.

(** C5. Whenever the fetched bytecode is not the empty-contract sentinel,
    [check_vulnerabilities] reports a HIGH-severity SELFDESTRUCT finding if
    and only if the hex string contains ["ff"], and a MEDIUM-severity
    DELEGATECALL finding if and only if it contains ["f4"]. *)
Theorem opcode_findings_iff_substring (a chain url ca : string)
    (code : list byte) (sent : list rpc) :
  assoc_get chain providers = Some url ->
  node_connected (node_at w url) = Ok true ->
  to_checksum_address lib a = Ok ca ->
  node_get_code (node_at w url) ca = Ok code ->
  hexbytes_hex code <> "0x" ->
  exists v,
    fst (check_vulnerabilities lib w a chain sent) = Ok v
    /\ (has_finding "HIGH" "SELFDESTRUCT" (findings v)
        <-> substring "ff" (hexbytes_hex code))
    /\ (has_finding "MEDIUM" "DELEGATECALL" (findings v)
        <-> substring "f4" (hexbytes_hex code)).
Proof.
  intros Hp Hc Ha Hg Hne.
  rewrite (check_vulnerabilities_run a chain url ca code sent Hp Hc Ha Hg).
  destruct (String.eqb (hexbytes_hex code) "0x") eqn:E.
  - apply String.eqb_eq in E. contradiction.
  - eexists. split; [reflexivity|].
    unfold findings. simpl field.
    rewrite selfdestruct_iff, delegatecall_iff, !str_contains_spec.
    split; reflexivity.
Qed.

(** C7. When the fetched bytecode is the empty-contract sentinel ["0x"],
    [check_vulnerabilities] returns the object whose only field is
    [error], with the text "No contract found at this address"; it has no
    [vulnerabilities] list. *)
Theorem no_contract_error (a chain url ca : string) (code : list byte)
    (sent : list rpc) :
  assoc_get chain providers = Some url ->
  node_connected (node_at w url) = Ok true ->
  to_checksum_address lib a = Ok ca ->
  node_get_code (node_at w url) ca = Ok code ->
  hexbytes_hex code = "0x" ->
  fst (check_vulnerabilities lib w a chain sent)
  = Ok (JDict [("error", JStr "No contract found at this address")])
  /\ forall v, fst (check_vulnerabilities lib w a chain sent) = Ok v ->
               field "error" v = Some (JStr "No contract found at this address")
               /\ field "vulnerabilities" v = None.
Proof.
  intros Hp Hc Ha Hg He.
  rewrite (check_vulnerabilities_run a chain url ca code sent Hp Hc Ha Hg).
  rewrite He. simpl. split; [reflexivity|].
  intros v [= <-]. split; reflexivity.
Qed.

(** The early exits of [monitor_events] that precede any use of the
    address, and the address check itself. *)
Lemma monitor_events_invalid (a chain ev : string) (fb : option Z) (sent : list rpc) :
  is_address lib a = false ->
  monitor_events lib w a chain ev fb sent =
  match assoc_get chain providers with
  | None => (Ok (error1 ("Unsupported chain: " +:+ chain)), sent)
  | Some url =>
      (Ok (match node_connected (node_at w url) with
           | Raise e => JDict [("error", JStr (str_exn e)); ("chain", JStr chain)]
           | Ok true => error1 ("Invalid contract address: " +:+ a)
           | Ok false => error1 ("Failed to connect to " +:+ chain)
           end),
       (sent ++ [web3_clientVersion url])%list)
  end.
Proof.
  intros Hi. unfold monitor_events. rewrite try_except_ret.
  unfold monitor_events_body.
  destruct (assoc_get chain providers) as [url|]; [|reflexivity].
  unfold bind, is_connected, call, ret.
  destruct (node_connected (node_at w url)) as [e|[|]]; cbv beta iota delta [negb];
    [|rewrite Hi|]; reflexivity.
Qed.

End Scan.

Section Tracking.

Variable lib : web3.
Variable w : world.
Variables (url address : string) (n : Z).

Lemma examined_app (l1 l2 : list rpc) :
  examined (l1 ++ l2) = (examined l1 ++ examined l2)%list.
Proof.
  induction l1 as [|r l1 IH]; [reflexivity|].
  destruct r; simpl; rewrite IH; reflexivity.
Qed.

(** The inner loop sends nothing. *)
Lemma scan_transactions_state (b : Z) (txs : list tx) (found : list json)
    (sent : list rpc) :
  snd (scan_transactions lib address n b txs found sent) = sent.
Proof.
  revert found. induction txs as [|t txs IH]; intros found; simpl; [reflexivity|].
  destruct (touches address t); [|apply IH].
  unfold bind, lift. destruct (tx_record lib address b t) as [e|entry]; [reflexivity|].
  destruct (Z.of_nat (length (found ++ [entry])) >=? n); [reflexivity | apply IH].
Qed.

(** Nor does its outcome depend on what was sent before. *)
Lemma scan_transactions_result (b : Z) (txs : list tx) (found : list json)
    (sent sent0 : list rpc) :
  fst (scan_transactions lib address n b txs found sent)
  = fst (scan_transactions lib address n b txs found sent0).
Proof.
  revert found. induction txs as [|t txs IH]; intros found; simpl; [reflexivity|].
  destruct (touches address t); [|apply IH].
  unfold bind, lift. destruct (tx_record lib address b t) as [e|entry]; [reflexivity|].
  destruct (Z.of_nat (length (found ++ [entry])) >=? n); [reflexivity | apply IH].
Qed.

(** What the inner loop adds: up to the quota while it is not reached, and
    at most one entry when it was reached on entry. *)
Lemma scan_transactions_length (b : Z) (txs : list tx) (found found' : list json)
    (sent : list rpc) :
  fst (scan_transactions lib address n b txs found sent) = Ok found' ->
  (Z.of_nat (length found) < n ->
   Z.of_nat (length found')
   = Z.min n (Z.of_nat (length found
                        + length (filter (fun t => touches address t = true) txs))))
  /\ (n <= Z.of_nat (length found) -> (length found' <= length found + 1)%nat).
Proof.
  revert found. induction txs as [|t txs IH]; intros found; simpl.
  - intros [= <-]. split; intros H; [rewrite Nat.add_0_r|]; lia.
  - rewrite filter_cons.
    destruct (touches address t) eqn:T.
    + destruct (decide (true = true)) as [_|F]; [|congruence].
      unfold bind, lift.
      destruct (tx_record lib address b t) as [e|entry]; [discriminate|].
      destruct (Z.of_nat (length (found ++ [entry])) >=? n) eqn:G.
      * intros [= <-]. rewrite Z.geb_leb in G. apply Z.leb_le in G.
        rewrite length_app in *. simpl length in *. split; intros H; lia.
      * intros H. apply IH in H. destruct H as [H1 H2].
        rewrite Z.geb_leb in G. apply Z.leb_gt in G.
        rewrite length_app in *. simpl length in *.
        split; intros H; [rewrite H1 by lia; f_equal; lia | lia].
    + destruct (decide (false = true)) as [F|_]; [discriminate|].
      apply IH.
Qed.

(** When the inner loop raises, the record of a matching transaction of
    the block did. *)
Lemma scan_transactions_raise (b : Z) (txs : list tx) (found : list json)
    (sent : list rpc) (e : exn) :
  fst (scan_transactions lib address n b txs found sent) = Raise e ->
  In (Raise e)
     (map (tx_record lib address b) (filter (fun t => touches address t = true) txs)).
Proof.
  revert found. induction txs as [|t txs IH]; intros found; simpl; [discriminate|].
  rewrite filter_cons.
  destruct (touches address t) eqn:T.
  - destruct (decide (true = true)) as [_|F]; [|congruence].
    unfold bind, lift. simpl map.
    destruct (tx_record lib address b t) as [e'|entry].
    + intros [= <-]. left. reflexivity.
    + destruct (Z.of_nat (length (found ++ [entry])) >=? n); [discriminate|].
      intros H. right. exact (IH _ H).
  - destruct (decide (false = true)) as [F|_]; [discriminate|].
    apply IH.
Qed.

(** One turn of the outer loop that raises does so at its block. *)
Lemma raised_at_head (b : Z) (found : list json) (sent : list rpc) (e : exn) :
  (node_get_block (node_at w url) b = Raise e
   \/ exists blk,
        node_get_block (node_at w url) b = Ok blk
        /\ fst (scan_transactions lib address n b (transactions blk) found sent)
           = Raise e) ->
  raised_at lib (node_at w url) address b e.
Proof.
  intros [H | [blk [Hb Hs]]]; [left; exact H|].
  right. unfold records_in. rewrite Hb.
  exact (scan_transactions_raise b (transactions blk) found sent e Hs).
Qed.

(** The outcome of the outer loop does not depend on what was sent
    before. *)
Lemma scan_blocks_result (blocks : list Z) (found : list json) (sent sent0 : list rpc) :
  fst (scan_blocks lib w url address n blocks found sent)
  = fst (scan_blocks lib w url address n blocks found sent0).
Proof.
  revert found sent sent0.
  induction blocks as [|b blocks IH]; intros found sent sent0; [reflexivity|].
  simpl scan_blocks. unfold bind at 1 3. unfold get_block, call.
  destruct (node_get_block (node_at w url) b) as [e|blk]; [reflexivity|].
  unfold bind.
  pose proof (scan_transactions_result b (transactions blk) found
                (sent ++ [eth_getBlockByNumber url b])
                (sent0 ++ [eth_getBlockByNumber url b])) as Hr.
  destruct (scan_transactions lib address n b (transactions blk) found
              (sent ++ [eth_getBlockByNumber url b])) as [r1 s1].
  destruct (scan_transactions lib address n b (transactions blk) found
              (sent0 ++ [eth_getBlockByNumber url b])) as [r2 s2].
  simpl in Hr. subst r2. destruct r1 as [e|found1]; [reflexivity|].
  destruct (Z.of_nat (length found1) >=? n); [reflexivity | apply IH].
Qed.

(** The outer loop while the quota is open on entry: it fetches a prefix
    of the block numbers; before each fetch the matches found so far are
    fewer than the quota; the result never exceeds the quota and meets it
    when the loop stops short of the last block; and when the loop raises,
    it does so at the last block fetched. *)
Lemma scan_blocks_quota (blocks : list Z) (found : list json) (sent : list rpc) :
  Z.of_nat (length found) < n ->
  exists k : nat,
    (k <= length blocks)%nat
    /\ examined (snd (scan_blocks lib w url address n blocks found sent))
       = (examined sent ++ take k blocks)%list
    /\ (forall i, (i < k)%nat ->
          Z.of_nat (length found
                    + matches_among (node_at w url) address (take i blocks)) < n)
    /\ (forall found',
          fst (scan_blocks lib w url address n blocks found sent) = Ok found' ->
          Z.of_nat (length found') <= n
          /\ ((k < length blocks)%nat -> Z.of_nat (length found') = n))
    /\ (forall e,
          fst (scan_blocks lib w url address n blocks found sent) = Raise e ->
          exists b, last (take k blocks) = Some b
                    /\ raised_at lib (node_at w url) address b e).
Proof.
  revert found sent. induction blocks as [|b blocks IH]; intros found sent Hlt.
  - exists 0%nat. simpl. rewrite app_nil_r.
    conjs; try lia; try reflexivity; [|discriminate].
    intros found' [= <-]. split; lia.
  - simpl scan_blocks. unfold bind at 1. unfold get_block, call.
    assert (Hone : forall i, (i < 1)%nat ->
              Z.of_nat (length found
                        + matches_among (node_at w url) address (take i (b :: blocks))) < n).
    { intros i Hi. replace i with 0%nat by lia. simpl. lia. }
    destruct (node_get_block (node_at w url) b) as [e|blk] eqn:Hb.
    { exists 1%nat. simpl fst. simpl snd. rewrite examined_app. simpl examined.
      simpl length. simpl take.
      split; [lia|]. split; [reflexivity|]. split; [exact Hone|].
      split; [intros found' H; discriminate H|].
      intros e' [= <-]. exists b. split; [reflexivity|].
      apply (raised_at_head b found sent). left. exact Hb. }
    unfold bind.
    pose proof (scan_transactions_state b (transactions blk) found
                  (sent ++ [eth_getBlockByNumber url b])) as Hst.
    pose proof (scan_transactions_length b (transactions blk) found) as Hlen.
    destruct (scan_transactions lib address n b (transactions blk) found
                (sent ++ [eth_getBlockByNumber url b])) as [[e|found1] sent1] eqn:Hs.
    { simpl in Hst. subst sent1. exists 1%nat. simpl fst. simpl snd.
      rewrite examined_app. simpl examined. simpl length. simpl take.
      split; [lia|]. split; [reflexivity|]. split; [exact Hone|].
      split; [intros found' H; discriminate H|].
      intros e' [= <-]. exists b. split; [reflexivity|].
      apply (raised_at_head b found (sent ++ [eth_getBlockByNumber url b])).
      right. exists blk. split; [exact Hb | rewrite Hs; reflexivity]. }
    simpl in Hst. subst sent1.
    specialize (Hlen found1 (sent ++ [eth_getBlockByNumber url b])%list).
    rewrite Hs in Hlen. destruct (Hlen eq_refl) as [H1 _]. specialize (H1 Hlt).
    destruct (Z.of_nat (length found1) >=? n) eqn:G.
    + rewrite Z.geb_leb in G. apply Z.leb_le in G.
      exists 1%nat. simpl fst. simpl snd.
      rewrite examined_app. simpl examined. simpl length. simpl take.
      split; [lia|]. split; [reflexivity|]. split; [exact Hone|].
      split; [intros found' [= <-]; lia | discriminate].
    + rewrite Z.geb_leb in G. apply Z.leb_gt in G.
      destruct (IH found1 (sent ++ [eth_getBlockByNumber url b])%list G)
        as [k [Hk [Hex [Hbefore [Hres Hraise]]]]].
      exists (S k). simpl length. split; [lia|]. split.
      { rewrite Hex, examined_app. simpl. rewrite <- app_assoc. reflexivity. }
      split; [|split].
      * intros [|i] Hi; [simpl; lia|].
        specialize (Hbefore i ltac:(lia)). simpl take. simpl matches_among.
        unfold matches_in at 1. rewrite Hb. lia.
      * intros found' H; destruct (Hres found' H); split; [assumption | lia].
      * intros e H. destruct (Hraise e H) as [b' [Hl Hr]].
        exists b'. split; [|exact Hr].
        simpl take. rewrite last_cons, Hl. reflexivity.
Qed.

(** The outer loop when the quota is already met on entry (a quota of zero
    or less): the first block is still fetched, then the loop stops. *)
Lemma scan_blocks_no_quota (blocks : list Z) (found : list json) (sent : list rpc) :
  n <= Z.of_nat (length found) ->
  exists k : nat,
    (k <= length blocks)%nat /\ (k <= 1)%nat
    /\ (blocks <> [] -> k = 1%nat)
    /\ examined (snd (scan_blocks lib w url address n blocks found sent))
       = (examined sent ++ take k blocks)%list
    /\ (forall found',
          fst (scan_blocks lib w url address n blocks found sent) = Ok found' ->
          (length found' <= length found + 1)%nat)
    /\ (forall e,
          fst (scan_blocks lib w url address n blocks found sent) = Raise e ->
          exists b, last (take k blocks) = Some b
                    /\ raised_at lib (node_at w url) address b e).
Proof.
  intros Hge. destruct blocks as [|b blocks].
  - exists 0%nat. simpl. rewrite app_nil_r.
    conjs; try lia; try congruence; try reflexivity. intros found' [= <-]. lia.
  - exists 1%nat. simpl length. split; [lia|]. split; [lia|]. split; [reflexivity|].
    simpl scan_blocks. unfold bind at 1 2 3. unfold get_block, call.
    destruct (node_get_block (node_at w url) b) as [e|blk] eqn:Hb.
    { simpl. rewrite examined_app. simpl.
      split; [reflexivity|]. split; [discriminate|].
      intros e' [= <-]. exists b. split; [reflexivity|].
      apply (raised_at_head b found sent). left. exact Hb. }
    unfold bind.
    pose proof (scan_transactions_state b (transactions blk) found
                  (sent ++ [eth_getBlockByNumber url b])) as Hst.
    pose proof (scan_transactions_length b (transactions blk) found) as Hlen.
    destruct (scan_transactions lib address n b (transactions blk) found
                (sent ++ [eth_getBlockByNumber url b])) as [[e|found1] sent1] eqn:Hs.
    { simpl in Hst. subst sent1. simpl. rewrite examined_app. simpl.
      split; [reflexivity|]. split; [discriminate|].
      intros e' [= <-]. exists b. split; [reflexivity|].
      apply (raised_at_head b found (sent ++ [eth_getBlockByNumber url b])).
      right. exists blk. split; [exact Hb | rewrite Hs; reflexivity]. }
    simpl in Hst. subst sent1.
    specialize (Hlen found1 (sent ++ [eth_getBlockByNumber url b])%list).
    rewrite Hs in Hlen. destruct (Hlen eq_refl) as [_ H2]. specialize (H2 Hge).
    assert (G : (Z.of_nat (length found1) >=? n) = true).
    { rewrite Z.geb_leb. apply Z.leb_le.
      assert (length found <= length found1)%nat; [|lia].
      clear -Hs. revert found Hs.
      generalize (sent ++ [eth_getBlockByNumber url b])%list as s0.
      induction (transactions blk) as [|t txs IH]; intros s0 found; simpl.
      - intros [= <-]. lia.
      - destruct (touches address t); [|apply IH].
        unfold bind, lift. destruct (tx_record lib address b t); [discriminate|].
        destruct (_ >=? n).
        + intros [= <-]. rewrite length_app. lia.
        + intros H. apply IH in H. rewrite length_app in H. lia. }
    rewrite G. simpl. rewrite examined_app. simpl.
    split; [reflexivity|]. split; [intros found' [= <-]; exact H2 | discriminate].
Qed.

End Tracking.

Section TrackTransactions.

Variable lib : web3.
Variable w : world.

(** [track_transactions], step by step. *)
Lemma track_transactions_run (a chain : string) (n : Z) (sent : list rpc) :
  track_transactions lib w a chain n sent =
  match assoc_get chain providers with
  | None => (Ok (error1 ("Connection failed to " +:+ chain)), sent)
  | Some url =>
    match node_connected (node_at w url) with
    | Raise e => (Ok (error1 (str_exn e)), sent ++ [web3_clientVersion url])
    | Ok false =>
        (Ok (error1 ("Connection failed to " +:+ chain)), sent ++ [web3_clientVersion url])
    | Ok true =>
      match to_checksum_address lib a with
      | Raise e => (Ok (error1 (str_exn e)), sent ++ [web3_clientVersion url])
      | Ok ca =>
        let s1 := sent ++ [web3_clientVersion url; eth_getTransactionCount url ca] in
        match node_get_transaction_count (node_at w url) ca with
        | Raise e => (Ok (error1 (str_exn e)), s1)
        | Ok nonce =>
          let s2 := s1 ++ [eth_getBalance url ca] in
          match node_get_balance (node_at w url) ca with
          | Raise e => (Ok (error1 (str_exn e)), s2)
          | Ok balance_wei =>
            match from_wei lib balance_wei "ether" with
            | Raise e => (Ok (error1 (str_exn e)), s2)
            | Ok balance_eth =>
              let s3 := s2 ++ [eth_blockNumber url] in
              match node_block_number (node_at w url) with
              | Raise e => (Ok (error1 (str_exn e)), s3)
              | Ok head =>
                match scan_blocks lib w url ca n
                        (range_down head (Z.max (head - 100) 0)) [] s3 with
                | (Raise e, sent') => (Ok (error1 (str_exn e)), sent')
                | (Ok found, sent') =>
                    (Ok (JDict [ ("chain", JStr chain);
                                 ("address", JStr ca);
                                 ("balance_eth", JStr balance_eth);
                                 ("transaction_count", JInt nonce);
                                 ("recent_transactions", JList (slice_to n found));
                                 ("timestamp", JStr (clock_iso w 0)) ]),
                     sent')
                end
              end
            end
          end
        end
      end
    end
  end.
Proof.
  unfold track_transactions. rewrite try_except_ret.
  unfold track_transactions_body.
  destruct (assoc_get chain providers) as [url|]; [|reflexivity].
  unfold bind, is_connected, get_transaction_count, get_balance, block_number,
    call, lift, ret.
  destruct (node_connected (node_at w url)) as [e|[|]]; cbv beta iota delta [negb];
    [reflexivity | | reflexivity].
  destruct (to_checksum_address lib a) as [e|ca]; [reflexivity|].
  cbv zeta. rewrite <- !app_assoc. simpl app.
  destruct (node_get_transaction_count (node_at w url) ca) as [e|nonce]; [reflexivity|].
  destruct (node_get_balance (node_at w url) ca) as [e|bw]; [reflexivity|].
  destruct (from_wei lib bw "ether") as [e|be]; [reflexivity|].
  destruct (node_block_number (node_at w url)) as [e|head]; [reflexivity|].
  destruct (scan_blocks lib w url ca n (range_down head (Z.max (head - 100) 0)) []
              (sent ++ [web3_clientVersion url; eth_getTransactionCount url ca;
                        eth_getBalance url ca; eth_blockNumber url]))
    as [[e|found] sent']; reflexivity.
Qed.

Lemma length_range_down (head : Z) :
  range_down head (Z.max (head - 100) 0)
  = blocks_from head (Z.to_nat (Z.min 100 (Z.max head 0))).
Proof.
  unfold range_down, blocks_from. do 2 f_equal. lia.
Qed.

Lemma take_blocks_from (head : Z) (k len : nat) :
  (k <= len)%nat -> take k (blocks_from head len) = blocks_from head k.
Proof.
  intros H. unfold blocks_from. rewrite firstn_map, take_seq.
  rewrite Nat.min_l by exact H. reflexivity.
Qed.

Lemma length_blocks_from (head : Z) (k : nat) : length (blocks_from head k) = k.
Proof. unfold blocks_from. rewrite length_map, length_seq. reflexivity. Qed.

Lemma length_slice_to {A : Type} (m : Z) (l : list A) :
  0 <= m -> Z.of_nat (length (slice_to m l)) = Z.min m (Z.of_nat (length l)).
Proof.
  intros H. unfold slice_to. destruct (0 <=? m) eqn:E; [|lia].
  rewrite length_take. lia.
Qed.

Lemma slice_to_negative {A : Type} (m : Z) (l : list A) :
  m < 0 -> (length l <= 1)%nat -> slice_to m l = [].
Proof.
  intros H Hl. unfold slice_to. destruct (0 <=? m) eqn:E; [lia|].
  replace (length l - Z.to_nat (- m))%nat with 0%nat by lia. reflexivity.
Qed.

Lemma slice_to_zero {A : Type} (l : list A) : slice_to 0 l = [].
Proof. reflexivity. Qed.

(** A run that stops before the scan fetches no block and answers an
    error object; the scan was then not reached. *)
Ltac no_scan_case :=
  eexists _, _, []; split; [reflexivity|];
  split; [rewrite ?examined_app; simpl; rewrite ?app_nil_r; reflexivity|];
  split; [simpl; lia|];
  split; [intros txs H; discriminate H|];
  split; [intros _; split; [reflexivity | eexists; reflexivity]|];
  intros url' ca' head' (Hp' & Hc' & Ha' & [nonce' Hn'] & [bw' [be' [Hb' Hw']]] & Hh');
  congruence.

(** C6, as the code has it.  [track_transactions] always returns; it
    fetches at most 100 blocks and the list it returns has at most
    [max tx_count 0] entries.  Unless the scan is reached, no block is
    fetched and the result is an error object.  When the scan is reached
    with the head at [head], the blocks fetched are the [k] blocks from
    [head] downwards, with [k] at most 100 and at most [head] (block 0 is
    never fetched).  For [tx_count >= 1] a block is fetched only while
    fewer than [tx_count] matches have been found in the blocks before it.
    For [tx_count <= 0] exactly one block is fetched, the head, provided
    there is a block above block 0 at all.  The scan ends in one of two
    ways.  Either the list is returned: then, for [tx_count >= 1], the scan
    stopped short of the range only with exactly [tx_count] transactions,
    and for [tx_count <= 0] the list is empty.  Or fetching the last block
    examined, or building a record from it, raised: then the result is the
    error object of that exception. *)
Theorem scan_bounds (a chain : string) (n : Z) (sent : list rpc) :
  exists (v : json) (sent' : list rpc) (bs : list Z),
    track_transactions lib w a chain n sent = (Ok v, sent')
    /\ examined sent' = examined sent ++ bs
    /\ (length bs <= 100)%nat
    /\ (forall txs, field "recent_transactions" v = Some (JList txs) ->
          Z.of_nat (length txs) <= Z.max n 0)
    /\ ((forall url ca head, ~ scan_reached lib w a chain url ca head) ->
        bs = [] /\ reports_error v)
    /\ (forall url ca head,
          scan_reached lib w a chain url ca head ->
          exists k : nat,
            bs = blocks_from head k
            /\ Z.of_nat k <= Z.min 100 (Z.max head 0)
            /\ (1 <= n -> forall i, (i < k)%nat ->
                  Z.of_nat (matches_among (node_at w url) ca (blocks_from head i)) < n)
            /\ (n <= 0 -> Z.of_nat k = Z.min 1 (Z.max head 0))
            /\ ((exists txs,
                   field "recent_transactions" v = Some (JList txs)
                   /\ (1 <= n -> Z.of_nat k < Z.min 100 (Z.max head 0) ->
                       Z.of_nat (length txs) = n)
                   /\ (n <= 0 -> txs = []))
                \/ (exists e b,
                      v = JDict [("error", JStr (str_exn e))]
                      /\ last bs = Some b
                      /\ raised_at lib (node_at w url) ca b e))).
Proof.
  rewrite track_transactions_run.
  destruct (assoc_get chain providers) as [url|] eqn:Hp; [|no_scan_case].
  destruct (node_connected (node_at w url)) as [e|[|]] eqn:Hc;
    [no_scan_case | | no_scan_case].
  destruct (to_checksum_address lib a) as [e|ca] eqn:Ha; [no_scan_case|].
  cbv zeta.
  destruct (node_get_transaction_count (node_at w url) ca) as [e|nonce] eqn:Hn;
    [no_scan_case|].
  destruct (node_get_balance (node_at w url) ca) as [e|bw] eqn:Hb; [no_scan_case|].
  destruct (from_wei lib bw "ether") as [e|be] eqn:Hw; [no_scan_case|].
  destruct (node_block_number (node_at w url)) as [e|head] eqn:Hhead; [no_scan_case|].
  assert (Hreached : scan_reached lib w a chain url ca head).
  { unfold scan_reached. conjs; try assumption; [exists nonce | exists bw, be]; auto. }
  rewrite length_range_down.
  set (L := Z.to_nat (Z.min 100 (Z.max head 0))).
  set (s3 := ((sent ++ [web3_clientVersion url; eth_getTransactionCount url ca])
              ++ [eth_getBalance url ca]) ++ [eth_blockNumber url]).
  assert (Hs3 : examined s3 = examined sent).
  { unfold s3. rewrite !examined_app. simpl. rewrite !app_nil_r. reflexivity. }
  assert (Hsame : forall url' ca' head',
            scan_reached lib w a chain url' ca' head' ->
            url' = url /\ ca' = ca /\ head' = head).
  { intros url' ca' head' (Hp' & _ & Ha' & _ & _ & Hh').
    assert (url' = url) by congruence. subst url'.
    assert (ca' = ca) by congruence. subst ca'.
    assert (head' = head) by congruence. auto. }
  destruct (Z_lt_le_dec 0 n) as [Hpos|Hneg].
  - destruct (scan_blocks_quota lib w url ca n (blocks_from head L) [] s3 Hpos)
      as [k [Hk [Hex [Hbefore [Hres Hraise]]]]].
    rewrite length_blocks_from in Hk, Hres.
    rewrite take_blocks_from in Hex, Hraise by exact Hk. rewrite Hs3 in Hex.
    destruct (scan_blocks lib w url ca n (blocks_from head L) [] s3)
      as [[e|found] sent'] eqn:Hscan; simpl in Hex, Hres, Hraise;
      eexists _, sent', (blocks_from head k); (split; [reflexivity|]);
      (split; [exact Hex|]); (split; [rewrite length_blocks_from; lia|]).
    + split; [intros txs H; discriminate H|].
      split; [intros H; destruct (H url ca head Hreached)|].
      intros url' ca' head' R. destruct (Hsame _ _ _ R) as (-> & -> & ->).
      exists k. split; [reflexivity|]. split; [lia|]. split.
      { intros _ i Hi. specialize (Hbefore i Hi).
        rewrite take_blocks_from in Hbefore by lia. simpl in Hbefore. exact Hbefore. }
      split; [intros; lia|].
      right. destruct (Hraise e eq_refl) as [b [Hl Hr]].
      exists e, b. split; [reflexivity|]. split; assumption.
    + destruct (Hres found eq_refl) as [Hle Hfull].
      split.
      { intros txs H. simpl in H. injection H as <-.
        rewrite length_slice_to by lia. lia. }
      split; [intros H; destruct (H url ca head Hreached)|].
      intros url' ca' head' R. destruct (Hsame _ _ _ R) as (-> & -> & ->).
      exists k. split; [reflexivity|]. split; [lia|]. split.
      { intros _ i Hi. specialize (Hbefore i Hi).
        rewrite take_blocks_from in Hbefore by lia. simpl in Hbefore. exact Hbefore. }
      split; [intros; lia|].
      left. eexists. split; [reflexivity|]. split; [|intros; lia].
      intros _ Hshort. rewrite length_slice_to by lia. rewrite Hfull by lia. lia.
  - destruct (scan_blocks_no_quota lib w url ca n (blocks_from head L) [] s3 Hneg)
      as [k [Hk [Hk1 [Hone [Hex [Hres Hraise]]]]]].
    rewrite length_blocks_from in Hk.
    rewrite take_blocks_from in Hex, Hraise by exact Hk. rewrite Hs3 in Hex.
    assert (Hkval : Z.of_nat k = Z.min 1 (Z.max head 0)).
    { destruct (Z_lt_le_dec 0 head) as [Hh|Hh].
      - rewrite Hone; [lia|]. intros E. apply (f_equal (@length Z)) in E.
        rewrite length_blocks_from in E. simpl in E. lia.
      - lia. }
    destruct (scan_blocks lib w url ca n (blocks_from head L) [] s3)
      as [[e|found] sent'] eqn:Hscan; simpl in Hex, Hres, Hraise;
      eexists _, sent', (blocks_from head k); (split; [reflexivity|]);
      (split; [exact Hex|]); (split; [rewrite length_blocks_from; lia|]).
    + split; [intros txs H; discriminate H|].
      split; [intros H; destruct (H url ca head Hreached)|].
      intros url' ca' head' R. destruct (Hsame _ _ _ R) as (-> & -> & ->).
      exists k. split; [reflexivity|]. split; [lia|].
      split; [intros; lia|]. split; [intros _; exact Hkval|].
      right. destruct (Hraise e eq_refl) as [b [Hl Hr]].
      exists e, b. split; [reflexivity|]. split; assumption.
    + specialize (Hres found eq_refl). simpl in Hres.
      assert (Hempty : slice_to n found = []).
      { destruct (Z.eq_dec n 0) as [->|Hn0]; [apply slice_to_zero|].
        apply slice_to_negative; lia. }
      split.
      { intros txs H. simpl in H. injection H as <-. rewrite Hempty. simpl. lia. }
      split; [intros H; destruct (H url ca head Hreached)|].
      intros url' ca' head' R. destruct (Hsame _ _ _ R) as (-> & -> & ->).
      exists k. split; [reflexivity|]. split; [lia|].
      split; [intros; lia|]. split; [intros _; exact Hkval|].
      left. eexists. split; [reflexivity|]. split; [intros; lia|].
      intros _. exact Hempty.
Qed.

End TrackTransactions.

Section Addresses.

Variable lib : web3.
Variable w : world.

(** C1, as the code has it.  Both methods probe the provider before they
    look at the address, so a refusal comes after exactly that one request
    (none when the chain is unsupported), and no chain data is requested.
    [monitor_events] refuses every address that [Web3.is_address] rejects:
    the result is an error object without events; when the probe answers
    that the provider is connected it is exactly the object whose only
    field is [error], with "Invalid contract address: " and the address;
    otherwise it is the error of the connection.  [track_transactions]
    never calls [Web3.is_address]: it refuses the addresses that
    [Web3.to_checksum_address] raises on, with the message of that
    exception when the provider is connected; an address that
    [Web3.to_checksum_address] accepts is tracked, and on a connected
    provider the request for its nonce goes out. *)
Theorem invalid_address_rejected_after_probe (a chain ev : string)
    (fb : option Z) (n : Z) (sent : list rpc) :
  (is_address lib a = false ->
   exists v sent',
     monitor_events lib w a chain ev fb sent = (Ok v, sent')
     /\ reports_error v
     /\ field "events" v = None
     /\ match assoc_get chain providers with
        | None =>
            sent' = sent
            /\ v = JDict [("error", JStr ("Unsupported chain: " +:+ chain))]
        | Some url =>
            sent' = sent ++ [web3_clientVersion url]
            /\ v = match node_connected (node_at w url) with
                   | Ok true =>
                       JDict [("error", JStr ("Invalid contract address: " +:+ a))]
                   | Ok false =>
                       JDict [("error", JStr ("Failed to connect to " +:+ chain))]
                   | Raise e =>
                       JDict [("error", JStr (str_exn e)); ("chain", JStr chain)]
                   end
        end)
  /\ (forall e,
        to_checksum_address lib a = Raise e ->
        exists v sent',
          track_transactions lib w a chain n sent = (Ok v, sent')
          /\ reports_error v
          /\ field "recent_transactions" v = None
          /\ match assoc_get chain providers with
             | None =>
                 sent' = sent
                 /\ v = JDict [("error", JStr ("Connection failed to " +:+ chain))]
             | Some url =>
                 sent' = sent ++ [web3_clientVersion url]
                 /\ v = match node_connected (node_at w url) with
                        | Ok true => JDict [("error", JStr (str_exn e))]
                        | Ok false =>
                            JDict [("error", JStr ("Connection failed to " +:+ chain))]
                        | Raise e' => JDict [("error", JStr (str_exn e'))]
                        end
             end)
  /\ (forall ca url,
        to_checksum_address lib a = Ok ca ->
        assoc_get chain providers = Some url ->
        node_connected (node_at w url) = Ok true ->
        exists rest,
          snd (track_transactions lib w a chain n sent)
          = sent ++ [web3_clientVersion url; eth_getTransactionCount url ca] ++ rest).
Proof.
  split; [|split].
  - intros Hi. rewrite (monitor_events_invalid lib w a chain ev fb sent Hi).
    destruct (assoc_get chain providers) as [url|].
    + eexists _, _. split; [reflexivity|].
      split; [destruct (node_connected (node_at w url)) as [e|[|]]; eexists; reflexivity|].
      split; [destruct (node_connected (node_at w url)) as [e|[|]]; reflexivity|].
      split; [reflexivity|].
      destruct (node_connected (node_at w url)) as [e|[|]]; reflexivity.
    + eexists _, _. split; [reflexivity|]. split; [eexists; reflexivity|].
      split; [reflexivity|]. split; reflexivity.
  - intros e Ha. rewrite track_transactions_run, Ha.
    destruct (assoc_get chain providers) as [url|].
    + destruct (node_connected (node_at w url)) as [e'|[|]];
        (eexists _, _; split; [reflexivity|]; split; [eexists; reflexivity|];
         split; [reflexivity|]; split; reflexivity).
    + eexists _, _. split; [reflexivity|]. split; [eexists; reflexivity|].
      split; [reflexivity|]. split; reflexivity.
  - intros ca url Ha Hp Hc. rewrite track_transactions_run, Hp, Hc, Ha. cbv zeta.
    destruct (node_get_transaction_count (node_at w url) ca) as [e|nonce];
      [exists []; reflexivity|].
    destruct (node_get_balance (node_at w url) ca) as [e|bw];
      [eexists; simpl snd; rewrite <- app_assoc; reflexivity|].
    destruct (from_wei lib bw "ether") as [e|be];
      [eexists; simpl snd; rewrite <- app_assoc; reflexivity|].
    destruct (node_block_number (node_at w url)) as [e|head];
      [eexists; simpl snd; rewrite <- !app_assoc; reflexivity|].
    set (s3 := ((sent ++ [web3_clientVersion url; eth_getTransactionCount url ca])
                ++ [eth_getBalance url ca]) ++ [eth_blockNumber url]).
    assert (Hgrow : forall blocks found s0,
              exists l, snd (scan_blocks lib w url ca n blocks found s0) = s0 ++ l).
    { induction blocks as [|b blocks IH]; intros found s0.
      - exists []. simpl. now rewrite app_nil_r.
      - simpl scan_blocks. unfold bind at 1. unfold get_block, call.
        destruct (node_get_block (node_at w url) b) as [e|blk]; [eexists; reflexivity|].
        unfold bind.
        pose proof (scan_transactions_state lib ca n b (transactions blk) found
                      (s0 ++ [eth_getBlockByNumber url b])) as Hst.
        destruct (scan_transactions lib ca n b (transactions blk) found
                    (s0 ++ [eth_getBlockByNumber url b])) as [[e|found1] s1];
          simpl in Hst; subst s1; [eexists; reflexivity|].
        destruct (Z.of_nat (length found1) >=? n); [eexists; reflexivity|].
        destruct (IH found1 (s0 ++ [eth_getBlockByNumber url b])) as [l Hl].
        exists (eth_getBlockByNumber url b :: l). rewrite Hl, <- app_assoc. reflexivity. }
    destruct (Hgrow (range_down head (Z.max (head - 100) 0)) [] s3) as [l Hl].
    destruct (scan_blocks lib w url ca n (range_down head (Z.max (head - 100) 0)) [] s3)
      as [[e|found] sent'] eqn:Hscan; simpl in Hl; subst sent'; simpl snd;
      exists ([eth_getBalance url ca; eth_blockNumber url] ++ l);
      unfold s3; rewrite <- !app_assoc; reflexivity.
Qed.

End Addresses.

(** The claim C6 as written fails for a count below one: with a count of
    [-1] the list returned is empty, which is more than [-1] entries, and
    with a count of [0] the head block is fetched although no transaction
    was asked for.  Nor is a hundred blocks the only other way for the scan
    to end: with the head at block 3 and a count of 10, it stops after the
    blocks 3, 2 and 1, three transactions found. *)
Lemma scan_count_below_one :
  (exists v sent' txs,
     track_transactions Sample.lib (Sample.world 3 []) Sample.alice
       "polygon-zkevm" (-1) [] = (Ok v, sent')
     /\ field "recent_transactions" v = Some (JList txs)
     /\ ~ (Z.of_nat (length txs) <= -1))
  /\ (exists v sent',
        track_transactions Sample.lib (Sample.world 3 []) Sample.alice
          "polygon-zkevm" 0 [] = (Ok v, sent')
        /\ field "recent_transactions" v = Some (JList [])
        /\ examined sent' = [3])
  /\ (exists v sent' txs,
        track_transactions Sample.lib (Sample.world 3 []) Sample.alice
          "polygon-zkevm" 10 [] = (Ok v, sent')
        /\ field "recent_transactions" v = Some (JList txs)
        /\ length txs = 3%nat
        /\ examined sent' = [3; 2; 1]).
Proof.
  split; [|split].
  - eexists _, _, []. split; [vm_compute; reflexivity|].
    split; [reflexivity | simpl; lia].
  - eexists _, _. split; [vm_compute; reflexivity|].
    split; reflexivity.
  - eexists _, _, _. split; [vm_compute; reflexivity|].
    split; [reflexivity|]. split; reflexivity.
Qed.

(** The theorem of C6 at a head of 3 and a count of 2: the scan is
    reached, and stops after the blocks 3 and 2 with two transactions. *)
Lemma scan_bounds_witness :
  exists v sent' k txs,
    track_transactions Sample.lib (Sample.world 3 []) Sample.alice "polygon-zkevm" 2 []
    = (Ok v, sent')
    /\ examined sent' = blocks_from 3 k
    /\ Z.of_nat k <= 3
    /\ field "recent_transactions" v = Some (JList txs)
    /\ Z.of_nat (length txs) <= 2.
Proof.
  destruct (scan_bounds Sample.lib (Sample.world 3 []) Sample.alice "polygon-zkevm" 2 [])
    as (v & sent' & bs & Hrun & Hex & _ & Hmax & _ & Hreached).
  assert (R : scan_reached Sample.lib (Sample.world 3 []) Sample.alice "polygon-zkevm"
                "https://zkevm-rpc.com" Sample.alice 3).
  { unfold scan_reached. conjs; try reflexivity.
    - exists 7. reflexivity.
    - exists 1000, "1000". split; reflexivity. }
  destruct (Hreached _ _ _ R) as (k & Hbs & Hk & _ & _ & Hend).
  assert (Hv : exists txs, field "recent_transactions" v = Some (JList txs)).
  { assert (E : fst (track_transactions Sample.lib (Sample.world 3 []) Sample.alice
                       "polygon-zkevm" 2 []) = Ok v) by (rewrite Hrun; reflexivity).
    vm_compute in E. injection E as <-. eexists. reflexivity. }
  destruct Hv as [txs Htxs].
  exists v, sent', k, txs. split; [exact Hrun|].
  split; [rewrite Hex, Hbs; reflexivity|].
  split; [lia|]. split; [exact Htxs|].
  exact (Hmax txs Htxs).
Defined.

Section MonitorTotality.

Variable lib : web3.
Variable w : world.

Ltac run_body :=
  repeat (cbv beta iota zeta;
          match goal with
          | |- context [match ?x with _ => _ end] =>
              lazymatch x with
              | context [match _ with _ => _ end] => fail
              | _ => destruct x eqn:?
              end
          end);
  cbv beta iota zeta.

Lemma monitor_events_body_dict (a chain ev : string) (fb : option Z)
    (sent : list rpc) (v : json) :
  fst (monitor_events_body lib w a chain ev fb sent) = Ok v -> is_dict v = true.
Proof.
  unfold monitor_events_body, bind, is_connected, block_number, create_filter,
    get_all_entries, call, lift, ret, error1.
  run_body; simpl; intros H; try discriminate H; injection H as <-; reflexivity.
Qed.

Lemma check_vulnerabilities_body_dict (a chain : string) (sent : list rpc) (v : json) :
  fst (check_vulnerabilities_body lib w a chain sent) = Ok v -> is_dict v = true.
Proof.
  unfold check_vulnerabilities_body, bind, is_connected, get_code, call, lift, ret,
    error1.
  run_body; simpl; intros H; try discriminate H; injection H as <-; reflexivity.
Qed.

Lemma track_transactions_dict (a chain : string) (n : Z) (sent : list rpc) :
  exists v, fst (track_transactions lib w a chain n sent) = Ok v /\ is_dict v = true.
Proof.
  rewrite track_transactions_run. unfold error1.
  run_body; simpl; eexists; split; reflexivity.
Qed.

(** Every invocation of the monitor returns an object, whatever the
    environment answers. *)
Lemma monitor_invoke_dict (i : invocation) (sent : list rpc) :
  exists v, fst (invoke lib w i sent) = Ok v /\ is_dict v = true.
Proof.
  destruct i as [a c ev fb | a c | a c n]; simpl invoke.
  - unfold monitor_events. rewrite try_except_result. eexists. split; [reflexivity|].
    destruct (fst (monitor_events_body lib w a c ev fb sent)) eqn:E; [reflexivity|].
    exact (monitor_events_body_dict a c ev fb sent _ E).
  - unfold check_vulnerabilities. rewrite try_except_result.
    eexists. split; [reflexivity|].
    destruct (fst (check_vulnerabilities_body lib w a c sent)) eqn:E; [reflexivity|].
    exact (check_vulnerabilities_body_dict a c sent _ E).
  - apply track_transactions_dict.
Qed.

(** When the [try] block raises, the result is the error object of the
    [except] clause, carrying the message of the exception. *)
Lemma monitor_invoke_raise (i : invocation) (sent : list rpc) (e : exn) :
  fst (invoke_body lib w i sent) = Raise e ->
  exists v, fst (invoke lib w i sent) = Ok v
            /\ field "error" v = Some (JStr (str_exn e)).
Proof.
  destruct i as [a c ev fb | a c | a c n]; simpl invoke; simpl invoke_body; intros H;
    [unfold monitor_events | unfold check_vulnerabilities | unfold track_transactions];
    rewrite try_except_result, H; eexists; split; reflexivity.
Qed.

(** An unsupported chain, or an endpoint that is not connected, gives an
    error object. *)
Lemma monitor_invoke_unreachable (i : invocation) (sent : list rpc) :
  (assoc_get (chain_of i) providers = None
   \/ exists url, assoc_get (chain_of i) providers = Some url
                  /\ node_connected (node_at w url) = Ok false) ->
  exists v, fst (invoke lib w i sent) = Ok v /\ reports_error v.
Proof.
  intros H.
  destruct i as [a c ev fb | a c | a c n]; simpl invoke; simpl chain_of in H;
    [unfold monitor_events, monitor_events_body
    | unfold check_vulnerabilities, check_vulnerabilities_body
    | unfold track_transactions, track_transactions_body];
    rewrite try_except_result;
    unfold bind, is_connected, call, ret;
    (destruct H as [H | [url [H Hc]]]; rewrite H; [|rewrite Hc]);
    simpl; eexists; (split; [reflexivity|]); eexists; reflexivity.
Qed.

(** [monitor_events], step by step. *)
Lemma monitor_events_steps (a chain ev : string) (fb : option Z) (sent : list rpc) :
  monitor_events lib w a chain ev fb sent =
  match assoc_get chain providers with
  | None => (Ok (error1 ("Unsupported chain: " +:+ chain)), sent)
  | Some url =>
    let caught (e : exn) (s : list rpc) :=
      (Ok (JDict [("error", JStr (str_exn e)); ("chain", JStr chain)]), s) in
    let s1 := sent ++ [web3_clientVersion url] in
    match node_connected (node_at w url) with
    | Raise e => caught e s1
    | Ok false => (Ok (error1 ("Failed to connect to " +:+ chain)), s1)
    | Ok true =>
      if is_address lib a then
        match to_checksum_address lib a with
        | Raise e => caught e s1
        | Ok ca =>
          let s2 := sent ++ [web3_clientVersion url; eth_blockNumber url] in
          match node_block_number (node_at w url) with
          | Raise e => caught e s2
          | Ok head =>
            let from := match fb with
                        | Some n => if n =? 0 then head - 1000 else n
                        | None => head - 1000
                        end in
            if String.eqb ev "Transfer" || String.eqb ev "Staked" then
              match node_new_filter (node_at w url) ca ev from with
              | Raise e => caught e (s2 ++ [eth_newFilter url ca ev from])
              | Ok id =>
                let s4 := s2 ++ [eth_newFilter url ca ev from; eth_getFilterLogs url id] in
                match node_filter_logs (node_at w url) id with
                | Raise e => caught e s4
                | Ok events =>
                    (Ok (JDict [ ("chain", JStr chain);
                                 ("contract", JStr ca);
                                 ("event_name", JStr ev);
                                 ("from_block", JInt from);
                                 ("to_block", JInt head);
                                 ("events_count", JInt (Z.of_nat (length events)));
                                 ("events",
                                  JList (imap (event_record w) (slice_last 50 events))) ]),
                     s4)
                end
              end
            else (Ok (error1 ("Unknown event: " +:+ ev)), s2)
          end
        end
      else (Ok (error1 ("Invalid contract address: " +:+ a)), s1)
    end
  end.
Proof.
  unfold monitor_events. rewrite try_except_ret. unfold monitor_events_body.
  destruct (assoc_get chain providers) as [url|]; [|reflexivity].
  unfold bind, is_connected, block_number, create_filter, get_all_entries,
    call, lift, ret.
  destruct (node_connected (node_at w url)) as [e|[|]]; cbv beta iota zeta delta [negb];
    [reflexivity | | reflexivity].
  destruct (is_address lib a); cbv beta iota delta [negb]; [|reflexivity].
  destruct (to_checksum_address lib a) as [e|ca]; [reflexivity|].
  destruct (node_block_number (node_at w url)) as [e|head];
    [rewrite <- app_assoc; reflexivity|].
  rewrite <- !app_assoc. simpl app.
  destruct (String.eqb ev "Transfer") eqn:E1.
  - apply String.eqb_eq in E1. subst ev. simpl orb. cbv iota.
    destruct (node_new_filter _ _ _ _) as [e|id];
      [rewrite <- ?app_assoc; reflexivity|].
    destruct (node_filter_logs _ _); rewrite <- ?app_assoc; reflexivity.
  - destruct (String.eqb ev "Staked") eqn:E2; [|reflexivity].
    apply String.eqb_eq in E2. subst ev. simpl orb. cbv iota.
    destruct (node_new_filter _ _ _ _) as [e|id];
      [rewrite <- ?app_assoc; reflexivity|].
    destruct (node_filter_logs _ _); rewrite <- ?app_assoc; reflexivity.
Qed.

Ltac failed := left; eexists; reflexivity.

(** Every invocation of the monitor that does not go through answers an
    object with an [error] string. *)
Lemma monitor_invoke_outcome (i : invocation) (sent : list rpc) :
  exists v sent',
    invoke lib w i sent = (Ok v, sent')
    /\ is_dict v = true
    /\ (reports_error v \/ monitor_succeeds lib w i).
Proof.
  destruct i as [a c ev fb | a c | a c n]; simpl invoke.
  - rewrite monitor_events_steps.
    destruct (assoc_get c providers) as [url|] eqn:Hp;
      [|eexists _, _; split; [reflexivity|]; split; [reflexivity | failed]].
    cbv zeta.
    destruct (node_connected (node_at w url)) as [e|[|]] eqn:Hc;
      [eexists _, _; split; [reflexivity|]; split; [reflexivity | failed]
      | | eexists _, _; split; [reflexivity|]; split; [reflexivity | failed]].
    destruct (is_address lib a) eqn:Hi;
      [|eexists _, _; split; [reflexivity|]; split; [reflexivity | failed]].
    destruct (to_checksum_address lib a) as [e|ca] eqn:Ha;
      [eexists _, _; split; [reflexivity|]; split; [reflexivity | failed]|].
    destruct (node_block_number (node_at w url)) as [e|head] eqn:Hh;
      [eexists _, _; split; [reflexivity|]; split; [reflexivity | failed]|].
    destruct (String.eqb ev "Transfer" || String.eqb ev "Staked") eqn:Hev;
      [|eexists _, _; split; [reflexivity|]; split; [reflexivity | failed]].
    destruct (node_new_filter (node_at w url) ca ev _) as [e|id] eqn:Hf;
      [eexists _, _; split; [reflexivity|]; split; [reflexivity | failed]|].
    destruct (node_filter_logs (node_at w url) id) as [e|entries] eqn:Hl;
      [eexists _, _; split; [reflexivity|]; split; [reflexivity | failed]|].
    eexists _, _. split; [reflexivity|]. split; [reflexivity|].
    right. exists url, ca, head, id, entries. conjs; try assumption.
    apply orb_true_iff in Hev. rewrite !String.eqb_eq in Hev. exact Hev.
  - unfold check_vulnerabilities. rewrite try_except_ret.
    unfold check_vulnerabilities_body.
    destruct (assoc_get c providers) as [url|] eqn:Hp;
      [|eexists _, _; split; [reflexivity|]; split; [reflexivity | failed]].
    unfold bind, is_connected, get_code, call, lift, ret.
    destruct (node_connected (node_at w url)) as [e|[|]] eqn:Hc;
      cbv beta iota delta [negb];
      [eexists _, _; split; [reflexivity|]; split; [reflexivity | failed]
      | | eexists _, _; split; [reflexivity|]; split; [reflexivity | failed]].
    destruct (to_checksum_address lib a) as [e|ca] eqn:Ha;
      [eexists _, _; split; [reflexivity|]; split; [reflexivity | failed]|].
    destruct (node_get_code (node_at w url) ca) as [e|code] eqn:Hg;
      [eexists _, _; split; [reflexivity|]; split; [reflexivity | failed]|].
    cbv zeta.
    destruct (String.eqb (hexbytes_hex code) "0x") eqn:E;
      [eexists _, _; split; [reflexivity|]; split; [reflexivity | failed]|].
    eexists _, _. split; [reflexivity|]. split; [reflexivity|].
    right. exists url, ca, code. conjs; try assumption.
    intros ->. discriminate E.
  - rewrite track_transactions_run.
    destruct (assoc_get c providers) as [url|] eqn:Hp;
      [|eexists _, _; split; [reflexivity|]; split; [reflexivity | failed]].
    destruct (node_connected (node_at w url)) as [e|[|]] eqn:Hc;
      [eexists _, _; split; [reflexivity|]; split; [reflexivity | failed]
      | | eexists _, _; split; [reflexivity|]; split; [reflexivity | failed]].
    destruct (to_checksum_address lib a) as [e|ca] eqn:Ha;
      [eexists _, _; split; [reflexivity|]; split; [reflexivity | failed]|].
    cbv zeta.
    destruct (node_get_transaction_count (node_at w url) ca) as [e|nonce] eqn:Hn;
      [eexists _, _; split; [reflexivity|]; split; [reflexivity | failed]|].
    destruct (node_get_balance (node_at w url) ca) as [e|bw] eqn:Hb;
      [eexists _, _; split; [reflexivity|]; split; [reflexivity | failed]|].
    destruct (from_wei lib bw "ether") as [e|be] eqn:Hw;
      [eexists _, _; split; [reflexivity|]; split; [reflexivity | failed]|].
    destruct (node_block_number (node_at w url)) as [e|head] eqn:Hh;
      [eexists _, _; split; [reflexivity|]; split; [reflexivity | failed]|].
    pose proof (scan_blocks_result lib w url ca n
                  (range_down head (Z.max (head - 100) 0)) []
                  (((sent ++ [web3_clientVersion url; eth_getTransactionCount url ca])
                    ++ [eth_getBalance url ca]) ++ [eth_blockNumber url]) []) as Hr.
    destruct (scan_blocks lib w url ca n (range_down head (Z.max (head - 100) 0)) [] (_ ++ _))
      as [[e|found] sent'];
      [eexists _, _; split; [reflexivity|]; split; [reflexivity | failed]|].
    eexists _, _. split; [reflexivity|]. split; [reflexivity|].
    right. exists url, ca, head, found. split; [|symmetry; exact Hr].
    unfold scan_reached. conjs; try assumption; [exists nonce | exists bw, be]; auto.
Qed.

End MonitorTotality.

(** C2, at the failing input: for a contract of exactly 24576 bytes (49152
    hexadecimal digits after the [0x] prefix) the scan computes a size of
    24577 and reports the LOW-severity SIZE_LIMIT warning. *)
Theorem size_warning_at_24576_bytes :
  Z.of_nat (length Sample.code_24576) = 24576
  /\ exists v,
       fst (check_vulnerabilities Sample.lib (Sample.world 3 Sample.code_24576)
              Sample.alice "polygon-zkevm" []) = Ok v
       /\ field "bytecode_size" v = Some (JInt 24577)
       /\ has_finding "LOW" "SIZE_LIMIT" (findings v).
Proof.
  split; [vm_compute; reflexivity|].
  eexists. split; [vm_compute; reflexivity|].
  split; [reflexivity|].
  exists (size_finding 24577). split; [|split; reflexivity].
  vm_compute. left. reflexivity.
Qed.

Lemma opcode_findings_witness :
  exists v,
    fst (check_vulnerabilities Sample.lib (Sample.world 3 [xff; xf4]%byte)
           Sample.alice "scroll" []) = Ok v
    /\ (has_finding "HIGH" "SELFDESTRUCT" (findings v)
        <-> substring "ff" (hexbytes_hex [xff; xf4]%byte))
    /\ (has_finding "MEDIUM" "DELEGATECALL" (findings v)
        <-> substring "f4" (hexbytes_hex [xff; xf4]%byte)).
Proof.
  apply (opcode_findings_iff_substring Sample.lib (Sample.world 3 [xff; xf4]%byte)
           Sample.alice "scroll" "https://rpc.scroll.io" Sample.alice
           [xff; xf4]%byte []); try reflexivity.
  vm_compute. discriminate.
Defined.

Lemma no_contract_error_witness :
  fst (check_vulnerabilities Sample.lib (Sample.world 3 []) Sample.alice "zksync" [])
  = Ok (JDict [("error", JStr "No contract found at this address")])
  /\ forall v,
       fst (check_vulnerabilities Sample.lib (Sample.world 3 []) Sample.alice
              "zksync" []) = Ok v ->
       field "error" v = Some (JStr "No contract found at this address")
       /\ field "vulnerabilities" v = None.
Proof.
  apply (no_contract_error Sample.lib (Sample.world 3 []) Sample.alice "zksync"
           "https://mainnet.era.zksync.io" Sample.alice [] []); reflexivity.
Defined.

(** The theorem of C1 at ["0xNotAnAddress"], which both address functions
    of the stand-in refuse, and at an address spelt with one capital, which
    the stricter stand-in rejects as an address and still normalises. *)
Lemma invalid_address_witness :
  (exists v sent',
     monitor_events Sample.lib (Sample.world 3 []) "0xNotAnAddress" "polygon-zkevm"
       "Transfer" None [] = (Ok v, sent')
     /\ reports_error v
     /\ field "events" v = None
     /\ sent' = [] ++ [web3_clientVersion "https://zkevm-rpc.com"]
     /\ v = JDict [("error", JStr ("Invalid contract address: " +:+ "0xNotAnAddress"))])
  /\ (exists v sent',
        track_transactions Sample.lib (Sample.world 3 []) "0xNotAnAddress"
          "polygon-zkevm" 10 [] = (Ok v, sent')
        /\ reports_error v
        /\ field "recent_transactions" v = None
        /\ sent' = [] ++ [web3_clientVersion "https://zkevm-rpc.com"]
        /\ v = JDict [("error",
                       JStr (str_exn (Exception "invalid address: 0xNotAnAddress")))])
  /\ (exists rest,
        snd (track_transactions Sample.capitals_lib (Sample.world 3 [])
               Sample.mixed_alice "polygon-zkevm" 10 [])
        = [] ++ [web3_clientVersion "https://zkevm-rpc.com";
                 eth_getTransactionCount "https://zkevm-rpc.com" Sample.alice] ++ rest).
Proof.
  destruct (invalid_address_rejected_after_probe Sample.lib (Sample.world 3 [])
              "0xNotAnAddress" "polygon-zkevm" "Transfer" None 10 []) as [H1 [H2 _]].
  destruct (invalid_address_rejected_after_probe Sample.capitals_lib (Sample.world 3 [])
              Sample.mixed_alice "polygon-zkevm" "Transfer" None 10 []) as [_ [_ H3]].
  split; [exact (H1 eq_refl)|].
  split; [exact (H2 (Exception "invalid address: 0xNotAnAddress") eq_refl)|].
  exact (H3 Sample.alice "https://zkevm-rpc.com" eq_refl eq_refl eq_refl).
Defined.

(** The claim C1 as written fails in three ways.  The rejection of
    ["0xNotAnAddress"] comes after a request has gone out, from both
    methods.  When the probe finds the provider not connected, the error
    returned is about the connection, not about the address.  And
    [track_transactions] does not validate the address: an address that
    [is_address] rejects and [to_checksum_address] normalises is tracked,
    its nonce, balance and blocks requested, and a list of transactions
    returned. *)
Lemma invalid_address_probe_sent :
  (is_address Sample.lib "0xNotAnAddress" = false
   /\ monitor_events Sample.lib (Sample.world 3 []) "0xNotAnAddress"
        "polygon-zkevm" "Transfer" None []
      = (Ok (JDict [("error", JStr "Invalid contract address: 0xNotAnAddress")]),
         [web3_clientVersion "https://zkevm-rpc.com"])
   /\ snd (track_transactions Sample.lib (Sample.world 3 []) "0xNotAnAddress"
             "polygon-zkevm" 10 [])
      = [web3_clientVersion "https://zkevm-rpc.com"])
  /\ fst (monitor_events Sample.lib (Sample.probed (Ok false)) "0xNotAnAddress"
            "polygon-zkevm" "Transfer" None [])
     = Ok (JDict [("error", JStr "Failed to connect to polygon-zkevm")])
  /\ (is_address Sample.capitals_lib Sample.mixed_alice = false
      /\ exists v sent' txs,
           track_transactions Sample.capitals_lib (Sample.world 3 [])
             Sample.mixed_alice "polygon-zkevm" 10 [] = (Ok v, sent')
           /\ field "error" v = None
           /\ field "recent_transactions" v = Some (JList txs)
           /\ length txs = 3%nat
           /\ sent' = [ web3_clientVersion "https://zkevm-rpc.com";
                        eth_getTransactionCount "https://zkevm-rpc.com" Sample.alice;
                        eth_getBalance "https://zkevm-rpc.com" Sample.alice;
                        eth_blockNumber "https://zkevm-rpc.com";
                        eth_getBlockByNumber "https://zkevm-rpc.com" 3;
                        eth_getBlockByNumber "https://zkevm-rpc.com" 2;
                        eth_getBlockByNumber "https://zkevm-rpc.com" 1 ]).
Proof.
  split; [conjs; vm_compute; reflexivity|].
  split; [vm_compute; reflexivity|].
  split; [vm_compute; reflexivity|].
  eexists _, _, _. split; [vm_compute; reflexivity|].
  conjs; reflexivity.
Qed.

End MonitorProps.

(* ===================================================================== *)
(** ** Properties of the aggregator                                       *)
(* ===================================================================== *)

Module AggregatorProps.
Import Aggregator.
Local Open Scope list_scope.

Section Runs.

Variable w : world.

Lemma cache_lookup_run (key : string) (ttl : Z) (s : state) :
  cache_lookup w key ttl s = (Ok (fresh w key ttl s), looked_up key s).
Proof.
  unfold cache_lookup, fresh, looked_up, bind, get_state, now, ret.
  destruct (cache s !! key) as [[t0 d]|]; [|reflexivity].
  destruct (timedelta_seconds (clock w (reads s) - t0) <? ttl); reflexivity.
Qed.

(** The [try] block of [fetch_tvl], step by step. *)
Lemma fetch_tvl_body_run (protocol : string) (s : state) :
  fetch_tvl_body w protocol s =
  let key := "tvl_" +:+ protocol in
  let s1 := looked_up key s in
  let req := GET (tvl_url protocol) [] in
  let s2 := log_call req s1 in
  match fresh w key 3600 s with
  | Some data => (Ok data, s1)
  | None =>
      match http w (length (calls s1)) req with
      | Raise e => (Raise e, s2)
      | Ok response =>
          if status response =? 200 then
            match body_json response with
            | Raise e => (Raise e, s2)
            | Ok data => (Ok data, store key (clock w (reads s2), data) (tick s2))
            end
          else (Ok (JDict [ ("error", JStr ("HTTP " +:+ str_int (status response)));
                            ("protocol", JStr protocol) ]), s2)
      end
  end.
Proof.
  unfold fetch_tvl_body. unfold bind at 1. rewrite cache_lookup_run.
  cbv zeta. destruct (fresh w ("tvl_" +:+ protocol) 3600 s); [reflexivity|].
  unfold bind, request, lift, now, cache_store, ret.
  destruct (http w _ _) as [e|response]; [reflexivity|].
  destruct (status response =? 200); [|reflexivity].
  destruct (body_json response); reflexivity.
Qed.

(** The [try] block of [get_token_price], step by step. *)
Lemma get_token_price_body_run (token_id : string) (s : state) :
  get_token_price_body w token_id s =
  let key := "price_" +:+ token_id in
  let s1 := looked_up key s in
  let req := GET (COINGECKO_BASE_URL +:+ "/simple/price") (price_params token_id) in
  let s2 := log_call req s1 in
  match fresh w key 300 s with
  | Some data => (Ok data, s1)
  | None =>
      match http w (length (calls s1)) req with
      | Raise e => (Raise e, s2)
      | Ok response =>
          if status response =? 200 then
            match body_json response with
            | Raise e => (Raise e, s2)
            | Ok data =>
                match token_field data token_id "usd" with
                | Raise e => (Raise e, s2)
                | Ok price_usd =>
                    match token_field data token_id "usd_24h_change" with
                    | Raise e => (Raise e, s2)
                    | Ok change_24h =>
                        match token_field data token_id "usd_market_cap" with
                        | Raise e => (Raise e, s2)
                        | Ok market_cap =>
                            let result :=
                              JDict [ ("token", JStr token_id);
                                      ("price_usd", price_usd);
                                      ("change_24h", change_24h);
                                      ("market_cap", market_cap);
                                      ("timestamp",
                                       JStr (isoformat w (clock w (reads s2)))) ] in
                            (Ok result,
                             store key (clock w (S (reads s2)), result) (tick (tick s2)))
                        end
                    end
                end
            end
          else (Ok (JDict [("error",
                            JStr ("CoinGecko API error: " +:+ str_int (status response)))]),
                s2)
      end
  end.
Proof.
  unfold get_token_price_body. unfold bind at 1. rewrite cache_lookup_run.
  cbv zeta. destruct (fresh w ("price_" +:+ token_id) 300 s); [reflexivity|].
  unfold bind, request, lift, now, cache_store, ret.
  destruct (http w _ _) as [e|response]; [reflexivity|].
  destruct (status response =? 200); [|reflexivity].
  destruct (body_json response) as [e|data]; [reflexivity|].
  destruct (token_field data token_id "usd"); [reflexivity|].
  destruct (token_field data token_id "usd_24h_change"); [reflexivity|].
  destruct (token_field data token_id "usd_market_cap"); reflexivity.
Qed.

(** The [try] block of [query_blockchain], step by step. *)
Lemma query_blockchain_body_run (chain method : string) (s : state) :
  query_blockchain_body w chain method s =
  let req := POST (rpc_url_of chain) (rpc_payload method) in
  (match http w (length (calls s)) req with
   | Raise e => Raise e
   | Ok response =>
       if status response =? 200 then
         match body_json response with
         | Raise e => Raise e
         | Ok data =>
             match py_get data "result" JNull with
             | Raise e => Raise e
             | Ok result =>
                 if String.eqb method "eth_blockNumber" then
                   match py_get data "result" (JStr "0x0") with
                   | Raise e => Raise e
                   | Ok r =>
                       match int16 r with
                       | Raise e => Raise e
                       | Ok block =>
                           Ok (JDict [ ("chain", JStr chain); ("method", JStr method);
                                       ("result", result);
                                       ("block_number", JInt block) ])
                       end
                   end
                 else Ok (JDict [ ("chain", JStr chain); ("method", JStr method);
                                  ("result", result); ("block_number", JNull) ])
             end
         end
       else Ok (JDict [("error",
                        JStr ("RPC call failed: " +:+ str_int (status response)))])
   end, log_call req s).
Proof.
  unfold query_blockchain_body. cbv zeta.
  unfold bind, request, lift, ret.
  destruct (http w _ _) as [e|response]; [reflexivity|].
  destruct (status response =? 200); [|reflexivity].
  destruct (body_json response) as [e|data]; [reflexivity|].
  destruct (py_get data "result" JNull); [reflexivity|].
  destruct (String.eqb method "eth_blockNumber"); [|reflexivity].
  destruct (py_get data "result" (JStr "0x0")) as [e|r]; [reflexivity|].
  destruct (int16 r); reflexivity.
Qed.

(** [get_protocol_data] sends its request whatever happens next, and what
    it returns from the [try] block is an object. *)
Lemma get_protocol_data_body_run (protocol_name : string) (s : state) :
  let req := GET (DEFILLAMA_BASE_URL +:+ "/protocol/" +:+ protocol_name) [] in
  snd (get_protocol_data_body w protocol_name s) = log_call req s
  /\ (forall v, fst (get_protocol_data_body w protocol_name s) = Ok v ->
                is_dict v = true)
  /\ (forall response,
        http w (length (calls s)) req = Ok response ->
        status response <> 200 ->
        fst (get_protocol_data_body w protocol_name s)
        = Ok (JDict [("error", JStr ("Protocol " +:+ protocol_name +:+ " not found"))])).
Proof.
  cbv zeta. unfold get_protocol_data_body. cbv zeta.
  unfold bind, request, lift, ret.
  destruct (http w _ _) as [e|response].
  { conjs; [reflexivity | discriminate | discriminate]. }
  destruct (status response =? 200) eqn:E.
  2:{ conjs; [reflexivity | intros v [= <-]; reflexivity | intros r [= <-] _; reflexivity]. }
  apply Z.eqb_eq in E.
  destruct (body_json response) as [e|data].
  { conjs; [reflexivity | discriminate | intros r [= <-] H; contradiction]. }
  repeat match goal with
         | |- context [py_get data ?k ?d] =>
             destruct (py_get data k d);
             [conjs; [reflexivity | discriminate | intros r [= <-] H; contradiction]|]
         end.
  conjs; [reflexivity | intros v [= <-]; reflexivity | intros r [= <-] H; contradiction].
Qed.

Lemma rpc_url_of_unknown (chain : string) :
  chain <> "polygon-zkevm" -> chain <> "scroll" -> chain <> "zksync" ->
  rpc_url_of chain = "https://zkevm-rpc.com".
Proof.
  intros H1 H2 H3. unfold rpc_url_of, rpc_urls, assoc_get.
  apply String.eqb_neq in H1, H2, H3. rewrite H1, H2, H3. reflexivity.
Qed.

(** C8. On a status-200 answer whose body is an object, [query_blockchain]
    with method ["eth_blockNumber"] turns the [result] string ["0x" + hex
    digits] into the number the digits denote, in the field
    [block_number]; with any other method the field [block_number] is
    null. *)
Theorem block_number_field (chain method : string) (s : state)
    (response : http_response) (data : json) :
  http w (length (calls s)) (POST (rpc_url_of chain) (rpc_payload method)) = Ok response ->
  status response = 200 ->
  body_json response = Ok data ->
  is_dict data = true ->
  (method = "eth_blockNumber" ->
   forall digits,
     all_hex digits = true -> digits <> EmptyString ->
     field "result" data = Some (JStr ("0x" +:+ digits)) ->
     exists v, fst (query_blockchain w chain method s) = Ok v
               /\ field "block_number" v = Some (JInt (hex_value digits)))
  /\ (method <> "eth_blockNumber" ->
      exists v, fst (query_blockchain w chain method s) = Ok v
                /\ field "block_number" v = Some JNull).
Proof.
  intros Hh Hs Hb Hd.
  unfold query_blockchain. rewrite try_except_ret, query_blockchain_body_run.
  cbv zeta. rewrite Hh, Hs, Hb. simpl (200 =? 200). cbv iota.
  destruct data as [| | | | | |kv]; try discriminate Hd.
  unfold py_get. split.
  - intros -> digits Hall Hne Hr. simpl in Hr. rewrite Hr.
    simpl String.eqb. cbv iota. unfold int16.
    rewrite (parse_int16_0x digits Hall Hne).
    eexists. split; reflexivity.
  - intros Hm. apply String.eqb_neq in Hm. rewrite Hm.
    eexists. split; reflexivity.
Qed.

(** With a method other than ["eth_blockNumber"] the result never carries
    a number: its [block_number] is null, or it is an error object without
    that field. *)
Lemma other_method_block_number (chain method : string) (s : state) :
  method <> "eth_blockNumber" ->
  exists v, fst (query_blockchain w chain method s) = Ok v
            /\ (field "block_number" v = Some JNull
                \/ (field "block_number" v = None /\ reports_error v)).
Proof.
  intros Hm. apply String.eqb_neq in Hm.
  unfold query_blockchain. rewrite try_except_ret, query_blockchain_body_run.
  cbv zeta. rewrite Hm.
  destruct (http w _ _) as [e|response];
    [eexists; split; [reflexivity | right; split; [reflexivity | eexists; reflexivity]]|].
  destruct (status response =? 200);
    [|eexists; split; [reflexivity | right; split; [reflexivity | eexists; reflexivity]]].
  destruct (body_json response) as [e|data];
    [eexists; split; [reflexivity | right; split; [reflexivity | eexists; reflexivity]]|].
  destruct (py_get data "result" JNull);
    [eexists; split; [reflexivity | right; split; [reflexivity | eexists; reflexivity]]|].
  eexists. split; [reflexivity | left; reflexivity].
Qed.

(** C9. For a chain identifier that is none of the three registered ones
    [query_blockchain] has no validation to fail: it posts the JSON-RPC
    request to the polygon-zkevm endpoint, exactly as the call for
    ["polygon-zkevm"] does, and what it returns is made of that endpoint's
    answer.  On a status-200 answer whose body is an object, the result
    holds the identifier given in [chain], the method, the [result] of the
    body and the block number; whenever the status is 200, and whenever the
    request raises, the [chain] field of what is returned is the identifier
    given.  A status other than 200 gives the "RPC call failed" object. *)
Theorem unknown_chain_goes_to_zkevm (chain method : string) (s : state) :
  chain <> "polygon-zkevm" -> chain <> "scroll" -> chain <> "zksync" ->
  let req := POST "https://zkevm-rpc.com" (rpc_payload method) in
  exists v,
    query_blockchain w chain method s = (Ok v, log_call req s)
    /\ (exists v0,
          query_blockchain w "polygon-zkevm" method s = (Ok v0, log_call req s)
          /\ v = with_chain chain v0)
    /\ (forall e,
          http w (length (calls s)) req = Raise e ->
          v = JDict [("error", JStr (str_exn e)); ("chain", JStr chain)])
    /\ (forall resp,
          http w (length (calls s)) req = Ok resp ->
          (status resp <> 200 ->
           v = JDict [("error", JStr ("RPC call failed: " +:+ str_int (status resp)))])
          /\ (status resp = 200 ->
              field "chain" v = Some (JStr chain)
              /\ (forall e,
                    body_json resp = Raise e ->
                    v = JDict [("error", JStr (str_exn e)); ("chain", JStr chain)])
              /\ (forall data,
                    body_json resp = Ok data ->
                    is_dict data = false ->
                    v = JDict [ ("error",
                                 JStr ("'" +:+ type_name data
                                       +:+ "' object has no attribute 'get'"));
                                ("chain", JStr chain) ])
              /\ (forall body,
                    body_json resp = Ok (JDict body) ->
                    (method <> "eth_blockNumber" ->
                     v = JDict [ ("chain", JStr chain); ("method", JStr method);
                                 ("result", field_or JNull "result" body);
                                 ("block_number", JNull) ])
                    /\ (method = "eth_blockNumber" ->
                        v = match int16 (field_or (JStr "0x0") "result" body) with
                            | Ok block =>
                                JDict [ ("chain", JStr chain); ("method", JStr method);
                                        ("result", field_or JNull "result" body);
                                        ("block_number", JInt block) ]
                            | Raise e =>
                                JDict [("error", JStr (str_exn e)); ("chain", JStr chain)]
                            end)))).
Proof.
  intros H1 H2 H3. cbv zeta.
  unfold query_blockchain. rewrite !try_except_ret, !query_blockchain_body_run.
  cbv zeta. rewrite (rpc_url_of_unknown chain H1 H2 H3).
  change (rpc_url_of "polygon-zkevm") with "https://zkevm-rpc.com".
  destruct (http w _ _) as [e|response].
  { eexists. split; [reflexivity|]. split; [eexists; split; reflexivity|].
    split; [intros e' [= <-]; reflexivity | intros resp H; discriminate H]. }
  destruct (status response =? 200) eqn:Hs.
  2:{ apply Z.eqb_neq in Hs.
      eexists. split; [reflexivity|]. split; [eexists; split; reflexivity|].
      split; [intros e H; discriminate H|].
      intros resp [= <-]. split; [reflexivity | intros H; contradiction]. }
  apply Z.eqb_eq in Hs.
  destruct (body_json response) as [e|data] eqn:Hb.
  { eexists. split; [reflexivity|]. split; [eexists; split; reflexivity|].
    split; [intros e' H; discriminate H|].
    intros resp [= <-]. rewrite Hb. split; [intros H; contradiction|].
    intros _. split; [reflexivity|].
    split; [intros e' [= <-]; reflexivity|].
    split; [intros data H; discriminate H | intros body H; discriminate H]. }
  destruct data as [| b | z | f | str | l | body];
    try (eexists; split; [reflexivity|]; split; [eexists; split; reflexivity|];
         split; [intros e' H; discriminate H|];
         intros resp [= <-]; rewrite Hb; split; [intros H; contradiction|];
         intros _; split; [reflexivity|];
         split; [intros e' H; discriminate H|];
         split; [intros data [= <-] _; reflexivity | intros body H; discriminate H]).
  unfold py_get. fold (field_or JNull "result" body).
  fold (field_or (JStr "0x0") "result" body).
  destruct (String.eqb method "eth_blockNumber") eqn:Hm.
  - apply String.eqb_eq in Hm.
    destruct (int16 (field_or (JStr "0x0") "result" body)) as [e|block] eqn:Hi;
      (eexists; split; [reflexivity|]; split; [eexists; split; reflexivity|];
       split; [intros e' H; discriminate H|];
       intros resp [= <-]; rewrite Hb; split; [intros H; contradiction|];
       intros _; split; [reflexivity|]; split; [intros e' H; discriminate H|];
       split; [intros data [= <-] Hd; discriminate Hd|];
       intros body' [= <-]; rewrite Hi;
       split; [intros H; contradiction | reflexivity]).
  - apply String.eqb_neq in Hm.
    eexists. split; [reflexivity|]. split; [eexists; split; reflexivity|].
    split; [intros e' H; discriminate H|].
    intros resp [= <-]. rewrite Hb. split; [intros H; contradiction|].
    intros _. split; [reflexivity|]. split; [intros e' H; discriminate H|].
    split; [intros data [= <-] Hd; discriminate Hd|].
    intros body' [= <-]. split; [reflexivity | intros H; contradiction].
Qed.

(** *** The cache *)

Lemma looked_up_cache (key : string) (s : state) : cache (looked_up key s) = cache s.
Proof. unfold looked_up. destruct (cache s !! key); reflexivity. Qed.

Lemma looked_up_calls (key : string) (s : state) : calls (looked_up key s) = calls s.
Proof. unfold looked_up. destruct (cache s !! key); reflexivity. Qed.

Lemma looked_up_reads (key : string) (s : state) :
  (reads s <= reads (looked_up key s))%nat.
Proof. unfold looked_up. destruct (cache s !! key); simpl; lia. Qed.

Lemma fresh_cached (key : string) (ttl : Z) (s : state) (d : json) :
  fresh w key ttl s = Some d -> exists t, cache s !! key = Some (t, d).
Proof.
  unfold fresh. destruct (cache s !! key) as [[t0 d0]|]; [|discriminate].
  destruct (_ <? ttl); [|discriminate]. intros [= <-]. exists t0. reflexivity.
Qed.

(** Inside the window the seconds field of the age is the age. *)
Lemma within_window (age ttl : Z) :
  0 < ttl <= 86400 -> 0 <= age < ttl * 1000000 -> timedelta_seconds age < ttl.
Proof.
  intros Ht Ha. unfold timedelta_seconds.
  assert (0 <= age / 1000000 < ttl).
  { split; [apply Z.div_pos; lia | apply Z.div_lt_upper_bound; lia]. }
  rewrite Z.mod_small by lia. lia.
Qed.

(** A whole number of days on top of the age goes unnoticed. *)
Lemma days_unnoticed (age days : Z) :
  timedelta_seconds (age + days * (86400 * 1000000)) = timedelta_seconds age.
Proof.
  unfold timedelta_seconds.
  replace (age + days * (86400 * 1000000)) with (age + (days * 86400) * 1000000) by lia.
  rewrite Z.div_add by lia. rewrite Z.mod_add by lia. reflexivity.
Qed.

(** A present entry whose age, in [timedelta.seconds], is under the limit
    is returned without any request. *)
Lemma fetch_tvl_served (protocol : string) (s : state) (t0 : Z) (d : json) :
  cache s !! ("tvl_" +:+ protocol) = Some (t0, d) ->
  timedelta_seconds (clock w (reads s) - t0) < 3600 ->
  fetch_tvl w protocol s = (Ok d, tick s).
Proof.
  intros Hc Ht. unfold fetch_tvl. rewrite try_except_ret, fetch_tvl_body_run.
  cbv zeta. unfold fresh, looked_up. rewrite Hc.
  apply Z.ltb_lt in Ht. rewrite Ht. reflexivity.
Qed.

Lemma get_token_price_served (token_id : string) (s : state) (t0 : Z) (d : json) :
  cache s !! ("price_" +:+ token_id) = Some (t0, d) ->
  timedelta_seconds (clock w (reads s) - t0) < 300 ->
  get_token_price w token_id s = (Ok d, tick s).
Proof.
  intros Hc Ht. unfold get_token_price.
  rewrite try_except_ret, get_token_price_body_run.
  cbv zeta. unfold fresh, looked_up. rewrite Hc.
  apply Z.ltb_lt in Ht. rewrite Ht. reflexivity.
Qed.

(** Without a fresh entry the request goes out. *)
Lemma fetch_tvl_requested (protocol : string) (s : state) :
  fresh w ("tvl_" +:+ protocol) 3600 s = None ->
  calls (snd (fetch_tvl w protocol s)) = calls s ++ [GET (tvl_url protocol) []].
Proof.
  intros Hf. unfold fetch_tvl. rewrite try_except_state, fetch_tvl_body_run.
  cbv zeta. rewrite Hf.
  destruct (http w _ _) as [e|response]; simpl; [now rewrite looked_up_calls|].
  destruct (status response =? 200); simpl; [|now rewrite looked_up_calls].
  destruct (body_json response); simpl; now rewrite looked_up_calls.
Qed.

(** A successful fetch leaves the body under the key, stamped with the
    clock reading taken after the answer. *)
Lemma fetch_tvl_stored (protocol : string) (s : state) (response : http_response)
    (d : json) :
  fresh w ("tvl_" +:+ protocol) 3600 s = None ->
  http w (length (calls s)) (GET (tvl_url protocol) []) = Ok response ->
  status response = 200 ->
  body_json response = Ok d ->
  let s1 := looked_up ("tvl_" +:+ protocol) s in
  fetch_tvl w protocol s
  = (Ok d, store ("tvl_" +:+ protocol) (clock w (reads s1), d)
             (tick (log_call (GET (tvl_url protocol) []) s1))).
Proof.
  intros Hf Hh Hs Hb. unfold fetch_tvl. rewrite try_except_ret, fetch_tvl_body_run.
  cbv zeta. rewrite Hf, looked_up_calls, Hh, Hs, Hb. reflexivity.
Qed.

(** The two calls of the scenario of C3, for any world: after a successful
    fetch, the next call for the same protocol is served from the cache,
    without a request, exactly when the [timedelta.seconds] of the time
    since the entry was stamped is under 3600; in particular whenever less
    than an hour has passed. *)
Lemma tvl_second_call (protocol : string) (s : state) (response : http_response)
    (d : json) :
  fresh w ("tvl_" +:+ protocol) 3600 s = None ->
  http w (length (calls s)) (GET (tvl_url protocol) []) = Ok response ->
  status response = 200 ->
  body_json response = Ok d ->
  let s1 := snd (fetch_tvl w protocol s) in
  let stamped := clock w (reads (looked_up ("tvl_" +:+ protocol) s)) in
  let age := clock w (reads s1) - stamped in
  calls s1 = calls s ++ [GET (tvl_url protocol) []]
  /\ (timedelta_seconds age < 3600 ->
      fetch_tvl w protocol s1 = (Ok d, tick s1))
  /\ (0 <= age < 3600 * 1000000 ->
      calls (snd (fetch_tvl w protocol s1)) = calls s1)
  /\ (3600 <= timedelta_seconds age ->
      calls (snd (fetch_tvl w protocol s1))
      = calls s1 ++ [GET (tvl_url protocol) []]).
Proof.
  intros Hf Hh Hs Hb. cbv zeta.
  rewrite (fetch_tvl_stored protocol s response d Hf Hh Hs Hb). cbv zeta.
  set (s0 := looked_up ("tvl_" +:+ protocol) s).
  set (s1 := store _ _ _). simpl snd.
  assert (Hc : cache s1 !! ("tvl_" +:+ protocol) = Some (clock w (reads s0), d)).
  { unfold s1, store. simpl. apply lookup_insert_eq. }
  split; [unfold s1, s0; simpl; now rewrite looked_up_calls|].
  split; [intros Ht; exact (fetch_tvl_served protocol s1 _ d Hc Ht)|].
  split.
  - intros Ha.
    rewrite (fetch_tvl_served protocol s1 _ d Hc); [reflexivity|].
    apply within_window; [lia | exact Ha].
  - intros Ht. apply fetch_tvl_requested. unfold fresh. rewrite Hc.
    apply Z.ltb_ge in Ht. simpl snd. rewrite Ht. reflexivity.
Qed.

Lemma get_token_price_stored (token_id : string) (s : state)
    (response : http_response) (data price_usd change_24h market_cap : json) :
  fresh w ("price_" +:+ token_id) 300 s = None ->
  http w (length (calls s))
    (GET (COINGECKO_BASE_URL +:+ "/simple/price") (price_params token_id)) = Ok response ->
  status response = 200 ->
  body_json response = Ok data ->
  token_field data token_id "usd" = Ok price_usd ->
  token_field data token_id "usd_24h_change" = Ok change_24h ->
  token_field data token_id "usd_market_cap" = Ok market_cap ->
  let s1 := looked_up ("price_" +:+ token_id) s in
  let result := JDict [ ("token", JStr token_id); ("price_usd", price_usd);
                        ("change_24h", change_24h); ("market_cap", market_cap);
                        ("timestamp", JStr (isoformat w (clock w (reads s1)))) ] in
  get_token_price w token_id s
  = (Ok result,
     store ("price_" +:+ token_id) (clock w (S (reads s1)), result)
       (tick (tick (log_call (GET (COINGECKO_BASE_URL +:+ "/simple/price")
                                  (price_params token_id)) s1)))).
Proof.
  intros Hf Hh Hs Hb H1 H2 H3. unfold get_token_price.
  rewrite try_except_ret, get_token_price_body_run.
  cbv zeta. rewrite Hf, looked_up_calls, Hh, Hs, Hb, H1, H2, H3. reflexivity.
Qed.

(** The same for [get_token_price] and its five minutes. *)
Lemma price_second_call (token_id : string) (s : state) (response : http_response)
    (data price_usd change_24h market_cap : json) :
  fresh w ("price_" +:+ token_id) 300 s = None ->
  http w (length (calls s))
    (GET (COINGECKO_BASE_URL +:+ "/simple/price") (price_params token_id)) = Ok response ->
  status response = 200 ->
  body_json response = Ok data ->
  token_field data token_id "usd" = Ok price_usd ->
  token_field data token_id "usd_24h_change" = Ok change_24h ->
  token_field data token_id "usd_market_cap" = Ok market_cap ->
  let s1 := snd (get_token_price w token_id s) in
  let stamped := clock w (S (reads (looked_up ("price_" +:+ token_id) s))) in
  let age := clock w (reads s1) - stamped in
  calls s1
  = calls s ++ [GET (COINGECKO_BASE_URL +:+ "/simple/price") (price_params token_id)]
  /\ (0 <= age < 300 * 1000000 ->
      calls (snd (get_token_price w token_id s1)) = calls s1).
Proof.
  intros Hf Hh Hs Hb H1 H2 H3. cbv zeta.
  rewrite (get_token_price_stored token_id s response data _ _ _ Hf Hh Hs Hb H1 H2 H3).
  cbv zeta.
  set (s0 := looked_up ("price_" +:+ token_id) s).
  set (result := JDict _).
  set (s1 := store _ _ _). simpl snd.
  assert (Hc : cache s1 !! ("price_" +:+ token_id)
               = Some (clock w (S (reads s0)), result)).
  { unfold s1, store. simpl. apply lookup_insert_eq. }
  split; [unfold s1, s0; simpl; now rewrite looked_up_calls|].
  intros Ha.
  rewrite (get_token_price_served token_id s1 _ result Hc); [reflexivity|].
  apply within_window; [lia | exact Ha].
Qed.

End Runs.

Section CacheInvariant.

Variable w : world.

Lemma answered_200_mono (s s' : state) (body : json) :
  (exists l, calls s' = calls s ++ l) ->
  answered_200 w s body -> answered_200 w s' body.
Proof.
  intros [l Hl] [n [req [resp [Hn H]]]]. exists n, req, resp.
  split; [|exact H]. rewrite Hl. apply lookup_app_l_Some. exact Hn.
Qed.

Lemma cached_ok_mono (s s' : state) (key : string) (entry : Z * json) :
  (exists l, calls s' = calls s ++ l) ->
  (reads s <= reads s')%nat ->
  cached_ok w s key entry -> cached_ok w s' key entry.
Proof.
  intros Hl Hr [[j [Hj Ht]] [body [Hb Hd]]]. split.
  - exists j. split; [lia | exact Ht].
  - exists body. split; [exact (answered_200_mono s s' body Hl Hb) | exact Hd].
Qed.

(** One invocation: the log of requests and the count of clock readings
    only grow, and the cache either stays as it was or receives one entry,
    under the key of the invocation, made of a clock reading and of the
    result returned, after a request answered with status 200. *)
Lemma invoke_step (i : invocation) (s : state) :
  let s' := snd (invoke w i s) in
  (exists l, calls s' = calls s ++ l)
  /\ (reads s <= reads s')%nat
  /\ (cache s' = cache s
      \/ exists key t v req resp,
           cache_key_of i = Some key
           /\ fst (invoke_body w i s) = Ok v
           /\ fst (invoke w i s) = Ok v
           /\ calls s' = calls s ++ [req]
           /\ http w (length (calls s)) req = Ok resp
           /\ status resp = 200
           /\ cache s' = <[key := (t, v)]> (cache s)
           /\ cached_ok w s' key (t, v)).
Proof.
  cbv zeta. destruct i as [protocol | protocol_name | chain method | token_id];
    simpl invoke; simpl invoke_body; simpl cache_key_of.
  - (* fetch_tvl *)
    unfold fetch_tvl. rewrite try_except_state, try_except_result, fetch_tvl_body_run.
    cbv zeta.
    pose proof (looked_up_cache ("tvl_" +:+ protocol) s) as Hc.
    pose proof (looked_up_calls ("tvl_" +:+ protocol) s) as Hl.
    pose proof (looked_up_reads ("tvl_" +:+ protocol) s) as Hr.
    set (s1 := looked_up ("tvl_" +:+ protocol) s) in *.
    destruct (fresh w ("tvl_" +:+ protocol) 3600 s).
    { simpl. conjs; [exists []; now rewrite app_nil_r | lia | left; exact Hc]. }
    destruct (http w (length (calls s1)) _) as [e|resp] eqn:Hh.
    { simpl. conjs; [eexists; now rewrite Hl | lia | left; exact Hc]. }
    destruct (status resp =? 200) eqn:Hs.
    2:{ simpl. conjs; [eexists; now rewrite Hl | lia | left; exact Hc]. }
    apply Z.eqb_eq in Hs.
    destruct (body_json resp) as [e|d] eqn:Hb.
    { simpl. conjs; [eexists; now rewrite Hl | lia | left; exact Hc]. }
    simpl. conjs; [eexists; now rewrite Hl | lia |].
    right. exists ("tvl_" +:+ protocol), (clock w (reads s1)), d,
             (GET (tvl_url protocol) []), resp.
    rewrite Hl in Hh. rewrite Hl, Hc.
    conjs; try reflexivity; try assumption.
    split.
    + exists (reads s1). simpl. split; [lia | reflexivity].
    + exists d. split.
      * exists (length (calls s)), (GET (tvl_url protocol) []), resp.
        simpl. rewrite ?Hl. conjs; try assumption. apply list_lookup_middle. reflexivity.
      * left. exists protocol. split; reflexivity.
  - (* get_protocol_data *)
    unfold get_protocol_data. rewrite try_except_state.
    destruct (get_protocol_data_body_run w protocol_name s) as [Hst _].
    rewrite Hst. simpl. conjs; [eexists; reflexivity | lia | left; reflexivity].
  - (* query_blockchain *)
    unfold query_blockchain. rewrite try_except_state, query_blockchain_body_run.
    simpl. conjs; [eexists; reflexivity | lia | left; reflexivity].
  - (* get_token_price *)
    unfold get_token_price.
    rewrite try_except_state, try_except_result, get_token_price_body_run.
    cbv zeta.
    pose proof (looked_up_cache ("price_" +:+ token_id) s) as Hc.
    pose proof (looked_up_calls ("price_" +:+ token_id) s) as Hl.
    pose proof (looked_up_reads ("price_" +:+ token_id) s) as Hr.
    set (s1 := looked_up ("price_" +:+ token_id) s) in *.
    destruct (fresh w ("price_" +:+ token_id) 300 s).
    { simpl. conjs; [exists []; now rewrite app_nil_r | lia | left; exact Hc]. }
    destruct (http w (length (calls s1)) _) as [e|resp] eqn:Hh.
    { simpl. conjs; [eexists; now rewrite Hl | lia | left; exact Hc]. }
    destruct (status resp =? 200) eqn:Hs.
    2:{ simpl. conjs; [eexists; now rewrite Hl | lia | left; exact Hc]. }
    apply Z.eqb_eq in Hs.
    destruct (body_json resp) as [e|d] eqn:Hb.
    { simpl. conjs; [eexists; now rewrite Hl | lia | left; exact Hc]. }
    destruct (token_field d token_id "usd") as [e|pu] eqn:H1.
    { simpl. conjs; [eexists; now rewrite Hl | lia | left; exact Hc]. }
    destruct (token_field d token_id "usd_24h_change") as [e|ch] eqn:H2.
    { simpl. conjs; [eexists; now rewrite Hl | lia | left; exact Hc]. }
    destruct (token_field d token_id "usd_market_cap") as [e|mc] eqn:H3.
    { simpl. conjs; [eexists; now rewrite Hl | lia | left; exact Hc]. }
    simpl. conjs; [eexists; now rewrite Hl | lia |].
    right. eexists ("price_" +:+ token_id), (clock w (S (reads s1))), _,
             (GET (COINGECKO_BASE_URL +:+ "/simple/price") (price_params token_id)), resp.
    rewrite Hl in Hh. rewrite Hl, Hc.
    conjs; try reflexivity; try assumption.
    split.
    + exists (S (reads s1)). simpl. split; [lia | reflexivity].
    + exists d. split.
      * exists (length (calls s)),
          (GET (COINGECKO_BASE_URL +:+ "/simple/price") (price_params token_id)), resp.
        simpl. rewrite ?Hl. conjs; try assumption. apply list_lookup_middle. reflexivity.
      * right. exists token_id. split; [reflexivity|].
        exists pu, ch, mc. eexists. conjs; try assumption. reflexivity.
Qed.

Lemma invoke_preserves (i : invocation) (s : state) :
  cache_ok w s -> cache_ok w (snd (invoke w i s)).
Proof.
  intros Hok. destruct (invoke_step i s) as [Hl [Hr Hc]].
  intros key entry Hk. destruct Hc as [Hc | [key' [t [v [req [resp Hc]]]]]].
  - rewrite Hc in Hk. exact (cached_ok_mono s _ key entry Hl Hr (Hok key entry Hk)).
  - destruct Hc as [_ [_ [_ [_ [_ [_ [Hc Hnew]]]]]]]. rewrite Hc in Hk.
    destruct (decide (key' = key)) as [->|Hne].
    + rewrite lookup_insert_eq in Hk. injection Hk as <-. exact Hnew.
    + rewrite lookup_insert_ne in Hk by exact Hne.
      exact (cached_ok_mono s _ key entry Hl Hr (Hok key entry Hk)).
Qed.

Lemma run_all_preserves (invs : list invocation) (s : state) :
  cache_ok w s -> cache_ok w (run_all w invs s).
Proof.
  revert s. induction invs as [|i invs IH]; intros s Hok; simpl; [exact Hok|].
  apply IH, invoke_preserves, Hok.
Qed.

Lemma reachable_cache_ok (invs : list invocation) : cache_ok w (run_all w invs init).
Proof.
  apply run_all_preserves. intros key entry H. simpl in H.
  rewrite lookup_empty in H. discriminate H.
Qed.

(** A result that carries an [error] string comes with an untouched
    cache, unless it is the status-200 body that [fetch_tvl] has just
    received, stored and passed on. *)
Lemma error_result_step (i : invocation) (s : state) (v : json) :
  fst (invoke w i s) = Ok v ->
  reports_error v ->
  cache (snd (invoke w i s)) = cache s
  \/ exists protocol resp t,
       i = Fetch_tvl protocol
       /\ http w (length (calls s)) (GET (tvl_url protocol) []) = Ok resp
       /\ status resp = 200
       /\ body_json resp = Ok v
       /\ cache (snd (invoke w i s)) = <["tvl_" +:+ protocol := (t, v)]> (cache s).
Proof.
  intros Hv Herr.
  destruct i as [protocol | protocol_name | chain method | token_id].
  - simpl invoke in *. revert Hv. unfold fetch_tvl.
    rewrite try_except_state, try_except_result, fetch_tvl_body_run. cbv zeta.
    pose proof (looked_up_cache ("tvl_" +:+ protocol) s) as Hc.
    pose proof (looked_up_calls ("tvl_" +:+ protocol) s) as Hl.
    set (s1 := looked_up ("tvl_" +:+ protocol) s) in *.
    destruct (fresh w ("tvl_" +:+ protocol) 3600 s); [intros _; left; exact Hc|].
    rewrite Hl.
    destruct (http w (length (calls s)) _) as [e|resp] eqn:Hh;
      [intros _; left; exact Hc|].
    destruct (status resp =? 200) eqn:Hs; [|intros _; left; exact Hc].
    apply Z.eqb_eq in Hs.
    destruct (body_json resp) as [e|d] eqn:Hb; [intros _; left; exact Hc|].
    simpl. intros [= <-]. right.
    exists protocol, resp, (clock w (reads s1)).
    rewrite Hc. conjs; try reflexivity; assumption.
  - left. destruct (invoke_step (Get_protocol_data protocol_name) s) as [_ [_ [H | H]]];
      [exact H|].
    destruct H as [key [t [v' [req [resp [Hk _]]]]]]. discriminate Hk.
  - left. destruct (invoke_step (Query_blockchain chain method) s) as [_ [_ [H | H]]];
      [exact H|].
    destruct H as [key [t [v' [req [resp [Hk _]]]]]]. discriminate Hk.
  - left. destruct (invoke_step (Get_token_price token_id) s) as [_ [_ [H | H]]];
      [exact H|].
    destruct H as [key [t [v' [req [resp [Hk [_ [Hv' [_ [_ [_ [_ Hok]]]]]]]]]]]].
    injection Hk as <-. rewrite Hv in Hv'. injection Hv' as <-.
    destruct Hok as [_ [body [_ [[p [Hp _]] | [token [_ Hr]]]]]]; [discriminate Hp|].
    destruct Hr as [pu [ch [mc [stamp [_ [_ [_ Hd]]]]]]]. simpl in Hd. subst v.
    destruct Herr as [msg Hmsg]. discriminate Hmsg.
Qed.

(** C10, as the code has it.  In every state the server reaches, each
    cache entry pairs a reading of the clock with a result built from a
    status-200 answer.  An invocation changes the cache only by writing,
    under its own key, the result it returns after its request was answered
    with status 200 (so only [fetch_tvl] and [get_token_price] write); an
    invocation whose [try] block raises, or whose request is answered with
    another status, returns its error object and leaves the cache as it
    was.  A result that carries an [error] string leaves the cache as it
    was in every case but one: [fetch_tvl] stores and returns the status-200
    body as it is, also when that body carries an [error] string of its
    own. *)
Theorem cache_holds_successful_payloads :
  (forall invs, cache_ok w (run_all w invs init))
  /\ (forall i s,
        cache (snd (invoke w i s)) = cache s
        \/ exists key t v req resp,
             cache_key_of i = Some key
             /\ fst (invoke w i s) = Ok v
             /\ calls (snd (invoke w i s)) = calls s ++ [req]
             /\ http w (length (calls s)) req = Ok resp
             /\ status resp = 200
             /\ cache (snd (invoke w i s)) = <[key := (t, v)]> (cache s))
  /\ (forall i s e,
        fst (invoke_body w i s) = Raise e ->
        cache (snd (invoke w i s)) = cache s)
  /\ (forall i s req resp,
        calls (snd (invoke w i s)) = calls s ++ [req] ->
        http w (length (calls s)) req = Ok resp ->
        status resp <> 200 ->
        cache (snd (invoke w i s)) = cache s)
  /\ (forall i s v,
        fst (invoke w i s) = Ok v ->
        reports_error v ->
        cache (snd (invoke w i s)) = cache s
        \/ exists protocol resp t,
             i = Fetch_tvl protocol
             /\ http w (length (calls s)) (GET (tvl_url protocol) []) = Ok resp
             /\ status resp = 200
             /\ body_json resp = Ok v
             /\ cache (snd (invoke w i s)) = <["tvl_" +:+ protocol := (t, v)]> (cache s)).
Proof.
  split; [exact reachable_cache_ok|]. split; [|split; [|split]].
  - intros i s. destruct (invoke_step i s) as [_ [_ [H | H]]]; [left; exact H|].
    right. destruct H as [key [t [v [req [resp H]]]]].
    exists key, t, v, req, resp. tauto.
  - intros i s e He. destruct (invoke_step i s) as [_ [_ [H | H]]]; [exact H|].
    destruct H as [key [t [v [req [resp [_ [Hb _]]]]]]]. congruence.
  - intros i s req resp Hc Hh Hs.
    destruct (invoke_step i s) as [_ [_ [H | H]]]; [exact H|].
    destruct H as [key [t [v [req' [resp' [_ [_ [_ [Hc' [Hh' [Hs' _]]]]]]]]]]].
    rewrite Hc in Hc'. apply app_inv_head in Hc'. injection Hc' as <-.
    congruence.
  - exact error_result_step.
Qed.

End CacheInvariant.

Section AggregatorTotality.

Variable w : world.

Lemma not_longer {A : Type} (l : list A) (x : A) : l <> l ++ [x].
Proof.
  intros H. apply (f_equal (@length A)) in H.
  rewrite length_app in H. simpl in H. lia.
Qed.

Lemma is_dict_reports (msg : string) (rest : list (string * json)) :
  reports_error (JDict (("error", JStr msg) :: rest)).
Proof. exists msg. reflexivity. Qed.

(** An entry served by [fetch_tvl] is a status-200 body. *)
Lemma tvl_entry_answered (protocol : string) (s : state) (d : json) :
  cache_ok w s ->
  fresh w ("tvl_" +:+ protocol) 3600 s = Some d ->
  answered_200 w s d.
Proof.
  intros Hok Hf. destruct (fresh_cached w _ _ _ _ Hf) as [t Hc].
  destruct (Hok _ _ Hc) as [_ [body [Hb [[p [_ Hd]] | [token [Hk _]]]]]].
  - simpl in Hd. subst d. exact Hb.
  - discriminate Hk.
Qed.

(** An entry served by [get_token_price] is a price record. *)
Lemma price_entry_dict (token_id : string) (s : state) (d : json) :
  cache_ok w s ->
  fresh w ("price_" +:+ token_id) 300 s = Some d ->
  is_dict d = true.
Proof.
  intros Hok Hf. destruct (fresh_cached w _ _ _ _ Hf) as [t Hc].
  destruct (Hok _ _ Hc) as [_ [body [Hb [[p [Hk _]] | [token [_ Hr]]]]]].
  - discriminate Hk.
  - destruct Hr as [pu [ch [mc [stamp [_ [_ [_ Hd]]]]]]]. simpl in Hd.
    subst d. reflexivity.
Qed.

Lemma fetch_tvl_total (protocol : string) (s : state) :
  cache_ok w s ->
  exists v,
    fst (fetch_tvl w protocol s) = Ok v
    /\ (forall e, fst (fetch_tvl_body w protocol s) = Raise e ->
                  field "error" v = Some (JStr (str_exn e)))
    /\ (is_dict v = false -> answered_200 w (snd (fetch_tvl w protocol s)) v)
    /\ (forall req resp,
          calls (snd (fetch_tvl w protocol s)) = calls s ++ [req] ->
          http w (length (calls s)) req = Ok resp ->
          status resp <> 200 ->
          reports_error v).
Proof.
  intros Hok. unfold fetch_tvl.
  rewrite try_except_result, try_except_state, fetch_tvl_body_run. cbv zeta.
  pose proof (looked_up_calls ("tvl_" +:+ protocol) s) as Hl.
  set (s1 := looked_up ("tvl_" +:+ protocol) s) in *.
  eexists. split; [reflexivity|].
  destruct (fresh w ("tvl_" +:+ protocol) 3600 s) as [d|] eqn:Hf.
  { simpl. conjs.
    - discriminate.
    - intros _. apply (answered_200_mono w s s1 d).
      + exists []. now rewrite Hl, app_nil_r.
      + exact (tvl_entry_answered protocol s d Hok Hf).
    - intros req resp H. rewrite Hl in H. destruct (not_longer _ _ H). }
  rewrite Hl.
  destruct (http w (length (calls s)) _) as [e|resp0] eqn:Hh.
  { simpl. conjs.
    - intros e' [= <-]. reflexivity.
    - discriminate.
    - intros req resp H. rewrite Hl in H. apply app_inv_head in H.
      injection H as <-. congruence. }
  destruct (status resp0 =? 200) eqn:Hs.
  2:{ simpl. conjs.
      - discriminate.
      - discriminate.
      - intros. apply is_dict_reports. }
  apply Z.eqb_eq in Hs.
  destruct (body_json resp0) as [e|d] eqn:Hb.
  { simpl. conjs.
    - intros e' [= <-]. reflexivity.
    - discriminate.
    - intros req resp H. rewrite Hl in H. apply app_inv_head in H.
      injection H as <-. congruence. }
  simpl. conjs.
  - discriminate.
  - intros _. exists (length (calls s)), (GET (tvl_url protocol) []), resp0.
    simpl. rewrite Hl. conjs; try assumption. apply list_lookup_middle. reflexivity.
  - intros req resp H. rewrite Hl in H. apply app_inv_head in H.
    injection H as <-. congruence.
Qed.

Lemma get_token_price_total (token_id : string) (s : state) :
  cache_ok w s ->
  exists v,
    fst (get_token_price w token_id s) = Ok v
    /\ (forall e, fst (get_token_price_body w token_id s) = Raise e ->
                  field "error" v = Some (JStr (str_exn e)))
    /\ is_dict v = true
    /\ (forall req resp,
          calls (snd (get_token_price w token_id s)) = calls s ++ [req] ->
          http w (length (calls s)) req = Ok resp ->
          status resp <> 200 ->
          reports_error v).
Proof.
  intros Hok. unfold get_token_price.
  rewrite try_except_result, try_except_state, get_token_price_body_run. cbv zeta.
  pose proof (looked_up_calls ("price_" +:+ token_id) s) as Hl.
  set (s1 := looked_up ("price_" +:+ token_id) s) in *.
  eexists. split; [reflexivity|].
  destruct (fresh w ("price_" +:+ token_id) 300 s) as [d|] eqn:Hf.
  { simpl. conjs.
    - discriminate.
    - exact (price_entry_dict token_id s d Hok Hf).
    - intros req resp H. rewrite Hl in H. destruct (not_longer _ _ H). }
  rewrite Hl.
  assert (Hraise : forall e0 : exn,
    (forall e, (Raise e0 : except json) = Raise e ->
               field "error" (JDict [("error", JStr (str_exn e0))])
               = Some (JStr (str_exn e)))
    /\ is_dict (JDict [("error", JStr (str_exn e0))]) = true).
  { intros e0. split; [intros e' [= <-]; reflexivity | reflexivity]. }
  destruct (http w (length (calls s)) _) as [e|resp0] eqn:Hh.
  { simpl. destruct (Hraise e) as [H1 H2]. conjs; [exact H1 | exact H2 |].
    intros req resp H. rewrite Hl in H. apply app_inv_head in H.
    injection H as <-. congruence. }
  destruct (status resp0 =? 200) eqn:Hs.
  2:{ simpl. conjs; [discriminate | reflexivity | intros; apply is_dict_reports]. }
  apply Z.eqb_eq in Hs.
  assert (Hnot : forall req resp,
            calls s1 ++ [GET (COINGECKO_BASE_URL +:+ "/simple/price")
                           (price_params token_id)] = calls s ++ [req] ->
            http w (length (calls s)) req = Ok resp ->
            status resp <> 200 -> False).
  { intros req resp H. rewrite Hl in H. apply app_inv_head in H.
    injection H as <-. congruence. }
  destruct (body_json resp0) as [e|d].
  { simpl. destruct (Hraise e) as [H1 H2]. conjs; [exact H1 | exact H2 |].
    intros req resp H H' H''. destruct (Hnot req resp H H' H''). }
  destruct (token_field d token_id "usd") as [e|pu].
  { simpl. destruct (Hraise e) as [H1 H2]. conjs; [exact H1 | exact H2 |].
    intros req resp H H' H''. destruct (Hnot req resp H H' H''). }
  destruct (token_field d token_id "usd_24h_change") as [e|ch].
  { simpl. destruct (Hraise e) as [H1 H2]. conjs; [exact H1 | exact H2 |].
    intros req resp H H' H''. destruct (Hnot req resp H H' H''). }
  destruct (token_field d token_id "usd_market_cap") as [e|mc].
  { simpl. destruct (Hraise e) as [H1 H2]. conjs; [exact H1 | exact H2 |].
    intros req resp H H' H''. destruct (Hnot req resp H H' H''). }
  simpl. conjs; [discriminate | reflexivity |].
  intros req resp H H' H''. destruct (Hnot req resp H H' H'').
Qed.

Lemma query_blockchain_total (chain method : string) (s : state) :
  exists v,
    fst (query_blockchain w chain method s) = Ok v
    /\ (forall e, fst (query_blockchain_body w chain method s) = Raise e ->
                  field "error" v = Some (JStr (str_exn e)))
    /\ is_dict v = true
    /\ (forall req resp,
          calls (snd (query_blockchain w chain method s)) = calls s ++ [req] ->
          http w (length (calls s)) req = Ok resp ->
          status resp <> 200 ->
          reports_error v).
Proof.
  unfold query_blockchain.
  rewrite try_except_result, try_except_state, query_blockchain_body_run. cbv zeta.
  simpl fst. simpl snd. unfold log_call. simpl calls.
  eexists. split; [reflexivity|].
  assert (Hraise : forall e0 : exn,
    (forall e, (Raise e0 : except json) = Raise e ->
               field "error" (JDict [("error", JStr (str_exn e0)); ("chain", JStr chain)])
               = Some (JStr (str_exn e)))
    /\ is_dict (JDict [("error", JStr (str_exn e0)); ("chain", JStr chain)]) = true).
  { intros e0. split; [intros e' [= <-]; reflexivity | reflexivity]. }
  destruct (http w (length (calls s)) _) as [e|resp0] eqn:Hh.
  { destruct (Hraise e) as [H1 H2]. conjs; [exact H1 | exact H2 |].
    intros req resp H. apply app_inv_head in H. injection H as <-. congruence. }
  destruct (status resp0 =? 200) eqn:Hs.
  2:{ conjs; [discriminate | reflexivity | intros; apply is_dict_reports]. }
  apply Z.eqb_eq in Hs.
  assert (Hnot : forall req resp,
            calls s ++ [POST (rpc_url_of chain) (rpc_payload method)] = calls s ++ [req] ->
            http w (length (calls s)) req = Ok resp ->
            status resp <> 200 -> False).
  { intros req resp H. apply app_inv_head in H. injection H as <-. congruence. }
  destruct (body_json resp0) as [e|d].
  { destruct (Hraise e) as [H1 H2]. conjs; [exact H1 | exact H2 |].
    intros req resp H H' H''. destruct (Hnot req resp H H' H''). }
  destruct (py_get d "result" JNull) as [e|r].
  { destruct (Hraise e) as [H1 H2]. conjs; [exact H1 | exact H2 |].
    intros req resp H H' H''. destruct (Hnot req resp H H' H''). }
  destruct (String.eqb method "eth_blockNumber").
  2:{ conjs; [discriminate | reflexivity |].
      intros req resp H H' H''. destruct (Hnot req resp H H' H''). }
  destruct (py_get d "result" (JStr "0x0")) as [e|r'].
  { destruct (Hraise e) as [H1 H2]. conjs; [exact H1 | exact H2 |].
    intros req resp H H' H''. destruct (Hnot req resp H H' H''). }
  destruct (int16 r') as [e|n].
  { destruct (Hraise e) as [H1 H2]. conjs; [exact H1 | exact H2 |].
    intros req resp H H' H''. destruct (Hnot req resp H H' H''). }
  conjs; [discriminate | reflexivity |].
  intros req resp H H' H''. destruct (Hnot req resp H H' H'').
Qed.

Lemma get_protocol_data_total (protocol_name : string) (s : state) :
  exists v,
    fst (get_protocol_data w protocol_name s) = Ok v
    /\ (forall e, fst (get_protocol_data_body w protocol_name s) = Raise e ->
                  field "error" v = Some (JStr (str_exn e)))
    /\ is_dict v = true
    /\ (forall req resp,
          calls (snd (get_protocol_data w protocol_name s)) = calls s ++ [req] ->
          http w (length (calls s)) req = Ok resp ->
          status resp <> 200 ->
          reports_error v).
Proof.
  unfold get_protocol_data. rewrite try_except_result, try_except_state.
  destruct (get_protocol_data_body_run w protocol_name s) as [Hst [Hd Hn]].
  rewrite Hst. eexists. split; [reflexivity|].
  destruct (fst (get_protocol_data_body w protocol_name s)) as [e|v] eqn:E.
  - conjs; [intros e' [= <-]; reflexivity | reflexivity |].
    intros req resp H Hh Hs. simpl in H. apply app_inv_head in H. injection H as <-.
    specialize (Hn resp Hh Hs). discriminate Hn.
  - conjs; [discriminate | exact (Hd v eq_refl) |].
    intros req resp H Hh Hs. simpl in H. apply app_inv_head in H. injection H as <-.
    specialize (Hn resp Hh Hs). injection Hn as ->. apply is_dict_reports.
Qed.

(** Every invocation of the aggregator returns a value; it is an object,
    unless it is the status-200 body [fetch_tvl] passes on as it received
    it. *)
Lemma aggregator_invoke_total (i : invocation) (s : state) :
  cache_ok w s ->
  exists v,
    fst (invoke w i s) = Ok v
    /\ (forall e, fst (invoke_body w i s) = Raise e ->
                  field "error" v = Some (JStr (str_exn e)))
    /\ (is_dict v = false ->
        (exists protocol, i = Fetch_tvl protocol)
        /\ answered_200 w (snd (invoke w i s)) v)
    /\ (forall req resp,
          calls (snd (invoke w i s)) = calls s ++ [req] ->
          http w (length (calls s)) req = Ok resp ->
          status resp <> 200 ->
          reports_error v).
Proof.
  intros Hok. destruct i as [p | p | c m | t]; simpl invoke; simpl invoke_body.
  - destruct (fetch_tvl_total p s Hok) as [v [H1 [H2 [H3 H4]]]].
    exists v. conjs; try assumption.
    intros H. split; [exists p; reflexivity | exact (H3 H)].
  - destruct (get_protocol_data_total p s) as [v [H1 [H2 [H3 H4]]]].
    exists v. conjs; try assumption. intros H. congruence.
  - destruct (query_blockchain_total c m s) as [v [H1 [H2 [H3 H4]]]].
    exists v. conjs; try assumption. intros H. congruence.
  - destruct (get_token_price_total t s Hok) as [v [H1 [H2 [H3 H4]]]].
    exists v. conjs; try assumption. intros H. congruence.
Qed.

Ltac failed := left; eexists; reflexivity.

(** Every invocation of the aggregator that does not go through answers
    an object with an [error] string. *)
Lemma aggregator_invoke_outcome (i : invocation) (s : state) :
  exists v,
    fst (invoke w i s) = Ok v
    /\ (reports_error v \/ aggregator_succeeds w i s).
Proof.
  destruct i as [p | p | c m | t]; simpl invoke; unfold aggregator_succeeds.
  - unfold fetch_tvl. rewrite try_except_result, fetch_tvl_body_run. cbv zeta.
    rewrite looked_up_calls.
    destruct (fresh w ("tvl_" +:+ p) 3600 s) as [d|];
      [eexists; split; [reflexivity | right; left; eexists; reflexivity]|].
    destruct (http w (length (calls s)) _) as [e|resp] eqn:Hh;
      [eexists; split; [reflexivity | failed]|].
    destruct (status resp =? 200) eqn:Hs; [|eexists; split; [reflexivity | failed]].
    apply Z.eqb_eq in Hs.
    destruct (body_json resp) as [e|d] eqn:Hb; [eexists; split; [reflexivity | failed]|].
    eexists. split; [reflexivity|]. right. right. exists resp, d. auto.
  - unfold get_protocol_data. rewrite try_except_result.
    unfold get_protocol_data_body. cbv zeta. unfold bind, request, lift, ret.
    destruct (http w (length (calls s)) _) as [e|resp] eqn:Hh;
      [eexists; split; [reflexivity | failed]|].
    destruct (status resp =? 200) eqn:Hs; [|eexists; split; [reflexivity | failed]].
    apply Z.eqb_eq in Hs.
    destruct (body_json resp) as [e|d] eqn:Hb; [eexists; split; [reflexivity | failed]|].
    destruct d as [| b | z | f | str | l | body];
      try (eexists; split; [reflexivity | failed]).
    eexists. split; [reflexivity|]. right. exists resp, body. auto.
  - unfold query_blockchain. rewrite try_except_result, query_blockchain_body_run.
    cbv zeta. simpl fst.
    destruct (http w (length (calls s)) _) as [e|resp] eqn:Hh;
      [eexists; split; [reflexivity | failed]|].
    destruct (status resp =? 200) eqn:Hs; [|eexists; split; [reflexivity | failed]].
    apply Z.eqb_eq in Hs.
    destruct (body_json resp) as [e|d] eqn:Hb; [eexists; split; [reflexivity | failed]|].
    destruct d as [| b | z | f | str | l | body];
      try (eexists; split; [reflexivity | failed]).
    unfold py_get. fold (field_or (JStr "0x0") "result" body).
    destruct (String.eqb m "eth_blockNumber") eqn:Hm.
    + destruct (int16 (field_or (JStr "0x0") "result" body)) as [e|block] eqn:Hi;
        [eexists; split; [reflexivity | failed]|].
      eexists. split; [reflexivity|]. right. exists resp, body.
      conjs; try assumption; try reflexivity. intros _. exists block. exact Hi.
    + apply String.eqb_neq in Hm.
      eexists. split; [reflexivity|]. right. exists resp, body.
      conjs; try assumption; try reflexivity. intros H. contradiction.
  - unfold get_token_price. rewrite try_except_result, get_token_price_body_run.
    cbv zeta. rewrite looked_up_calls.
    destruct (fresh w ("price_" +:+ t) 300 s) as [d|];
      [eexists; split; [reflexivity | right; left; eexists; reflexivity]|].
    destruct (http w (length (calls s)) _) as [e|resp] eqn:Hh;
      [eexists; split; [reflexivity | failed]|].
    destruct (status resp =? 200) eqn:Hs; [|eexists; split; [reflexivity | failed]].
    apply Z.eqb_eq in Hs.
    destruct (body_json resp) as [e|d] eqn:Hb; [eexists; split; [reflexivity | failed]|].
    destruct (token_field d t "usd") as [e|pu] eqn:H1;
      [eexists; split; [reflexivity | failed]|].
    destruct (token_field d t "usd_24h_change") as [e|ch] eqn:H2;
      [eexists; split; [reflexivity | failed]|].
    destruct (token_field d t "usd_market_cap") as [e|mc] eqn:H3;
      [eexists; split; [reflexivity | failed]|].
    eexists. split; [reflexivity|]. right. right. exists resp, d, pu, ch, mc.
    conjs; try assumption; reflexivity.
Qed.

End AggregatorTotality.

(** The claim C10 as written fails on results that carry an error: a
    status-200 body that is itself an error object comes back from
    [fetch_tvl] as it is, and is written to the cache. *)
Lemma fetch_tvl_caches_an_error_body :
  let w := Sample.upstream (JDict [("error", JStr "rate limited")]) [] in
  fst (fetch_tvl w "aave" init) = Ok (JDict [("error", JStr "rate limited")])
  /\ reports_error (JDict [("error", JStr "rate limited")])
  /\ cache init !! "tvl_aave" = None
  /\ cache (snd (fetch_tvl w "aave" init)) !! "tvl_aave"
     = Some (0, JDict [("error", JStr "rate limited")]).
Proof.
  cbv zeta. conjs; [vm_compute; reflexivity | eexists; reflexivity
                    | reflexivity | vm_compute; reflexivity].
Qed.

(** The theorem of C10 at a refused request: a status of 503 leaves the
    cache as it was. *)
Lemma cache_unchanged_witness :
  cache (snd (invoke (Sample.upstream_status 503 JNull []) (Fetch_tvl "aave") init))
  = cache init.
Proof.
  destruct (cache_holds_successful_payloads (Sample.upstream_status 503 JNull []))
    as [_ [_ [_ [H _]]]].
  apply (H (Fetch_tvl "aave") init (GET (tvl_url "aave") [])
           {| status := 503; body_json := Ok JNull |}).
  - vm_compute. reflexivity.
  - reflexivity.
  - discriminate.
Defined.

(** C3, at the failing input: ["aave"] is fetched at time 0 and asked for
    again one day and one second later.  The age of the entry is far over
    an hour, yet its [timedelta.seconds] is 1, so the second call is served
    from the cache and no second request goes out. *)
Theorem tvl_served_from_cache_after_a_day :
  let w := Sample.upstream (JDict [("tvl", JInt 1)]) [0; 86401 * Sample.second] in
  let s1 := snd (fetch_tvl w "aave" init) in
  let s2 := snd (fetch_tvl w "aave" s1) in
  calls s1 = [GET "https://api.llama.fi/protocol/aave" []]
  /\ cache s1 !! "tvl_aave" = Some (0, JDict [("tvl", JInt 1)])
  /\ clock w (reads s1) - 0 = (86400 + 1) * 1000000
  /\ 3600 * 1000000 < clock w (reads s1) - 0
  /\ calls s2 = calls s1
  /\ fst (fetch_tvl w "aave" s1) = Ok (JDict [("tvl", JInt 1)]).
Proof. cbv zeta. conjs; vm_compute; reflexivity. Qed.

(** Within the hour, and within the five minutes, the second call is
    served from the cache: one request for two invocations. *)
Example two_calls_one_request :
  let w := Sample.upstream (JDict [("ethereum", JDict [("usd", JInt 2000)])])
             [0; 3599 * Sample.second; 0; 0; 299 * Sample.second] in
  calls (run_all w [Fetch_tvl "aave"; Fetch_tvl "aave"] init)
  = [GET "https://api.llama.fi/protocol/aave" []]
  /\ calls (run_all w [Fetch_tvl "aave"; Fetch_tvl "aave";
                       Get_token_price "ethereum"; Get_token_price "ethereum"] init)
     = [GET "https://api.llama.fi/protocol/aave" [];
        GET "https://api.coingecko.com/api/v3/simple/price" (price_params "ethereum")].
Proof. cbv zeta. split; vm_compute; reflexivity. Qed.

Lemma block_number_field_witness :
  exists v,
    fst (query_blockchain (Sample.upstream (JDict [("result", JStr "0x10")]) [])
           "scroll" "eth_blockNumber" init) = Ok v
    /\ field "block_number" v = Some (JInt 16).
Proof.
  apply (proj1 (block_number_field
                  (Sample.upstream (JDict [("result", JStr "0x10")]) [])
                  "scroll" "eth_blockNumber" init
                  {| status := 200; body_json := Ok (JDict [("result", JStr "0x10")]) |}
                  (JDict [("result", JStr "0x10")])
                  eq_refl eq_refl eq_refl eq_refl)
          eq_refl "10" eq_refl).
  - discriminate.
  - reflexivity.
Defined.

(** The theorem of C9 at the chain ["solana"]: the answer of the
    polygon-zkevm endpoint comes back under that name. *)
Lemma unknown_chain_witness :
  query_blockchain (Sample.upstream (JDict [("result", JStr "0x10")]) [])
    "solana" "eth_gasPrice" init
  = (Ok (JDict [ ("chain", JStr "solana"); ("method", JStr "eth_gasPrice");
                 ("result", JStr "0x10"); ("block_number", JNull) ]),
     log_call (POST "https://zkevm-rpc.com" (rpc_payload "eth_gasPrice")) init).
Proof.
  destruct (unknown_chain_goes_to_zkevm
              (Sample.upstream (JDict [("result", JStr "0x10")]) [])
              "solana" "eth_gasPrice" init
              ltac:(discriminate) ltac:(discriminate) ltac:(discriminate))
    as [v [Hrun [_ [_ Hresp]]]].
  destruct (Hresp {| status := 200; body_json := Ok (JDict [("result", JStr "0x10")]) |}
              eq_refl) as [_ H200].
  destruct (H200 eq_refl) as [_ [_ [_ Hbody]]].
  rewrite Hrun.
  rewrite (proj1 (Hbody [("result", JStr "0x10")] eq_refl) ltac:(discriminate)).
  reflexivity.
Defined.

End AggregatorProps.

(* ===================================================================== *)
(** ** The servers: what a call of call_tool amounts to                   *)
(* ===================================================================== *)

Module ServerProps.
Local Open Scope list_scope.

Section MonitorServer.

Variable lib : Monitor.web3.
Variable w : Monitor.world.
Variable dumps : json -> option Z -> string.

(** With the required argument present, a call runs the method it names
    with the defaults filled in, and wraps what the method returns. *)
Lemma monitor_call_tool_run (name : string) (a : Monitor.arguments)
    (sent : list Monitor.rpc) :
  monitor_has_required name a = true ->
  Monitor.call_tool lib w dumps name a sent =
  match monitor_invocation_of name a with
  | Some i =>
      match Monitor.invoke lib w i sent with
      | (Ok v, sent') => (Ok [Monitor.text_content dumps v (Some 2)], sent')
      | (Raise e, sent') => (Raise e, sent')
      end
  | None =>
      (Ok [Monitor.text_content dumps
             (JDict [("error", JStr ("Unknown tool: " +:+ name))]) None], sent)
  end.
Proof.
  intros Hreq. unfold Monitor.call_tool, monitor_invocation_of.
  destruct (String.eqb name "monitor_events") eqn:E1.
  { apply String.eqb_eq in E1. subst name.
    destruct (Monitor.arg_contract_address a) as [c|] eqn:Ec; [|required_in Hreq Ec].
    unfold bind, lift, Mcp.item, ret. simpl Monitor.invoke.
    destruct (Monitor.monitor_events lib w c _ _ _ sent) as [[e|v] sent']; reflexivity. }
  destruct (String.eqb name "check_vulnerabilities") eqn:E2.
  { apply String.eqb_eq in E2. subst name.
    destruct (Monitor.arg_contract_address a) as [c|] eqn:Ec; [|required_in Hreq Ec].
    unfold bind, lift, Mcp.item, ret. simpl Monitor.invoke.
    destruct (Monitor.check_vulnerabilities lib w c _ sent) as [[e|v] sent']; reflexivity. }
  destruct (String.eqb name "track_transactions") eqn:E3.
  { apply String.eqb_eq in E3. subst name.
    destruct (Monitor.arg_address a) as [c|] eqn:Ec; [|required_in Hreq Ec].
    unfold bind, lift, Mcp.item, ret. simpl Monitor.invoke.
    destruct (Monitor.track_transactions lib w c _ _ sent) as [[e|v] sent']; reflexivity. }
  reflexivity.
Qed.

End MonitorServer.

Section AggregatorServer.

Variable w : Aggregator.world.
Variable dumps : json -> option Z -> string.

Local Abbreviation call_tool := (Aggregator.call_tool w dumps).
Local Abbreviation serve := (Aggregator.serve w dumps).

Lemma invoke_ok (i : Aggregator.invocation) (s : Aggregator.state) :
  exists v, Aggregator.invoke w i s = (Ok v, snd (Aggregator.invoke w i s)).
Proof.
  destruct i; simpl;
    [unfold Aggregator.fetch_tvl | unfold Aggregator.get_protocol_data
    | unfold Aggregator.query_blockchain | unfold Aggregator.get_token_price];
    rewrite try_except_ret;
    match goal with |- context [match ?b with _ => _ end] => destruct b as [[e|v] s'] end;
    eexists; reflexivity.
Qed.

Lemma call_tool_run (name : string) (a : Aggregator.arguments)
    (sv : Aggregator.server) :
  exists content,
    call_tool name a sv
    = (Ok [content],
       {| Aggregator.self_state :=
            match aggregator_invocation_of name a with
            | Some i => snd (Aggregator.invoke w i (Aggregator.self_state sv))
            | None => Aggregator.self_state sv
            end;
          Aggregator.session := Some (Aggregator.opened sv);
          Aggregator.opened := S (Aggregator.opened sv);
          Aggregator.closed := Aggregator.opened sv :: Aggregator.closed sv |})
    /\ Mcp.type content = "text".
Proof.
  unfold Aggregator.call_tool, Aggregator.async_with, aggregator_invocation_of.
  change (Aggregator.aenter sv)
    with {| Aggregator.self_state := Aggregator.self_state sv;
            Aggregator.session := Some (Aggregator.opened sv);
            Aggregator.opened := S (Aggregator.opened sv);
            Aggregator.closed := Aggregator.closed sv |}.
  destruct (String.eqb name "fetch_tvl").
  { cbv zeta. unfold bind, Aggregator.on_self. simpl Aggregator.self_state.
    destruct (invoke_ok (Aggregator.Fetch_tvl (Mcp.get (Aggregator.arg_protocol a) "all"))
                (Aggregator.self_state sv)) as [v Hv].
    simpl in Hv. rewrite Hv. eexists. split; reflexivity. }
  destruct (String.eqb name "get_protocol_data").
  { cbv zeta. unfold Aggregator.falsy.
    destruct (Aggregator.arg_protocol_name a) as [p|];
      [|eexists; split; reflexivity].
    destruct (String.eqb p EmptyString); [eexists; split; reflexivity|].
    unfold bind, Aggregator.on_self. simpl Aggregator.self_state.
    destruct (invoke_ok (Aggregator.Get_protocol_data p) (Aggregator.self_state sv))
      as [v Hv].
    simpl in Hv. simpl Mcp.get. rewrite Hv. eexists. split; reflexivity. }
  destruct (String.eqb name "query_blockchain").
  { cbv zeta. unfold bind, Aggregator.on_self. simpl Aggregator.self_state.
    destruct (invoke_ok (Aggregator.Query_blockchain
                           (Mcp.get (Aggregator.arg_chain a) "polygon-zkevm")
                           (Mcp.get (Aggregator.arg_method a) "eth_blockNumber"))
                (Aggregator.self_state sv)) as [v Hv].
    simpl in Hv. rewrite Hv. eexists. split; reflexivity. }
  destruct (String.eqb name "get_token_price").
  { cbv zeta. unfold bind, Aggregator.on_self. simpl Aggregator.self_state.
    destruct (invoke_ok (Aggregator.Get_token_price
                           (Mcp.get (Aggregator.arg_token_id a) "ethereum"))
                (Aggregator.self_state sv)) as [v Hv].
    simpl in Hv. rewrite Hv. eexists. split; reflexivity. }
  eexists. split; reflexivity.
Qed.

(** The content a call returns: the dump, indented by 2, of what the
    method it amounts to returns; the dump of an error object when it
    reaches no method. *)
Lemma call_tool_answer (name : string) (a : Aggregator.arguments)
    (sv : Aggregator.server) :
  match aggregator_invocation_of name a with
  | Some i =>
      exists v,
        fst (Aggregator.invoke w i (Aggregator.self_state sv)) = Ok v
        /\ fst (call_tool name a sv)
           = Ok [Aggregator.text_content dumps v (Some 2)]
  | None =>
      exists msg,
        fst (call_tool name a sv)
        = Ok [Aggregator.text_content dumps (JDict [("error", JStr msg)]) None]
  end.
Proof.
  unfold Aggregator.call_tool, Aggregator.async_with, aggregator_invocation_of.
  change (Aggregator.aenter sv)
    with {| Aggregator.self_state := Aggregator.self_state sv;
            Aggregator.session := Some (Aggregator.opened sv);
            Aggregator.opened := S (Aggregator.opened sv);
            Aggregator.closed := Aggregator.closed sv |}.
  destruct (String.eqb name "fetch_tvl").
  { cbv zeta. unfold bind, Aggregator.on_self. simpl Aggregator.self_state.
    destruct (invoke_ok (Aggregator.Fetch_tvl (Mcp.get (Aggregator.arg_protocol a) "all"))
                (Aggregator.self_state sv)) as [v Hv].
    simpl in Hv. simpl Aggregator.invoke. rewrite Hv. exists v. split; reflexivity. }
  destruct (String.eqb name "get_protocol_data").
  { cbv zeta. unfold Aggregator.falsy.
    destruct (Aggregator.arg_protocol_name a) as [p|];
      [|eexists; reflexivity].
    destruct (String.eqb p EmptyString); [eexists; reflexivity|].
    unfold bind, Aggregator.on_self. simpl Aggregator.self_state.
    destruct (invoke_ok (Aggregator.Get_protocol_data p) (Aggregator.self_state sv))
      as [v Hv].
    simpl in Hv. simpl Mcp.get. simpl Aggregator.invoke. rewrite Hv.
    exists v. split; reflexivity. }
  destruct (String.eqb name "query_blockchain").
  { cbv zeta. unfold bind, Aggregator.on_self. simpl Aggregator.self_state.
    destruct (invoke_ok (Aggregator.Query_blockchain
                           (Mcp.get (Aggregator.arg_chain a) "polygon-zkevm")
                           (Mcp.get (Aggregator.arg_method a) "eth_blockNumber"))
                (Aggregator.self_state sv)) as [v Hv].
    simpl in Hv. simpl Aggregator.invoke. rewrite Hv. exists v. split; reflexivity. }
  destruct (String.eqb name "get_token_price").
  { cbv zeta. unfold bind, Aggregator.on_self. simpl Aggregator.self_state.
    destruct (invoke_ok (Aggregator.Get_token_price
                           (Mcp.get (Aggregator.arg_token_id a) "ethereum"))
                (Aggregator.self_state sv)) as [v Hv].
    simpl in Hv. simpl Aggregator.invoke. rewrite Hv. exists v. split; reflexivity. }
  eexists. reflexivity.
Qed.

(** After a sequence of calls the aggregator object is in the state the
    methods reached by those calls leave it in, one after the other. *)
Lemma serve_state (reqs : list (string * Aggregator.arguments))
    (sv : Aggregator.server) :
  Aggregator.self_state (serve reqs sv)
  = Aggregator.run_all w (aggregator_invocations reqs) (Aggregator.self_state sv).
Proof.
  revert sv. induction reqs as [|[name a] reqs IH]; intros sv; [reflexivity|].
  simpl Aggregator.serve. rewrite IH.
  destruct (call_tool_run name a sv) as [content [E _]].
  rewrite E. simpl snd. simpl Aggregator.self_state. simpl aggregator_invocations.
  destruct (aggregator_invocation_of name a); reflexivity.
Qed.

End AggregatorServer.

End ServerProps.

(* ===================================================================== *)
(** ** Both servers                                                       *)
(* ===================================================================== *)

(** C4, as the code has it.  A call of [call_tool] that holds the argument
    the tool's schema requires raises nothing, on either server: it returns
    one text content, the dump of a result value.  Whenever the call does
    not go through (the tool is unknown, the required [protocol_name] is
    missing or empty, a check of the method turns the call away, the
    upstream status is not 200, or a step of the [try] block raises) that
    value is an object with an [error] string.  The value is an object in
    every case but one: [fetch_tvl] passes on the status-200 body as it
    received it (at once or from its cache), whatever JSON value that is.
    What counts as going through is what the code checks: a status-200
    body is taken as it comes. *)
Theorem no_exception_escapes :
  (forall lib w dumps name a sent,
     monitor_has_required name a = true ->
     exists v indent sent',
       Monitor.call_tool lib w dumps name a sent
       = (Ok [ {| Mcp.type := "text"; Mcp.text := dumps v indent |} ], sent')
       /\ is_dict v = true
       /\ (reports_error v
           \/ exists i, monitor_invocation_of name a = Some i
                        /\ monitor_succeeds lib w i))
  /\ (forall w dumps reqs name a,
        let sv := Aggregator.serve w dumps reqs Aggregator.start in
        exists v indent,
          fst (Aggregator.call_tool w dumps name a sv)
          = Ok [ {| Mcp.type := "text"; Mcp.text := dumps v indent |} ]
          /\ (reports_error v
              \/ exists i, aggregator_invocation_of name a = Some i
                           /\ aggregator_succeeds w i (Aggregator.self_state sv))
          /\ (is_dict v = true
              \/ exists protocol,
                   aggregator_invocation_of name a
                   = Some (Aggregator.Fetch_tvl protocol)
                   /\ answered_200 w
                        (Aggregator.self_state
                           (snd (Aggregator.call_tool w dumps name a sv))) v)).
Proof.
  split.
  - intros lib w dumps name a sent Hreq.
    rewrite (ServerProps.monitor_call_tool_run lib w dumps name a sent Hreq).
    destruct (monitor_invocation_of name a) as [i|].
    + destruct (MonitorProps.monitor_invoke_outcome lib w i sent)
        as [v [sent' [Hv [Hd Ho]]]].
      rewrite Hv. exists v, (Some 2), sent'.
      split; [reflexivity|]. split; [exact Hd|].
      destruct Ho as [Ho | Ho]; [left; exact Ho|].
      right. exists i. split; [reflexivity | exact Ho].
    + eexists _, None, sent. split; [reflexivity|]. split; [reflexivity|].
      left. eexists. reflexivity.
  - intros w dumps reqs name a. cbv zeta.
    set (sv := Aggregator.serve w dumps reqs Aggregator.start).
    assert (Hok : cache_ok w (Aggregator.self_state sv)).
    { unfold sv. rewrite ServerProps.serve_state.
      apply AggregatorProps.reachable_cache_ok. }
    pose proof (ServerProps.call_tool_answer w dumps name a sv) as Hans.
    destruct (ServerProps.call_tool_run w dumps name a sv) as [content [Hrun _]].
    destruct (aggregator_invocation_of name a) as [i|].
    + destruct Hans as [v [Hv Hc]].
      destruct (AggregatorProps.aggregator_invoke_outcome w i (Aggregator.self_state sv))
        as [v1 [Hv1 Ho]].
      destruct (AggregatorProps.aggregator_invoke_total w i (Aggregator.self_state sv) Hok)
        as [v2 [Hv2 [_ [Hd _]]]].
      assert (v1 = v) by congruence. assert (v2 = v) by congruence. subst v1 v2.
      exists v, (Some 2). split; [exact Hc|]. split.
      * destruct Ho as [Ho | Ho]; [left; exact Ho|].
        right. exists i. split; [reflexivity | exact Ho].
      * destruct (is_dict v) eqn:E; [left; reflexivity|].
        right. destruct (Hd eq_refl) as [[p ->] Ha].
        exists p. split; [reflexivity|]. rewrite Hrun. exact Ha.
    + destruct Hans as [msg Hc].
      exists (JDict [("error", JStr msg)]), None. split; [exact Hc|].
      split; [left; eexists; reflexivity | left; reflexivity].
Qed.

Lemma no_exception_escapes_witness :
  exists v indent sent',
    Monitor.call_tool Sample.lib (Sample.world 3 []) Sample.dumps "track_transactions"
      (Sample.only_address Sample.alice) []
    = (Ok [ {| Mcp.type := "text"; Mcp.text := Sample.dumps v indent |} ], sent')
    /\ is_dict v = true
    /\ (reports_error v
        \/ exists i,
             monitor_invocation_of "track_transactions" (Sample.only_address Sample.alice)
             = Some i
             /\ monitor_succeeds Sample.lib (Sample.world 3 []) i).
Proof.
  apply (proj1 no_exception_escapes Sample.lib (Sample.world 3 []) Sample.dumps
           "track_transactions" (Sample.only_address Sample.alice) []).
  reflexivity.
Defined.

(** The claim C4 as written fails in three ways.  A status-200 body that
    is a JSON array comes back from [fetch_tvl] as that array, not as an
    object.  A failure that the upstream reports inside a status-200 body
    (here the JSON-RPC reply to an unknown method) is not noticed: the
    result has no [error] field, and reads as block number 0.  And a call
    of the monitor's [call_tool] without the argument the tool requires
    raises [KeyError] to the caller. *)
Lemma failures_without_an_error_object :
  (fst (Aggregator.call_tool (Sample.upstream (JList [JInt 1]) []) Sample.dumps
          "fetch_tvl" Sample.no_aggregator_arguments Aggregator.start)
   = Ok [ {| Mcp.type := "text";
             Mcp.text := Sample.dumps (JList [JInt 1]) (Some 2) |} ]
   /\ fst (Aggregator.fetch_tvl (Sample.upstream (JList [JInt 1]) []) "all"
             Aggregator.init)
      = Ok (JList [JInt 1])
   /\ is_dict (JList [JInt 1]) = false)
  /\ (let reply :=
        JDict [ ("jsonrpc", JStr "2.0"); ("id", JInt 1);
                ("error", JDict [ ("code", JInt (-32601));
                                  ("message", JStr "Method not found") ]) ] in
      fst (Aggregator.query_blockchain (Sample.upstream reply []) "scroll"
             "eth_blockNumber" Aggregator.init)
      = Ok (JDict [ ("chain", JStr "scroll"); ("method", JStr "eth_blockNumber");
                    ("result", JNull); ("block_number", JInt 0) ])
      /\ field "error"
           (JDict [ ("chain", JStr "scroll"); ("method", JStr "eth_blockNumber");
                    ("result", JNull); ("block_number", JInt 0) ]) = None)
  /\ Monitor.call_tool Sample.lib (Sample.world 3 []) Sample.dumps "monitor_events"
       Sample.no_arguments []
     = (Raise (Exception "'contract_address'"), []).
Proof.
  split; [conjs; [vm_compute; reflexivity | vm_compute; reflexivity | reflexivity]|].
  split; [cbv zeta; split; [vm_compute; reflexivity | reflexivity]|].
  vm_compute. reflexivity.
Qed.

(* ===================================================================== *)
(** ** Further properties of the blockchain monitor                       *)
(* ===================================================================== *)

Module MonitorExtra.
Import Monitor.
Local Open Scope list_scope.

Section Events.

Variable lib : web3.
Variable w : world.

Lemma providers_unsupported (chain : string) :
  chain <> "polygon-zkevm" -> chain <> "scroll" -> chain <> "zksync" ->
  assoc_get chain providers = None.
Proof.
  intros H1 H2 H3. unfold providers, assoc_get.
  apply String.eqb_neq in H1, H2, H3. rewrite H1, H2, H3. reflexivity.
Qed.

(** For a chain identifier outside the three registered ones, each method
    answers an error object at once and sends no request, not even the
    connectivity probe.  [monitor_events] names the chain as unsupported;
    the other two report a failed connection. *)
Theorem unsupported_chain_sends_nothing (a chain ev : string) (fb : option Z)
    (n : Z) (sent : list rpc) :
  chain <> "polygon-zkevm" -> chain <> "scroll" -> chain <> "zksync" ->
  monitor_events lib w a chain ev fb sent
  = (Ok (JDict [("error", JStr ("Unsupported chain: " +:+ chain))]), sent)
  /\ check_vulnerabilities lib w a chain sent
     = (Ok (JDict [("error", JStr ("Connection failed to " +:+ chain))]), sent)
  /\ track_transactions lib w a chain n sent
     = (Ok (JDict [("error", JStr ("Connection failed to " +:+ chain))]), sent).
Proof.
  intros H1 H2 H3. pose proof (providers_unsupported chain H1 H2 H3) as Hp.
  unfold monitor_events, check_vulnerabilities, track_transactions.
  rewrite !try_except_ret.
  unfold monitor_events_body, check_vulnerabilities_body, track_transactions_body.
  rewrite Hp. conjs; reflexivity.
Qed.

(** The run of [monitor_events] up to the choice of the event. *)
Lemma monitor_events_run (a chain ev url ca : string) (fb : option Z) (head : Z)
    (sent : list rpc) :
  assoc_get chain providers = Some url ->
  node_connected (node_at w url) = Ok true ->
  is_address lib a = true ->
  to_checksum_address lib a = Ok ca ->
  node_block_number (node_at w url) = Ok head ->
  let from := match fb with
              | Some n => if n =? 0 then head - 1000 else n
              | None => head - 1000
              end in
  let s2 := sent ++ [web3_clientVersion url; eth_blockNumber url] in
  monitor_events lib w a chain ev fb sent =
  if String.eqb ev "Transfer" || String.eqb ev "Staked" then
    match node_new_filter (node_at w url) ca ev from with
    | Raise e => (Ok (JDict [("error", JStr (str_exn e)); ("chain", JStr chain)]),
                  s2 ++ [eth_newFilter url ca ev from])
    | Ok id =>
        let s4 := s2 ++ [eth_newFilter url ca ev from; eth_getFilterLogs url id] in
        match node_filter_logs (node_at w url) id with
        | Raise e => (Ok (JDict [("error", JStr (str_exn e)); ("chain", JStr chain)]), s4)
        | Ok events =>
            (Ok (JDict [ ("chain", JStr chain);
                         ("contract", JStr ca);
                         ("event_name", JStr ev);
                         ("from_block", JInt from);
                         ("to_block", JInt head);
                         ("events_count", JInt (Z.of_nat (length events)));
                         ("events", JList (imap (event_record w) (slice_last 50 events))) ]),
             s4)
        end
    end
  else (Ok (JDict [("error", JStr ("Unknown event: " +:+ ev))]), s2).
Proof.
  intros Hp Hc Hi Ha Hb. cbv zeta.
  unfold monitor_events. rewrite try_except_ret. unfold monitor_events_body.
  rewrite Hp. unfold bind, is_connected, block_number, create_filter, get_all_entries,
    call, lift, ret.
  rewrite Hc, Hi, Ha, Hb. cbv beta iota delta [negb].
  rewrite <- !app_assoc. simpl app.
  destruct (String.eqb ev "Transfer") eqn:E1.
  - apply String.eqb_eq in E1. subst ev. simpl orb. cbv iota.
    destruct (node_new_filter _ _ _ _) as [e|id];
      [rewrite <- ?app_assoc; reflexivity|].
    destruct (node_filter_logs _ _); rewrite <- ?app_assoc; reflexivity.
  - destruct (String.eqb ev "Staked") eqn:E2; [|reflexivity].
    apply String.eqb_eq in E2. subst ev. simpl orb. cbv iota.
    destruct (node_new_filter _ _ _ _) as [e|id];
      [rewrite <- ?app_assoc; reflexivity|].
    destruct (node_filter_logs _ _); rewrite <- ?app_assoc; reflexivity.
Qed.


(** An event name other than "Transfer" and "Staked" is refused, but only
    after the provider was probed and the head block number fetched; no
    filter is created. *)
Theorem unknown_event_after_block_number (a chain ev url ca : string)
    (fb : option Z) (head : Z) (sent : list rpc) :
  assoc_get chain providers = Some url ->
  node_connected (node_at w url) = Ok true ->
  is_address lib a = true ->
  to_checksum_address lib a = Ok ca ->
  node_block_number (node_at w url) = Ok head ->
  ev <> "Transfer" -> ev <> "Staked" ->
  monitor_events lib w a chain ev fb sent
  = (Ok (JDict [("error", JStr ("Unknown event: " +:+ ev))]),
     sent ++ [web3_clientVersion url; eth_blockNumber url]).
Proof.
  intros Hp Hc Hi Ha Hb H1 H2.
  rewrite (monitor_events_run a chain ev url ca fb head sent Hp Hc Hi Ha Hb).
  apply String.eqb_neq in H1, H2. rewrite H1, H2. reflexivity.
Qed.

(** When the filter returns its entries, [events_count] is their full
    number while [events] holds the last 50 of them at most, in the order
    of the filter; [to_block] is the head. *)
Theorem events_capped_at_50 (a chain ev url ca : string) (fb : option Z)
    (head id : Z) (entries : list log_entry) (sent : list rpc) :
  assoc_get chain providers = Some url ->
  node_connected (node_at w url) = Ok true ->
  is_address lib a = true ->
  to_checksum_address lib a = Ok ca ->
  node_block_number (node_at w url) = Ok head ->
  ev = "Transfer" \/ ev = "Staked" ->
  node_new_filter (node_at w url) ca ev
    (match fb with
     | Some n => if n =? 0 then head - 1000 else n
     | None => head - 1000
     end) = Ok id ->
  node_filter_logs (node_at w url) id = Ok entries ->
  exists v evs,
    fst (monitor_events lib w a chain ev fb sent) = Ok v
    /\ field "events_count" v = Some (JInt (Z.of_nat (length entries)))
    /\ field "to_block" v = Some (JInt head)
    /\ field "events" v = Some (JList evs)
    /\ length evs = Nat.min 50 (length entries)
    /\ (forall i, (i < length evs)%nat ->
          exists entry,
            entries !! (length entries - length evs + i)%nat = Some entry
            /\ evs !! i = Some (event_record w i entry)).
Proof.
  intros Hp Hc Hi Ha Hb Hev Hf Hl.
  rewrite (monitor_events_run a chain ev url ca fb head sent Hp Hc Hi Ha Hb).
  assert (E : String.eqb ev "Transfer" || String.eqb ev "Staked" = true).
  { destruct Hev as [-> | ->]; reflexivity. }
  rewrite E. cbv zeta. rewrite Hf, Hl.
  eexists _, _. split; [reflexivity|]. split; [reflexivity|].
  split; [reflexivity|]. split; [reflexivity|].
  assert (Hlen : length (imap (event_record w) (slice_last 50 entries))
                 = Nat.min 50 (length entries)).
  { rewrite length_imap. unfold slice_last. rewrite length_drop. lia. }
  split; [exact Hlen|].
  intros i Hi'. rewrite Hlen in *.
  rewrite list_lookup_imap. unfold slice_last. rewrite lookup_drop.
  replace (length entries - Nat.min 50 (length entries) + i)%nat
    with (length entries - 50 + i)%nat by lia.
  destruct (entries !! (length entries - 50 + i)%nat) as [entry|] eqn:El.
  - exists entry. split; reflexivity.
  - apply lookup_ge_None in El. lia.
Qed.

End Events.

Section Bytecode.

Variable lib : web3.
Variable w : world.

Lemma append_assoc (a b c : string) : (a +:+ b) +:+ c = a +:+ (b +:+ c).
Proof.
  induction a as [|x a IH]; [reflexivity|].
  rewrite !append_cons, IH. reflexivity.
Qed.

(** The two digits of every byte of the code occur in its rendering. *)
Lemma byte_hex_occurs (x : byte) (code : list byte) :
  In x code -> substring (byte_hex x) (hexbytes_hex code).
Proof.
  intros Hin. unfold hexbytes_hex.
  assert (H : exists pre post, bytes_hex code = pre +:+ byte_hex x +:+ post).
  { induction code as [|b code IH]; [destruct Hin|].
    change (bytes_hex (b :: code)) with (byte_hex b +:+ bytes_hex code).
    destruct Hin as [-> | Hin].
    - exists EmptyString, (bytes_hex code). reflexivity.
    - destruct (IH Hin) as [pre [post E]]. exists (byte_hex b +:+ pre), post.
      rewrite E, append_assoc. reflexivity. }
  destruct H as [pre [post E]]. exists ("0x" +:+ pre), post.
  rewrite E, append_assoc. reflexivity.
Qed.

(** The size the scan reports is the number of bytes of the code plus one
    (the prefix of the hex string is counted), so the SIZE_LIMIT warning
    is given exactly from 24576 bytes on. *)
Theorem reported_size_counts_prefix (a chain url ca : string) (code : list byte)
    (sent : list rpc) :
  assoc_get chain providers = Some url ->
  node_connected (node_at w url) = Ok true ->
  to_checksum_address lib a = Ok ca ->
  node_get_code (node_at w url) ca = Ok code ->
  code <> [] ->
  exists v,
    fst (check_vulnerabilities lib w a chain sent) = Ok v
    /\ field "bytecode_size" v = Some (JInt (Z.of_nat (length code) + 1))
    /\ (has_finding "LOW" "SIZE_LIMIT" (findings v) <-> 24576 <= Z.of_nat (length code)).
Proof.
  intros Hp Hc Ha Hg Hne.
  rewrite (MonitorProps.check_vulnerabilities_run lib w a chain url ca code sent Hp Hc Ha Hg).
  destruct (String.eqb (hexbytes_hex code) "0x") eqn:E.
  { apply hexbytes_hex_empty in E. contradiction. }
  eexists. split; [reflexivity|]. split.
  - simpl field. do 2 f_equal. unfold bytecode_size_of.
    rewrite length_hexbytes_hex.
    replace (Z.of_nat (2 + 2 * length code)) with (1 * 2 + Z.of_nat (length code) * 2) by lia.
    rewrite Z.div_add by lia. change (1 * 2 / 2) with 1. lia.
  - unfold findings. simpl field. apply MonitorProps.size_warning_threshold.
Qed.

(** A code that holds the byte [0xff] is always reported with the
    SELFDESTRUCT finding, and one that holds [0xf4] with the DELEGATECALL
    finding: the substring scan never misses an opcode byte. *)
Theorem opcode_bytes_always_flagged (a chain url ca : string) (code : list byte)
    (sent : list rpc) :
  assoc_get chain providers = Some url ->
  node_connected (node_at w url) = Ok true ->
  to_checksum_address lib a = Ok ca ->
  node_get_code (node_at w url) ca = Ok code ->
  exists v,
    fst (check_vulnerabilities lib w a chain sent) = Ok v
    /\ (In xff%byte code -> has_finding "HIGH" "SELFDESTRUCT" (findings v))
    /\ (In xf4%byte code -> has_finding "MEDIUM" "DELEGATECALL" (findings v)).
Proof.
  intros Hp Hc Ha Hg.
  rewrite (MonitorProps.check_vulnerabilities_run lib w a chain url ca code sent Hp Hc Ha Hg).
  destruct (String.eqb (hexbytes_hex code) "0x") eqn:E.
  { apply hexbytes_hex_empty in E. subst code.
    eexists. split; [reflexivity|]. split; intros []. }
  eexists. split; [reflexivity|]. unfold findings. simpl field.
  split; intros Hin.
  - apply MonitorProps.selfdestruct_iff, str_contains_spec.
    exact (byte_hex_occurs xff%byte code Hin).
  - apply MonitorProps.delegatecall_iff, str_contains_spec.
    exact (byte_hex_occurs xf4%byte code Hin).
Qed.

End Bytecode.

(** The converse fails: the digits may straddle two bytes.  The code
    [0x0f 0xf0] holds no byte [0xff] and is flagged all the same. *)
Example flagged_without_the_byte :
  ~ In xff%byte [x0f; xf0]%byte
  /\ exists v,
       fst (check_vulnerabilities Sample.lib (Sample.world 3 [x0f; xf0]%byte)
              Sample.alice "scroll" []) = Ok v
       /\ has_finding "HIGH" "SELFDESTRUCT" (findings v).
Proof.
  split.
  - intros [H | [H | []]]; discriminate H.
  - eexists. split; [vm_compute; reflexivity|].
    exists selfdestruct_finding. split; [left; reflexivity | split; reflexivity].
Qed.

Section Matches.

Variable lib : web3.
Variable w : world.
Variables (url address : string) (n : Z).

(** What the inner loop returns: the records it was given, followed by
    the records of the touching transactions, cut at the quota. *)
Lemma scan_transactions_records (b : Z) (txs : list tx) (found found' : list json)
    (sent : list rpc) :
  Z.of_nat (length found) < n ->
  fst (scan_transactions lib address n b txs found sent) = Ok found' ->
  map Ok found'
  = take (Z.to_nat n)
      (map Ok found
       ++ map (tx_record lib address b)
            (filter (fun t => touches address t = true) txs)).
Proof.
  revert found. induction txs as [|t txs IH]; intros found Hlt; simpl.
  - intros [= <-]. rewrite app_nil_r, take_ge; [reflexivity|].
    rewrite length_map. lia.
  - rewrite filter_cons. destruct (touches address t) eqn:T.
    + destruct (decide (true = true)) as [_|F]; [|congruence].
      unfold bind, lift. simpl map.
      destruct (tx_record lib address b t) as [e|entry]; [discriminate|].
      destruct (Z.of_nat (length (found ++ [entry])) >=? n) eqn:G.
      * intros [= <-]. rewrite Z.geb_leb in G. apply Z.leb_le in G.
        rewrite length_app in G. simpl in G.
        rewrite map_app. simpl map.
        set (R := map (tx_record lib address b) _).
        change (Ok entry :: R) with ([Ok entry] ++ R). rewrite app_assoc.
        rewrite take_app_length'; [reflexivity|].
        rewrite length_app, length_map. simpl. lia.
      * intros H. rewrite Z.geb_leb in G. apply Z.leb_gt in G.
        rewrite (IH (found ++ [entry]) G H).
        rewrite map_app. simpl map. rewrite <- app_assoc. reflexivity.
    + destruct (decide (false = true)) as [F|_]; [discriminate|].
      apply IH. exact Hlt.
Qed.

(** The outer loop likewise, over the blocks it fetched. *)
Lemma scan_blocks_records (blocks : list Z) (found found' : list json)
    (sent : list rpc) :
  Z.of_nat (length found) < n ->
  fst (scan_blocks lib w url address n blocks found sent) = Ok found' ->
  exists k : nat,
    examined (snd (scan_blocks lib w url address n blocks found sent))
    = examined sent ++ take k blocks
    /\ map Ok found'
       = take (Z.to_nat n)
           (map Ok found
            ++ flat_map (records_in lib (node_at w url) address) (take k blocks)).
Proof.
  revert found sent. induction blocks as [|b blocks IH]; intros found sent Hlt.
  - simpl. intros [= <-]. exists 0%nat. simpl. rewrite !app_nil_r.
    split; [reflexivity|]. rewrite take_ge; [reflexivity|].
    rewrite length_map. lia.
  - simpl scan_blocks. unfold bind at 1. unfold get_block, call.
    destruct (node_get_block (node_at w url) b) as [e|blk] eqn:Hb; [discriminate|].
    unfold bind.
    pose proof (MonitorProps.scan_transactions_state lib address n b
                  (transactions blk) found
                  (sent ++ [eth_getBlockByNumber url b])) as Hst.
    pose proof (scan_transactions_records b (transactions blk) found) as Hrec.
    destruct (scan_transactions lib address n b (transactions blk) found
                (sent ++ [eth_getBlockByNumber url b])) as [[e|found1] sent1] eqn:Hs;
      [discriminate|].
    simpl in Hst. subst sent1.
    specialize (Hrec found1 (sent ++ [eth_getBlockByNumber url b]) Hlt).
    rewrite Hs in Hrec. specialize (Hrec eq_refl).
    assert (HR : records_in lib (node_at w url) address b
                 = map (tx_record lib address b)
                     (filter (fun t => touches address t = true) (transactions blk))).
    { unfold records_in. rewrite Hb. reflexivity. }
    rewrite <- HR in Hrec.
    destruct (Z.of_nat (length found1) >=? n) eqn:G.
    + intros [= <-]. exists 1%nat. simpl fst. simpl snd.
      rewrite MonitorProps.examined_app. simpl. rewrite app_nil_r.
      split; [reflexivity | exact Hrec].
    + rewrite Z.geb_leb in G. apply Z.leb_gt in G. intros H.
      destruct (IH found1 (sent ++ [eth_getBlockByNumber url b]) G H) as [k [Hex Hk]].
      exists (S k). split.
      { rewrite Hex, MonitorProps.examined_app. simpl.
        rewrite <- app_assoc. reflexivity. }
      assert (Hfull : map Ok found1
                      = map Ok found ++ records_in lib (node_at w url) address b).
      { rewrite Hrec. apply take_ge.
        apply (f_equal (@length _)) in Hrec.
        rewrite length_map, length_take in Hrec. lia. }
      rewrite Hk, Hfull. simpl take. simpl flat_map.
      rewrite <- app_assoc. reflexivity.
Qed.

End Matches.

Section FirstMatches.

Variable lib : web3.
Variable w : world.

(** For a count of one or more, the transactions returned are the first
    [tx_count] records of the transactions touching the address, taken
    block by block from the head downwards over the blocks fetched, and
    within a block in the order of the block. *)
Theorem first_matches_returned (a chain url ca : string) (n : Z) (sent : list rpc)
    (v : json) (txs : list json) :
  1 <= n ->
  assoc_get chain providers = Some url ->
  to_checksum_address lib a = Ok ca ->
  fst (track_transactions lib w a chain n sent) = Ok v ->
  field "recent_transactions" v = Some (JList txs) ->
  exists bs,
    examined (snd (track_transactions lib w a chain n sent)) = examined sent ++ bs
    /\ map Ok txs
       = take (Z.to_nat n) (flat_map (records_in lib (node_at w url) ca) bs).
Proof.
  intros Hn Hp Ha. rewrite MonitorProps.track_transactions_run, Hp, Ha.
  destruct (node_connected (node_at w url)) as [e|[|]];
    [intros [= <-] H; discriminate H | | intros [= <-] H; discriminate H].
  cbv zeta.
  destruct (node_get_transaction_count (node_at w url) ca) as [e|nonce];
    [intros [= <-] H; discriminate H|].
  destruct (node_get_balance (node_at w url) ca) as [e|bw];
    [intros [= <-] H; discriminate H|].
  destruct (from_wei lib bw "ether") as [e|be]; [intros [= <-] H; discriminate H|].
  destruct (node_block_number (node_at w url)) as [e|head];
    [intros [= <-] H; discriminate H|].
  set (s3 := ((sent ++ [web3_clientVersion url; eth_getTransactionCount url ca])
              ++ [eth_getBalance url ca]) ++ [eth_blockNumber url]).
  assert (Hs3 : examined s3 = examined sent).
  { unfold s3. rewrite !MonitorProps.examined_app. simpl. rewrite !app_nil_r.
    reflexivity. }
  pose proof (scan_blocks_records lib w url ca n
                (range_down head (Z.max (head - 100) 0)) [] ) as Hrec.
  destruct (scan_blocks lib w url ca n (range_down head (Z.max (head - 100) 0)) [] s3)
    as [[e|found] sent'] eqn:Hscan; [intros [= <-] H; discriminate H|].
  intros [= <-] H. simpl in H. injection H as <-.
  specialize (Hrec found s3 ltac:(simpl; lia)). rewrite Hscan in Hrec.
  destruct (Hrec eq_refl) as [k [Hex Hk]]. simpl in Hex, Hk.
  exists (take k (range_down head (Z.max (head - 100) 0))).
  simpl snd. rewrite Hex, Hs3. split; [reflexivity|].
  rewrite <- Hk. f_equal. unfold slice_to.
  destruct (0 <=? n) eqn:E; [|apply Z.leb_gt in E; lia].
  apply take_ge. apply (f_equal (@length _)) in Hk.
  rewrite length_map, length_take in Hk. lia.
Qed.

End FirstMatches.

End MonitorExtra.

(* ===================================================================== *)
(** ** Further properties of the aggregator                               *)
(* ===================================================================== *)

Module AggregatorExtra.
Import Aggregator.
Local Open Scope list_scope.

Section Methods.

Variable w : world.

Lemma uncached_states (protocol_name chain method : string) (s : state) :
  snd (get_protocol_data w protocol_name s)
  = log_call (GET ("https://api.llama.fi/protocol/" +:+ protocol_name) []) s
  /\ snd (query_blockchain w chain method s)
     = log_call (POST (rpc_url_of chain) (rpc_payload method)) s.
Proof.
  split.
  - unfold get_protocol_data. rewrite try_except_state.
    exact (proj1 (AggregatorProps.get_protocol_data_body_run w protocol_name s)).
  - unfold query_blockchain.
    rewrite try_except_state, AggregatorProps.query_blockchain_body_run.
    reflexivity.
Qed.

(** [get_protocol_data] and [query_blockchain] never consult the cache:
    whatever the state and whatever the answer, each sends exactly one
    request, and leaves the cache and the clock alone. *)
Theorem uncached_methods_always_request (protocol_name chain method : string)
    (s : state) :
  snd (get_protocol_data w protocol_name s)
  = log_call (GET ("https://api.llama.fi/protocol/" +:+ protocol_name) []) s
  /\ snd (query_blockchain w chain method s)
     = log_call (POST (rpc_url_of chain) (rpc_payload method)) s.
Proof. apply uncached_states. Qed.

(** No invocation sends more than one request. *)
Theorem at_most_one_request (i : invocation) (s : state) :
  calls (snd (invoke w i s)) = calls s
  \/ exists req, calls (snd (invoke w i s)) = calls s ++ [req].
Proof.
  destruct i as [p | p | c m | t]; simpl invoke.
  - unfold fetch_tvl.
    rewrite try_except_state, AggregatorProps.fetch_tvl_body_run. cbv zeta.
    pose proof (AggregatorProps.looked_up_calls ("tvl_" +:+ p) s) as Hl.
    destruct (fresh w _ _ s); [left; exact Hl|]. right. eexists.
    destruct (http w _ _) as [e|r]; simpl; [now rewrite Hl|].
    destruct (status r =? 200); simpl; [|now rewrite Hl].
    destruct (body_json r); simpl; now rewrite Hl.
  - right. eexists.
    rewrite (proj1 (uncached_states p "" "" s)). reflexivity.
  - right. eexists.
    rewrite (proj2 (uncached_states "" c m s)). reflexivity.
  - unfold get_token_price.
    rewrite try_except_state, AggregatorProps.get_token_price_body_run. cbv zeta.
    pose proof (AggregatorProps.looked_up_calls ("price_" +:+ t) s) as Hl.
    destruct (fresh w _ _ s); [left; exact Hl|]. right. eexists.
    destruct (http w _ _) as [e|r]; simpl; [now rewrite Hl|].
    destruct (status r =? 200); simpl; [|now rewrite Hl].
    destruct (body_json r) as [e|d]; simpl; [now rewrite Hl|].
    destruct (token_field d t "usd"); simpl; [now rewrite Hl|].
    destruct (token_field d t "usd_24h_change"); simpl; [now rewrite Hl|].
    destruct (token_field d t "usd_market_cap"); simpl; now rewrite Hl.
Qed.

(** On a status-200 answer whose body is an object, [get_protocol_data]
    returns exactly eight fields, each the field of the same name of the
    body; a missing one is null, and a missing [chainTvls] is the empty
    object. *)
Theorem protocol_data_fields (protocol_name : string) (s : state)
    (response : http_response) (body : list (string * json)) :
  http w (length (calls s))
    (GET ("https://api.llama.fi/protocol/" +:+ protocol_name) []) = Ok response ->
  status response = 200 ->
  body_json response = Ok (JDict body) ->
  fst (get_protocol_data w protocol_name s)
  = Ok (JDict [ ("name", field_or JNull "name" body);
                ("symbol", field_or JNull "symbol" body);
                ("tvl", field_or JNull "tvl" body);
                ("chainTvls", field_or (JDict []) "chainTvls" body);
                ("change_1h", field_or JNull "change_1h" body);
                ("change_1d", field_or JNull "change_1d" body);
                ("change_7d", field_or JNull "change_7d" body);
                ("mcap", field_or JNull "mcap" body) ]).
Proof.
  intros Hh Hs Hb. unfold get_protocol_data. rewrite try_except_result.
  unfold get_protocol_data_body. cbv zeta. unfold bind, request, lift, ret.
  change (DEFILLAMA_BASE_URL +:+ "/protocol/" +:+ protocol_name)
    with ("https://api.llama.fi/protocol/" +:+ protocol_name).
  rewrite Hh, Hs, Hb. reflexivity.
Qed.

(** A status-200 body that is an object without a [result] key (the shape
    of a JSON-RPC error reply) makes ["eth_blockNumber"] report block
    number 0, with a null [result] and no [error] field. *)
Theorem missing_result_reads_as_block_zero (chain : string) (s : state)
    (response : http_response) (body : list (string * json)) :
  http w (length (calls s))
    (POST (rpc_url_of chain) (rpc_payload "eth_blockNumber")) = Ok response ->
  status response = 200 ->
  body_json response = Ok (JDict body) ->
  assoc_get "result" body = None ->
  fst (query_blockchain w chain "eth_blockNumber" s)
  = Ok (JDict [ ("chain", JStr chain); ("method", JStr "eth_blockNumber");
                ("result", JNull); ("block_number", JInt 0) ]).
Proof.
  intros Hh Hs Hb Hr. unfold query_blockchain.
  rewrite try_except_result, AggregatorProps.query_blockchain_body_run.
  cbv zeta. simpl fst. rewrite Hh, Hs, Hb. unfold py_get. rewrite Hr. reflexivity.
Qed.

(** When the [result] of the body is present but is not a string (null, a
    number, ...), ["eth_blockNumber"] gives the error object of the
    [except] clause, with the chain echoed. *)
Theorem non_string_result_is_an_error (chain : string) (s : state)
    (response : http_response) (body : list (string * json)) (r : json) :
  http w (length (calls s))
    (POST (rpc_url_of chain) (rpc_payload "eth_blockNumber")) = Ok response ->
  status response = 200 ->
  body_json response = Ok (JDict body) ->
  assoc_get "result" body = Some r ->
  is_str r = false ->
  fst (query_blockchain w chain "eth_blockNumber" s)
  = Ok (JDict [ ("error", JStr "int() can't convert non-string with explicit base");
                ("chain", JStr chain) ]).
Proof.
  intros Hh Hs Hb Hr Hn. unfold query_blockchain.
  rewrite try_except_result, AggregatorProps.query_blockchain_body_run.
  cbv zeta. simpl fst. rewrite Hh, Hs, Hb. unfold py_get. rewrite Hr.
  destruct r; try discriminate Hn; reflexivity.
Qed.

(** A token the price service does not know (a status-200 object without
    the token's key) is no error: the three figures are null, and this
    record is written to the cache like any other. *)
Theorem unknown_token_nulls_are_cached (token_id : string) (s : state)
    (response : http_response) (body : list (string * json)) :
  fresh w ("price_" +:+ token_id) 300 s = None ->
  http w (length (calls s))
    (GET ("https://api.coingecko.com/api/v3/simple/price") (price_params token_id))
  = Ok response ->
  status response = 200 ->
  body_json response = Ok (JDict body) ->
  assoc_get token_id body = None ->
  exists stamp t,
    let result := JDict [ ("token", JStr token_id); ("price_usd", JNull);
                          ("change_24h", JNull); ("market_cap", JNull);
                          ("timestamp", JStr stamp) ] in
    fst (get_token_price w token_id s) = Ok result
    /\ field "error" result = None
    /\ cache (snd (get_token_price w token_id s)) !! ("price_" +:+ token_id)
       = Some (t, result).
Proof.
  intros Hf Hh Hs Hb Hk.
  assert (Ht : forall k, token_field (JDict body) token_id k = Ok JNull).
  { intros k. unfold token_field, py_get. rewrite Hk. reflexivity. }
  rewrite (AggregatorProps.get_token_price_stored w token_id s response (JDict body)
             JNull JNull JNull Hf Hh Hs Hb (Ht _) (Ht _) (Ht _)).
  cbv zeta. eexists _, _. split; [reflexivity|]. split; [reflexivity|].
  simpl. apply lookup_insert_eq.
Qed.

(** An invocation leaves every cache entry but that of its own key as it
    was: TVL data and prices never overwrite each other, nor the entries of
    other protocols or tokens. *)
Theorem other_keys_untouched (i : invocation) (s : state) (key : string) :
  cache_key_of i <> Some key ->
  cache (snd (invoke w i s)) !! key = cache s !! key.
Proof.
  intros Hk. destruct (AggregatorProps.invoke_step w i s) as [_ [_ [H | H]]].
  - rewrite H. reflexivity.
  - destruct H as [key' [t [v [req [resp [Hk' [_ [_ [_ [_ [_ [Hc _]]]]]]]]]]]].
    rewrite Hc. apply lookup_insert_ne. congruence.
Qed.

(** Nothing is ever evicted: a key present in the cache is still present
    after any sequence of invocations. *)
Theorem keys_never_removed (invs : list invocation) (s : state) (key : string) :
  is_Some (cache s !! key) ->
  is_Some (cache (run_all w invs s) !! key).
Proof.
  revert s. induction invs as [|i invs IH]; intros s Hs; simpl; [exact Hs|].
  apply IH. destruct (AggregatorProps.invoke_step w i s) as [_ [_ [H | H]]].
  - rewrite H. exact Hs.
  - destruct H as [key' [t [v [req [resp [_ [_ [_ [_ [_ [_ [Hc _]]]]]]]]]]]].
    rewrite Hc. destruct (decide (key' = key)) as [->|Hne].
    + rewrite lookup_insert_eq. eexists. reflexivity.
    + rewrite lookup_insert_ne by exact Hne. exact Hs.
Qed.

(** Whole days do not age an entry: an entry whose age is any number of
    days plus less than the window is served from the cache without a
    request, by [fetch_tvl] (window of an hour) and by [get_token_price]
    (window of five minutes) alike. *)
Theorem whole_days_do_not_age (protocol token_id : string) (s : state)
    (t0 age days : Z) (d : json) :
  clock w (reads s) - t0 = age + days * (86400 * 1000000) ->
  (cache s !! ("tvl_" +:+ protocol) = Some (t0, d) ->
   0 <= age < 3600 * 1000000 ->
   fetch_tvl w protocol s = (Ok d, tick s))
  /\ (cache s !! ("price_" +:+ token_id) = Some (t0, d) ->
      0 <= age < 300 * 1000000 ->
      get_token_price w token_id s = (Ok d, tick s)).
Proof.
  intros Hage. split; intros Hc Ha.
  - apply (AggregatorProps.fetch_tvl_served w protocol s t0 d Hc).
    rewrite Hage, AggregatorProps.days_unnoticed.
    apply AggregatorProps.within_window; lia.
  - apply (AggregatorProps.get_token_price_served w token_id s t0 d Hc).
    rewrite Hage, AggregatorProps.days_unnoticed.
    apply AggregatorProps.within_window; lia.
Qed.

(** When the refresh of a stale entry is answered with a status other than
    200, [fetch_tvl] returns the error object, not the stale data, and the
    stale entry stays in the cache. *)
Theorem failed_refresh_keeps_stale_entry (protocol : string) (s : state)
    (t0 : Z) (d : json) (response : http_response) :
  cache s !! ("tvl_" +:+ protocol) = Some (t0, d) ->
  3600 <= timedelta_seconds (clock w (reads s) - t0) ->
  http w (length (calls s)) (GET (tvl_url protocol) []) = Ok response ->
  status response <> 200 ->
  fetch_tvl w protocol s
  = (Ok (JDict [ ("error", JStr ("HTTP " +:+ str_int (status response)));
                 ("protocol", JStr protocol) ]),
     log_call (GET (tvl_url protocol) []) (tick s))
  /\ cache (snd (fetch_tvl w protocol s)) !! ("tvl_" +:+ protocol) = Some (t0, d).
Proof.
  intros Hc Ht Hh Hs.
  assert (E : fetch_tvl w protocol s
              = (Ok (JDict [ ("error", JStr ("HTTP " +:+ str_int (status response)));
                             ("protocol", JStr protocol) ]),
                 log_call (GET (tvl_url protocol) []) (tick s))).
  { unfold fetch_tvl. rewrite try_except_ret, AggregatorProps.fetch_tvl_body_run.
    cbv zeta. unfold fresh, looked_up. rewrite Hc.
    apply Z.ltb_ge in Ht. rewrite Ht. simpl calls. rewrite Hh.
    apply Z.eqb_neq in Hs. rewrite Hs. reflexivity. }
  rewrite E. split; [reflexivity | exact Hc].
Qed.

End Methods.

End AggregatorExtra.

(* ===================================================================== *)
(** ** The servers: list_tools and call_tool                              *)
(* ===================================================================== *)

Module ServerExtra.
Local Open Scope list_scope.

Section MonitorServer.

Variable lib : Monitor.web3.
Variable w : Monitor.world.
Variable dumps : json -> option Z -> string.

Local Abbreviation call_tool := (Monitor.call_tool lib w dumps).

(** A tool that is advertised and called with the argument its schema
    requires runs the method it names, on the required argument as given
    and on the other arguments as given or, when absent, at their
    defaults ("polygon-zkevm", "Transfer", 10; an absent [from_block]
    stays absent): the answer is the one text content holding the dump,
    indented by 2, of the object that method returns; the requests sent are
    those of the method, and nothing is raised. *)
Theorem monitor_call_tool_answers (name : string) (a : Monitor.arguments)
    (sent : list Monitor.rpc) :
  In name (map Mcp.name Monitor.list_tools) ->
  monitor_has_required name a = true ->
  exists i v sent',
    monitor_invocation_of name a = Some i
    /\ Monitor.invoke lib w i sent = (Ok v, sent')
    /\ is_dict v = true
    /\ call_tool name a sent
       = (Ok [ {| Mcp.type := "text"; Mcp.text := dumps v (Some 2) |} ], sent').
Proof.
  intros Hin Hreq.
  rewrite (ServerProps.monitor_call_tool_run lib w dumps name a sent Hreq).
  assert (Hi : exists i, monitor_invocation_of name a = Some i).
  { simpl in Hin.
    destruct Hin as [<- | [<- | [<- | []]]]; unfold monitor_invocation_of;
      decide_names.
    - destruct (Monitor.arg_contract_address a) eqn:Ec;
        [eexists; reflexivity | required_in Hreq Ec].
    - destruct (Monitor.arg_contract_address a) eqn:Ec;
        [eexists; reflexivity | required_in Hreq Ec].
    - destruct (Monitor.arg_address a) eqn:Ec;
        [eexists; reflexivity | required_in Hreq Ec]. }
  destruct Hi as [i Hi]. rewrite Hi.
  destruct (MonitorProps.monitor_invoke_dict lib w i sent) as [v [Hv Hd]].
  destruct (Monitor.invoke lib w i sent) as [r sent'] eqn:E. simpl in Hv. subst r.
  exists i, v, sent'. conjs; [reflexivity | exact E | exact Hd | reflexivity].
Qed.

(** A tool that is advertised but called without the argument its schema
    requires is not answered with an error object: reading the argument
    raises [KeyError] out of [call_tool], before anything is sent. *)
Theorem monitor_missing_argument_raises (name : string) (a : Monitor.arguments)
    (sent : list Monitor.rpc) :
  In name (map Mcp.name Monitor.list_tools) ->
  monitor_has_required name a = false ->
  exists key,
    In (JStr key) (schema_required Monitor.list_tools name)
    /\ call_tool name a sent = (Raise (Exception ("'" +:+ key +:+ "'")), sent).
Proof.
  intros Hin Hreq. simpl in Hin.
  destruct Hin as [<- | [<- | [<- | []]]]; unfold Monitor.call_tool;
    decide_names.
  - exists "contract_address". split; [left; reflexivity|].
    destruct (Monitor.arg_contract_address a) eqn:Ec;
      [required_in Hreq Ec | reflexivity].
  - exists "contract_address". split; [left; reflexivity|].
    destruct (Monitor.arg_contract_address a) eqn:Ec;
      [required_in Hreq Ec | reflexivity].
  - exists "address". split; [left; reflexivity|].
    destruct (Monitor.arg_address a) eqn:Ec;
      [required_in Hreq Ec | reflexivity].
Qed.

(** The defaults the schemas advertise are the ones [call_tool] applies:
    a call behaves as the same call with every absent argument that has an
    advertised default set to that default. *)
Theorem monitor_defaults_as_advertised (name : string) (a : Monitor.arguments) :
  call_tool name a = call_tool name (monitor_with_defaults name a).
Proof.
  unfold Monitor.call_tool.
  destruct (String.eqb name "monitor_events") eqn:E1.
  { apply String.eqb_eq in E1. subst name.
    destruct a as [ca ad ch ev fb tc]; destruct ca, ch, ev, fb; reflexivity. }
  destruct (String.eqb name "check_vulnerabilities") eqn:E2.
  { apply String.eqb_eq in E2. subst name.
    destruct a as [ca ad ch ev fb tc]; destruct ca, ch; reflexivity. }
  destruct (String.eqb name "track_transactions") eqn:E3.
  { apply String.eqb_eq in E3. subst name.
    destruct a as [ca ad ch ev fb tc]; destruct ad, ch, tc; reflexivity. }
  reflexivity.
Qed.

End MonitorServer.

Section AggregatorServer.

Variable w : Aggregator.world.
Variable dumps : json -> option Z -> string.

Local Abbreviation call_tool := (Aggregator.call_tool w dumps).
Local Abbreviation serve := (Aggregator.serve w dumps).

(** What a call does to the server, whatever the tool and the arguments:
    it returns one text content and raises nothing; it creates one session
    and closes that session before it returns; and the aggregator object
    is left as the method the call amounts to leaves it, untouched when the
    call reaches no method. *)
Theorem aggregator_call_tool_step (name : string) (a : Aggregator.arguments)
    (sv : Aggregator.server) :
  exists content,
    call_tool name a sv
    = (Ok [content],
       {| Aggregator.self_state :=
            match aggregator_invocation_of name a with
            | Some i => snd (Aggregator.invoke w i (Aggregator.self_state sv))
            | None => Aggregator.self_state sv
            end;
          Aggregator.session := Some (Aggregator.opened sv);
          Aggregator.opened := S (Aggregator.opened sv);
          Aggregator.closed := Aggregator.opened sv :: Aggregator.closed sv |})
    /\ Mcp.type content = "text".
Proof. apply ServerProps.call_tool_run. Qed.

(** The per-call session does not reset the aggregator: after a sequence
    of calls the object, cache included, is in the state the methods
    reached by those calls leave it in, one after the other; so an entry
    cached by one call is there for the next. *)
Theorem cache_survives_the_sessions (reqs : list (string * Aggregator.arguments))
    (sv : Aggregator.server) :
  Aggregator.self_state (serve reqs sv)
  = Aggregator.run_all w (aggregator_invocations reqs) (Aggregator.self_state sv).
Proof. apply ServerProps.serve_state. Qed.

(** Every call opens one session and closes it: after any sequence of
    calls from the start, as many sessions were created as calls were made,
    and each of them was closed, once, in the order of the calls. *)
Theorem every_session_is_closed (reqs : list (string * Aggregator.arguments)) :
  Aggregator.opened (serve reqs Aggregator.start) = length reqs
  /\ Aggregator.closed (serve reqs Aggregator.start) = rev (seq 0 (length reqs)).
Proof.
  assert (H : forall sv,
            Aggregator.opened (serve reqs sv) = (Aggregator.opened sv + length reqs)%nat
            /\ Aggregator.closed (serve reqs sv)
               = rev (seq (Aggregator.opened sv) (length reqs)) ++ Aggregator.closed sv).
  { induction reqs as [|[name a] reqs IH]; intros sv.
    - simpl. split; [lia | reflexivity].
    - simpl Aggregator.serve.
      destruct (ServerProps.call_tool_run w dumps name a sv) as [content [E _]].
      rewrite E. simpl snd. destruct (IH {|
        Aggregator.self_state :=
          match aggregator_invocation_of name a with
          | Some i => snd (Aggregator.invoke w i (Aggregator.self_state sv))
          | None => Aggregator.self_state sv
          end;
        Aggregator.session := Some (Aggregator.opened sv);
        Aggregator.opened := S (Aggregator.opened sv);
        Aggregator.closed := Aggregator.opened sv :: Aggregator.closed sv |})
        as [H1 H2].
      rewrite H1, H2. simpl. split; [lia|].
      rewrite <- app_assoc. reflexivity. }
  destruct (H Aggregator.start) as [H1 H2]. rewrite H1, H2. simpl.
  rewrite app_nil_r. split; reflexivity.
Qed.

(** [get_protocol_data] called without [protocol_name], or with the empty
    string for it, is answered with the error "protocol_name required"
    (dumped without indentation); no request is sent and the aggregator
    object is left untouched. *)
Theorem missing_protocol_name_is_refused (a : Aggregator.arguments)
    (sv : Aggregator.server) :
  Aggregator.arg_protocol_name a = None
  \/ Aggregator.arg_protocol_name a = Some EmptyString ->
  fst (call_tool "get_protocol_data" a sv)
  = Ok [ {| Mcp.type := "text";
            Mcp.text := dumps (JDict [("error", JStr "protocol_name required")]) None |} ]
  /\ Aggregator.self_state (snd (call_tool "get_protocol_data" a sv))
     = Aggregator.self_state sv.
Proof.
  intros H. unfold Aggregator.call_tool, Aggregator.async_with.
  decide_names. cbv zeta. unfold Aggregator.falsy.
  destruct H as [-> | ->]; split; reflexivity.
Qed.

(** The defaults the schemas advertise are the ones [call_tool] applies. *)
Theorem aggregator_defaults_as_advertised (name : string) (a : Aggregator.arguments) :
  call_tool name a = call_tool name (aggregator_with_defaults name a).
Proof.
  unfold Aggregator.call_tool.
  destruct (String.eqb name "fetch_tvl") eqn:E1.
  { apply String.eqb_eq in E1. subst name.
    destruct a as [p pn c m t]; destruct p; reflexivity. }
  destruct (String.eqb name "get_protocol_data") eqn:E2.
  { apply String.eqb_eq in E2. subst name.
    destruct a as [p pn c m t]; destruct pn; reflexivity. }
  destruct (String.eqb name "query_blockchain") eqn:E3.
  { apply String.eqb_eq in E3. subst name.
    destruct a as [p pn c m t]; destruct c, m; reflexivity. }
  destruct (String.eqb name "get_token_price") eqn:E4.
  { apply String.eqb_eq in E4. subst name.
    destruct a as [p pn c m t]; destruct t; reflexivity. }
  reflexivity.
Qed.

End AggregatorServer.

Section BothServers.

Variable lib : Monitor.web3.
Variable mw : Monitor.world.
Variable aw : Aggregator.world.
Variable dumps : json -> option Z -> string.

Ltac names_differ H :=
  repeat match goal with
         | |- context [String.eqb ?name ?lit] =>
             let E := fresh "E" in
             assert (E : String.eqb name lit = false)
               by (apply String.eqb_neq; intros ->; apply H; simpl; tauto);
             rewrite E; clear E
         end.

(** A tool name that the server does not advertise is answered with the
    error "Unknown tool: " and the name, dumped without indentation; no
    request is sent, on either server, though the aggregator opens and
    closes a session for it. *)
Theorem unadvertised_tool_is_refused (name : string) :
  (~ In name (map Mcp.name Monitor.list_tools) ->
   forall a sent,
     Monitor.call_tool lib mw dumps name a sent
     = (Ok [ {| Mcp.type := "text";
                Mcp.text := dumps (JDict [("error", JStr ("Unknown tool: " +:+ name))])
                              None |} ], sent))
  /\ (~ In name (map Mcp.name Aggregator.list_tools) ->
      forall a sv,
        fst (Aggregator.call_tool aw dumps name a sv)
        = Ok [ {| Mcp.type := "text";
                  Mcp.text := dumps (JDict [("error", JStr ("Unknown tool: " +:+ name))])
                                None |} ]
        /\ Aggregator.self_state (snd (Aggregator.call_tool aw dumps name a sv))
           = Aggregator.self_state sv
        /\ Aggregator.closed (snd (Aggregator.call_tool aw dumps name a sv))
           = Aggregator.opened sv :: Aggregator.closed sv).
Proof.
  split; intros H.
  - intros a sent. unfold Monitor.call_tool. names_differ H. reflexivity.
  - intros a sv. unfold Aggregator.call_tool, Aggregator.async_with.
    names_differ H. conjs; reflexivity.
Qed.

End BothServers.

(** The choices the schemas advertise are the ones the code knows: the
    chains offered by every tool are the keys of the provider table (of
    the endpoint table for the aggregator), and the event names offered
    are "Transfer" and "Staked", the two [monitor_events] accepts. *)
Theorem advertised_choices_match_code (c : string) :
  (forall tool,
     In tool (map Mcp.name Monitor.list_tools) ->
     (In (JStr c) (schema_enum Monitor.list_tools tool "chain")
      <-> assoc_get c Monitor.providers <> None))
  /\ (In (JStr c) (schema_enum Aggregator.list_tools "query_blockchain" "chain")
      <-> assoc_get c Aggregator.rpc_urls <> None)
  /\ (In (JStr c) (schema_enum Monitor.list_tools "monitor_events" "event_name")
      <-> c = "Transfer" \/ c = "Staked").
Proof.
  assert (Hchain : In (JStr c) [JStr "polygon-zkevm"; JStr "scroll"; JStr "zksync"]
                   <-> assoc_get c Monitor.providers <> None).
  { unfold Monitor.providers, assoc_get. simpl In. split.
    - intros [[= <-] | [[= <-] | [[= <-] | []]]]; discriminate.
    - intros H.
      destruct (String.eqb c "polygon-zkevm") eqn:E1;
        [apply String.eqb_eq in E1; subst; tauto|].
      destruct (String.eqb c "scroll") eqn:E2;
        [apply String.eqb_eq in E2; subst; tauto|].
      destruct (String.eqb c "zksync") eqn:E3;
        [apply String.eqb_eq in E3; subst; tauto|].
      contradiction. }
  split; [|split].
  - intros tool Hin. simpl in Hin.
    destruct Hin as [<- | [<- | [<- | []]]]; exact Hchain.
  - exact Hchain.
  - change (schema_enum Monitor.list_tools "monitor_events" "event_name")
      with [JStr "Transfer"; JStr "Staked"].
    simpl In. split.
    + intros [[= <-] | [[= <-] | []]]; tauto.
    + intros [-> | ->]; tauto.
Qed.

End ServerExtra.

(* ===================================================================== *)
(** ** The further properties on concrete inputs                          *)
(* ===================================================================== *)

Module Witnesses.
Import Monitor.
Local Open Scope list_scope.

Lemma unsupported_chain_witness :
  monitor_events Sample.lib (Sample.world 3 []) Sample.alice "solana" "Transfer" None []
  = (Ok (JDict [("error", JStr ("Unsupported chain: " +:+ "solana"))]), [])
  /\ check_vulnerabilities Sample.lib (Sample.world 3 []) Sample.alice "solana" []
     = (Ok (JDict [("error", JStr ("Connection failed to " +:+ "solana"))]), [])
  /\ track_transactions Sample.lib (Sample.world 3 []) Sample.alice "solana" 10 []
     = (Ok (JDict [("error", JStr ("Connection failed to " +:+ "solana"))]), []).
Proof.
  apply (MonitorExtra.unsupported_chain_sends_nothing Sample.lib (Sample.world 3 [])
           Sample.alice "solana" "Transfer" None 10 []); discriminate.
Defined.

Lemma unknown_event_witness :
  monitor_events Sample.lib (Sample.world 3 []) Sample.alice "scroll" "Approval" None []
  = (Ok (JDict [("error", JStr ("Unknown event: " +:+ "Approval"))]),
     [] ++ [web3_clientVersion "https://rpc.scroll.io";
            eth_blockNumber "https://rpc.scroll.io"]).
Proof.
  apply (MonitorExtra.unknown_event_after_block_number Sample.lib (Sample.world 3 [])
           Sample.alice "scroll" "Approval" "https://rpc.scroll.io" Sample.alice
           None 3 []); try reflexivity; discriminate.
Defined.

Lemma events_capped_witness :
  exists v evs,
    fst (monitor_events Sample.lib Sample.busy_world Sample.alice "zksync" "Staked"
           (Some 0) []) = Ok v
    /\ field "events_count" v = Some (JInt (Z.of_nat (length (map Sample.log_at (seq 0 60)))))
    /\ field "to_block" v = Some (JInt 5000)
    /\ field "events" v = Some (JList evs)
    /\ length evs = Nat.min 50 (length (map Sample.log_at (seq 0 60)))
    /\ (forall i, (i < length evs)%nat ->
          exists entry,
            map Sample.log_at (seq 0 60)
              !! (length (map Sample.log_at (seq 0 60)) - length evs + i)%nat = Some entry
            /\ evs !! i = Some (event_record Sample.busy_world i entry)).
Proof.
  apply (MonitorExtra.events_capped_at_50 Sample.lib Sample.busy_world Sample.alice
           "zksync" "Staked" "https://mainnet.era.zksync.io" Sample.alice (Some 0)
           5000 1 (map Sample.log_at (seq 0 60)) []); try reflexivity.
  right. reflexivity.
Defined.

Lemma reported_size_witness :
  exists v,
    fst (check_vulnerabilities Sample.lib (Sample.world 3 [xff; xf4]%byte)
           Sample.alice "scroll" []) = Ok v
    /\ field "bytecode_size" v = Some (JInt (Z.of_nat (length [xff; xf4]%byte) + 1))
    /\ (has_finding "LOW" "SIZE_LIMIT" (findings v)
        <-> 24576 <= Z.of_nat (length [xff; xf4]%byte)).
Proof.
  apply (MonitorExtra.reported_size_counts_prefix Sample.lib
           (Sample.world 3 [xff; xf4]%byte) Sample.alice "scroll"
           "https://rpc.scroll.io" Sample.alice [xff; xf4]%byte []); try reflexivity.
  discriminate.
Defined.

Lemma opcode_bytes_witness :
  exists v,
    fst (check_vulnerabilities Sample.lib (Sample.world 3 [x60; xff; xf4]%byte)
           Sample.alice "scroll" []) = Ok v
    /\ (In xff%byte [x60; xff; xf4]%byte -> has_finding "HIGH" "SELFDESTRUCT" (findings v))
    /\ (In xf4%byte [x60; xff; xf4]%byte -> has_finding "MEDIUM" "DELEGATECALL" (findings v)).
Proof.
  apply (MonitorExtra.opcode_bytes_always_flagged Sample.lib
           (Sample.world 3 [x60; xff; xf4]%byte) Sample.alice "scroll"
           "https://rpc.scroll.io" Sample.alice [x60; xff; xf4]%byte []); reflexivity.
Defined.

Lemma first_matches_witness :
  exists bs,
    examined (snd (track_transactions Sample.lib (Sample.world 3 []) Sample.alice
                     "polygon-zkevm" 2 [])) = examined [] ++ bs
    /\ map Ok
         [ JDict [ ("hash", JStr "0x01"); ("from", JStr Sample.alice);
                   ("to", JStr Sample.bob); ("value", JStr "5"); ("block", JInt 3);
                   ("gas_price", JStr "1"); ("type", JStr "sent") ];
           JDict [ ("hash", JStr "0x01"); ("from", JStr Sample.alice);
                   ("to", JStr Sample.bob); ("value", JStr "5"); ("block", JInt 2);
                   ("gas_price", JStr "1"); ("type", JStr "sent") ] ]
       = take (Z.to_nat 2)
           (flat_map (records_in Sample.lib
                        (node_at (Sample.world 3 []) "https://zkevm-rpc.com")
                        Sample.alice) bs).
Proof.
  eapply (MonitorExtra.first_matches_returned Sample.lib (Sample.world 3 [])
            Sample.alice "polygon-zkevm" "https://zkevm-rpc.com" Sample.alice 2 []);
    try reflexivity.
  lia.
Defined.

Lemma protocol_data_fields_witness :
  fst (Aggregator.get_protocol_data
         (Sample.upstream (JDict [("name", JStr "Aave"); ("tvl", JInt 7)]) [])
         "aave" Aggregator.init)
  = Ok (JDict [ ("name", field_or JNull "name" [("name", JStr "Aave"); ("tvl", JInt 7)]);
                ("symbol", field_or JNull "symbol" [("name", JStr "Aave"); ("tvl", JInt 7)]);
                ("tvl", field_or JNull "tvl" [("name", JStr "Aave"); ("tvl", JInt 7)]);
                ("chainTvls",
                 field_or (JDict []) "chainTvls" [("name", JStr "Aave"); ("tvl", JInt 7)]);
                ("change_1h",
                 field_or JNull "change_1h" [("name", JStr "Aave"); ("tvl", JInt 7)]);
                ("change_1d",
                 field_or JNull "change_1d" [("name", JStr "Aave"); ("tvl", JInt 7)]);
                ("change_7d",
                 field_or JNull "change_7d" [("name", JStr "Aave"); ("tvl", JInt 7)]);
                ("mcap", field_or JNull "mcap" [("name", JStr "Aave"); ("tvl", JInt 7)]) ]).
Proof.
  apply (AggregatorExtra.protocol_data_fields
           (Sample.upstream (JDict [("name", JStr "Aave"); ("tvl", JInt 7)]) [])
           "aave" Aggregator.init
           {| Aggregator.status := 200;
              Aggregator.body_json := Ok (JDict [("name", JStr "Aave"); ("tvl", JInt 7)]) |}
           [("name", JStr "Aave"); ("tvl", JInt 7)]); reflexivity.
Defined.

Lemma missing_result_witness :
  fst (Aggregator.query_blockchain
         (Sample.upstream (JDict [("error", JStr "method not found")]) [])
         "scroll" "eth_blockNumber" Aggregator.init)
  = Ok (JDict [ ("chain", JStr "scroll"); ("method", JStr "eth_blockNumber");
                ("result", JNull); ("block_number", JInt 0) ]).
Proof.
  apply (AggregatorExtra.missing_result_reads_as_block_zero
           (Sample.upstream (JDict [("error", JStr "method not found")]) [])
           "scroll" Aggregator.init
           {| Aggregator.status := 200;
              Aggregator.body_json := Ok (JDict [("error", JStr "method not found")]) |}
           [("error", JStr "method not found")]); reflexivity.
Defined.

Lemma non_string_result_witness :
  fst (Aggregator.query_blockchain (Sample.upstream (JDict [("result", JNull)]) [])
         "scroll" "eth_blockNumber" Aggregator.init)
  = Ok (JDict [ ("error", JStr "int() can't convert non-string with explicit base");
                ("chain", JStr "scroll") ]).
Proof.
  apply (AggregatorExtra.non_string_result_is_an_error
           (Sample.upstream (JDict [("result", JNull)]) [])
           "scroll" Aggregator.init
           {| Aggregator.status := 200;
              Aggregator.body_json := Ok (JDict [("result", JNull)]) |}
           [("result", JNull)] JNull); reflexivity.
Defined.

Lemma unknown_token_witness :
  exists stamp t,
    let result := JDict [ ("token", JStr "nosuchcoin"); ("price_usd", JNull);
                          ("change_24h", JNull); ("market_cap", JNull);
                          ("timestamp", JStr stamp) ] in
    fst (Aggregator.get_token_price (Sample.upstream (JDict []) []) "nosuchcoin"
           Aggregator.init) = Ok result
    /\ field "error" result = None
    /\ Aggregator.cache (snd (Aggregator.get_token_price (Sample.upstream (JDict []) [])
                                "nosuchcoin" Aggregator.init))
         !! ("price_" +:+ "nosuchcoin") = Some (t, result).
Proof.
  apply (AggregatorExtra.unknown_token_nulls_are_cached (Sample.upstream (JDict []) [])
           "nosuchcoin" Aggregator.init
           {| Aggregator.status := 200; Aggregator.body_json := Ok (JDict []) |} []);
    reflexivity.
Defined.

Lemma other_keys_witness :
  Aggregator.cache
    (snd (Aggregator.invoke (Sample.upstream (JDict []) [])
            (Aggregator.Get_token_price "ethereum") (Sample.holding (JInt 1))))
    !! "tvl_aave"
  = Aggregator.cache (Sample.holding (JInt 1)) !! "tvl_aave".
Proof.
  apply (AggregatorExtra.other_keys_untouched (Sample.upstream (JDict []) [])
           (Aggregator.Get_token_price "ethereum") (Sample.holding (JInt 1)) "tvl_aave").
  discriminate.
Defined.

Lemma keys_never_removed_witness :
  is_Some (Aggregator.cache
             (Aggregator.run_all (Sample.upstream_status 503 JNull [])
                [Aggregator.Fetch_tvl "aave"; Aggregator.Get_token_price "ethereum"]
                (Sample.holding (JInt 1))) !! "tvl_aave").
Proof.
  apply (AggregatorExtra.keys_never_removed (Sample.upstream_status 503 JNull [])
           [Aggregator.Fetch_tvl "aave"; Aggregator.Get_token_price "ethereum"]
           (Sample.holding (JInt 1)) "tvl_aave").
  exists (0, JInt 1). reflexivity.
Defined.

Lemma whole_days_witness :
  Aggregator.fetch_tvl
    (Sample.upstream JNull [5 * Sample.second + 3 * (86400 * 1000000)])
    "aave" (Sample.holding (JInt 1))
  = (Ok (JInt 1), Aggregator.tick (Sample.holding (JInt 1))).
Proof.
  apply (proj1 (AggregatorExtra.whole_days_do_not_age
                  (Sample.upstream JNull [5 * Sample.second + 3 * (86400 * 1000000)])
                  "aave" "ethereum" (Sample.holding (JInt 1)) 0 (5 * Sample.second) 3
                  (JInt 1) eq_refl)).
  - reflexivity.
  - unfold Sample.second. lia.
Defined.

Lemma failed_refresh_witness :
  Aggregator.fetch_tvl (Sample.upstream_status 503 JNull [7200 * Sample.second])
    "aave" (Sample.holding (JInt 1))
  = (Ok (JDict [ ("error", JStr ("HTTP " +:+ str_int 503));
                 ("protocol", JStr "aave") ]),
     Aggregator.log_call (Aggregator.GET (Aggregator.tvl_url "aave") [])
       (Aggregator.tick (Sample.holding (JInt 1))))
  /\ Aggregator.cache
       (snd (Aggregator.fetch_tvl (Sample.upstream_status 503 JNull [7200 * Sample.second])
               "aave" (Sample.holding (JInt 1)))) !! ("tvl_" +:+ "aave")
     = Some (0, JInt 1).
Proof.
  apply (AggregatorExtra.failed_refresh_keeps_stale_entry
           (Sample.upstream_status 503 JNull [7200 * Sample.second]) "aave"
           (Sample.holding (JInt 1)) 0 (JInt 1)
           {| Aggregator.status := 503; Aggregator.body_json := Ok JNull |});
    try reflexivity.
  - vm_compute. discriminate.
  - discriminate.
Defined.

Lemma monitor_call_tool_witness :
  exists i v sent',
    monitor_invocation_of "track_transactions" (Sample.only_address Sample.alice) = Some i
    /\ invoke Sample.lib (Sample.world 3 []) i [] = (Ok v, sent')
    /\ is_dict v = true
    /\ call_tool Sample.lib (Sample.world 3 []) Sample.dumps "track_transactions"
         (Sample.only_address Sample.alice) []
       = (Ok [ {| Mcp.type := "text"; Mcp.text := Sample.dumps v (Some 2) |} ], sent').
Proof.
  apply (ServerExtra.monitor_call_tool_answers Sample.lib (Sample.world 3 [])
           Sample.dumps "track_transactions" (Sample.only_address Sample.alice) []).
  - simpl. tauto.
  - reflexivity.
Defined.


Lemma monitor_missing_argument_witness :
  exists key,
    In (JStr key) (schema_required list_tools "monitor_events")
    /\ call_tool Sample.lib (Sample.world 3 []) Sample.dumps "monitor_events"
         Sample.no_arguments []
       = (Raise (Exception ("'" +:+ key +:+ "'")), []).
Proof.
  apply (ServerExtra.monitor_missing_argument_raises Sample.lib (Sample.world 3 [])
           Sample.dumps "monitor_events" Sample.no_arguments []).
  - simpl. tauto.
  - reflexivity.
Defined.

Lemma missing_protocol_name_witness :
  fst (Aggregator.call_tool (Sample.upstream JNull []) Sample.dumps "get_protocol_data"
         Sample.no_aggregator_arguments Aggregator.start)
  = Ok [ {| Mcp.type := "text";
            Mcp.text := Sample.dumps (JDict [("error", JStr "protocol_name required")])
                          None |} ]
  /\ Aggregator.self_state
       (snd (Aggregator.call_tool (Sample.upstream JNull []) Sample.dumps
               "get_protocol_data" Sample.no_aggregator_arguments Aggregator.start))
     = Aggregator.self_state Aggregator.start.
Proof.
  apply (ServerExtra.missing_protocol_name_is_refused (Sample.upstream JNull [])
           Sample.dumps Sample.no_aggregator_arguments Aggregator.start).
  left. reflexivity.
Defined.

End Witnesses.
